(** * train_model_cuda.py: the MNIST training script, embedded and verified

    The script is straight-line orchestration of TensorFlow/Keras, numpy and
    tensorflowjs.  The embedding follows it statement by statement:

    - numpy arrays are a shape plus row-major data; pixels are IEEE binary32
      values ([spec_float] at precision 24), labels are bytes;
    - the interpreter state (sys.argv, os.environ, the file system, the
      TensorFlow device configuration, what [print] wrote, which framework
      entry points were called) is threaded through a state-and-exception
      monad;
    - what the framework answers (which calls raise, which arrays the loader
      returns, what every training epoch yields) is a [world], and every
      theorem about the script holds for all worlds unless it says otherwise. *)

From Stdlib Require Import ZArith QArith Lqa Floats.SpecFloat Strings.Byte Strings.Ascii.
From stdpp Require Import gmap strings list pretty sorting.

Open Scope string_scope.
Open Scope list_scope.
Open Scope nat_scope.

(** ** Results of calls that may raise *)

(** The exception classes the script can meet; [parent] is the class
    hierarchy of Python (and of numpy and TensorFlow for their own classes). *)
Inductive exn_class :=
  | BaseException | SystemExit | KeyboardInterrupt | Exception
  | RuntimeError | NotImplementedError
  | ImportError | ModuleNotFoundError
  | ValueError | AxisError
  | LookupError | IndexError
  | OSError | FileNotFoundError | FileExistsError
  | AttributeError | MemoryError | OpError.

#[global] Instance exn_class_eq_dec : EqDecision exn_class.
Proof. solve_decision. Defined.

Definition parent (c : exn_class) : option exn_class :=
  match c with
  | BaseException => None
  | SystemExit | KeyboardInterrupt => Some BaseException
  | Exception => Some BaseException
  | RuntimeError | ImportError | ValueError | LookupError | OSError
  | AttributeError | MemoryError | OpError => Some Exception
  | NotImplementedError => Some RuntimeError
  | ModuleNotFoundError => Some ImportError
  | AxisError => Some ValueError
  | IndexError => Some LookupError
  | FileNotFoundError | FileExistsError => Some OSError
  end.

(** The class and its ancestors, nearest first. The hierarchy is at most four
    levels deep. *)
Fixpoint ancestors (depth : nat) (c : exn_class) : list exn_class :=
  match depth with
  | O => []
  | S d => c :: match parent c with
                | Some p => ancestors d p
                | None => []
                end
  end.

Definition issubclass (c d : exn_class) : bool :=
  bool_decide (d ∈ ancestors 4 c).

Record exception := mk_exception { exn_cls : exn_class; exn_msg : string }.

(** [isinstance(e, C)], the test an [except C] clause makes. *)
Definition isinstance (e : exception) (c : exn_class) : bool :=
  issubclass (exn_cls e) c.

Inductive result (A : Type) :=
  | Ok (a : A)
  | Raise (e : exception).
Arguments Ok {A} a.
Arguments Raise {A} e.

Definition rbind {A B} (r : result A) (k : A → result B) : result B :=
  match r with
  | Ok a => k a
  | Raise e => Raise e
  end.

(** ** Floating point *)

Module F32.
Definition prec : Z := 24.
Definition emax : Z := 128.

(** The binary32 value of an integer, rounded to nearest even. *)
Definition of_Z (n : Z) : spec_float := binary_normalize prec emax n 0 false.
Definition of_byte (b : byte) : spec_float := of_Z (Z.of_N (Byte.to_N b)).

Definition zero : spec_float := of_Z 0.
Definition one : spec_float := of_Z 1.
Definition div (x y : spec_float) : spec_float := SFdiv prec emax x y.

(** [0 <= x <= 1] in the IEEE order (false on NaN). *)
Definition in_unit_interval (x : spec_float) : bool :=
  SFleb zero x && SFleb x one.
End F32.

(** ** numpy arrays *)

Record ndarray (A : Type) := NdArray { shape : list nat; data : list A }.
Arguments NdArray {A} shape data.
Arguments shape {A} _.
Arguments data {A} _.

Definition size_of (sh : list nat) : nat := foldr Nat.mul 1 sh.

(** The invariant of every numpy array: as many elements as the shape says. *)
Definition well_shaped {A} (x : ndarray A) : Prop :=
  length (data x) = size_of (shape x).

(** [x[i]] on the first axis; [None] is numpy's IndexError. *)
Definition item {A} (x : ndarray A) (i : nat) : option (ndarray A) :=
  match shape x with
  | [] => None
  | n :: sh =>
      if decide (i < n)
      then Some (NdArray sh (take (size_of sh) (drop (i * size_of sh) (data x))))
      else None
  end.

(** [x.astype('float32')] on a uint8 array. *)
Definition astype_float32 (x : ndarray byte) : ndarray spec_float :=
  NdArray (shape x) (F32.of_byte <$> data x).

(** [x / c] for a float32 array and a Python scalar: the scalar is taken to
    float32 and the division is elementwise. *)
Definition true_divide (x : ndarray spec_float) (c : spec_float)
  : ndarray spec_float :=
  NdArray (shape x) ((λ v, F32.div v c) <$> data x).

(** The position at which [np.expand_dims(x, axis)] inserts the new axis:
    [axis] ranges over [-ndim-1 .. ndim], negative values counting from the
    end. *)
Definition normalize_axis (axis : Z) (ndim : nat) : option nat :=
  let n := (Z.of_nat ndim + 1)%Z in
  if decide (0 ≤ axis < n)%Z then Some (Z.to_nat axis)
  else if decide (- n ≤ axis < 0)%Z then Some (Z.to_nat (axis + n))
  else None.

Definition expand_dims {A} (x : ndarray A) (axis : Z) : result (ndarray A) :=
  match normalize_axis axis (length (shape x)) with
  | Some k => Ok (NdArray (take k (shape x) ++ 1 :: drop k (shape x)) (data x))
  | None => Raise (mk_exception AxisError "axis is out of bounds")
  end.

(** ** keras.utils.to_categorical

    Framework code, not the script's: the definition follows the library's
    implementation (flatten the labels, allocate [batch_size * num_classes]
    zeros, assign 1 at [(i, x[i])] for every i, reshape). A class index that
    is not below [num_classes] is numpy's IndexError. *)

Definition label_of (b : byte) : nat := N.to_nat (Byte.to_N b).

Fixpoint scatter_ones (num_classes i : nat) (xs : list nat)
    (categorical : list spec_float) : result (list spec_float) :=
  match xs with
  | [] => Ok categorical
  | x :: xs' =>
      if decide (x < num_classes)
      then scatter_ones num_classes (S i) xs'
             (<[i * num_classes + x := F32.one]> categorical)
      else Raise (mk_exception IndexError "index is out of bounds for axis 1")
  end.

(** A trailing axis of length 1 is dropped from the input shape when there
    is another axis before it. *)
Definition squeeze_last (sh : list nat) : list nat :=
  match reverse sh with
  | 1 :: (_ :: _) as rest => reverse rest
  | _ => sh
  end.

Definition to_categorical (y : ndarray byte) (num_classes : nat)
  : result (ndarray spec_float) :=
  let input_shape := squeeze_last (shape y) in
  let x := label_of <$> data y in
  rbind
    (match num_classes with
     | O => match x with
            | [] => Raise (mk_exception ValueError
                             "zero-size array to reduction operation maximum")
            | _ => Ok (S (foldr Nat.max 0 x))
            end
     | S _ => Ok num_classes
     end)
    (λ num_classes,
       let batch_size := length x in
       rbind
         (scatter_ones num_classes 0 x
            (replicate (batch_size * num_classes) F32.zero))
         (λ categorical,
            Ok (NdArray (input_shape ++ [num_classes]) categorical))).

(** ** The dataset *)

(** What [keras.datasets.mnist.load_data()] returns:
    [(x_train, y_train), (x_test, y_test)], all uint8. *)
Definition dataset : Type :=
  (ndarray byte * ndarray byte) * (ndarray byte * ndarray byte).

Record prepared := Prepared {
  x_train : ndarray spec_float;
  y_train : ndarray spec_float;
  x_test : ndarray spec_float;
  y_test : ndarray spec_float;
}.

Definition f255 : spec_float := F32.of_Z 255.

(** The loader's contract for MNIST: [n] training and [m] test images of
    28 x 28 bytes, one label per image, every label a digit. *)
Record mnist_like (ds : dataset) (n m : nat) : Prop := {
  ml_x_train : shape ds.1.1 = [n; 28; 28];
  ml_y_train : shape ds.1.2 = [n];
  ml_x_test : shape ds.2.1 = [m; 28; 28];
  ml_y_test : shape ds.2.2 = [m];
  ml_ws_x_train : well_shaped ds.1.1;
  ml_ws_y_train : well_shaped ds.1.2;
  ml_ws_x_test : well_shaped ds.2.1;
  ml_ws_y_test : well_shaped ds.2.2;
  ml_digits_train : Forall (λ b, label_of b ≤ 9) (data ds.1.2);
  ml_digits_test : Forall (λ b, label_of b ≤ 9) (data ds.2.2);
}.

(** A one-hot vector over the ten digit classes. *)
Definition one_hot (v : list spec_float) (y : nat) : Prop :=
  length v = 10
  ∧ v !! y = Some F32.one
  ∧ ∀ j, j < 10 → j ≠ y → v !! j = Some F32.zero.

Definition unit_pixels (img : ndarray spec_float) : Prop :=
  Forall (λ v, F32.in_unit_interval v = true) (data img).

(** What lines 45-51 promise of an image batch [x] made from the raw batch
    [raw] of [n] images: every pixel is the byte divided by 255.0, and every
    image [x[i]] is a (28, 28, 1) tensor with pixels in [0, 1]. *)
Definition normalized_images (raw : ndarray byte) (x : ndarray spec_float)
    (n : nat) : Prop :=
  shape x = [n; 28; 28; 1]
  ∧ data x = (λ b, F32.div (F32.of_byte b) f255) <$> data raw
  ∧ ∀ i, i < n →
      ∃ img, item x i = Some img
             ∧ shape img = [28; 28; 1]
             ∧ well_shaped img
             ∧ unit_pixels img.

(** What lines 53-55 promise of a label batch [y] made from the raw labels
    [raw]: row [i] is the one-hot vector of label [raw[i]]. *)
Definition one_hot_labels (raw : ndarray byte) (y : ndarray spec_float)
    (n : nat) : Prop :=
  shape y = [n; 10]
  ∧ ∀ i b, data raw !! i = Some b →
      ∃ v, item y i = Some (NdArray [10] v) ∧ one_hot v (label_of b).

(** A dataset of one training and one test image, for running the script on
    concrete input. *)
Definition tiny_mnist : dataset :=
  ((NdArray [1; 28; 28] (replicate 784 "255"%byte), NdArray [1] ["007"%byte]),
   (NdArray [1; 28; 28] (replicate 784 "128"%byte), NdArray [1] ["003"%byte])).

(** ** Keras objects *)

Inductive activation := relu | softmax.
Inductive padding := same | valid.

#[warnings="-register-all"]
Inductive layer :=
  | Input (input_shape : list nat)
  | RandomRotation (factor : Q)
  | RandomZoom (height_factor : Q)
  | RandomTranslation (height_factor width_factor : Q)
  | Conv2D (filters : nat) (kernel_size : nat * nat)
           (act : activation) (pad : padding)
  | BatchNormalization
  | MaxPooling2D (pool_size : nat * nat)
  | Dropout (rate : Q)
  | Flatten
  | Dense (units : nat) (act : activation)
  | Sequential (layers : list layer).

(** The weight tensors of a model, flattened. The script never looks inside
    them. *)
Definition weights : Type := list spec_float.

Inductive optimizer := Adam (learning_rate : Q).

Record compile_args := CompileArgs {
  c_optimizer : optimizer;
  c_loss : string;
  c_metrics : list string;
}.

Record keras_model := Model {
  m_layers : list layer;
  m_compiled : option compile_args;
  m_weights : weights;
}.

Inductive callback :=
  | ReduceLROnPlateau (monitor : string) (factor : Q) (patience : nat)
                      (min_lr : Q) (verbose : nat)
  | EarlyStopping (monitor : string) (patience : nat)
                  (restore_best_weights : bool) (verbose : nat)
  | ModelCheckpoint (filepath : string) (monitor : string)
                    (save_best_only : bool) (verbose : nat).

Record fit_args := FitArgs {
  batch_size : nat;
  epochs : nat;
  validation_split : Q;
  callbacks : list callback;
  fit_verbose : nat;
}.

(** The metrics Keras reports at the end of an epoch. They are finite floats;
    a finite float is a rational, and only their order is ever used. *)
Record logs := Logs {
  loss : Q;
  accuracy : Q;
  val_loss : Q;
  val_accuracy : Q;
}.

Definition logs_get (l : logs) (name : string) : option Q :=
  if decide (name = "loss") then Some (loss l)
  else if decide (name = "accuracy") then Some (accuracy l)
  else if decide (name = "val_loss") then Some (val_loss l)
  else if decide (name = "val_accuracy") then Some (val_accuracy l)
  else None.

(** ** The interpreter state and the outside world *)

(** A physical device, by name. *)
Definition device : Type := string.

(** The entry points of TensorFlow, Keras, numpy, os and tensorflowjs that the
    script calls, with their arguments. *)
Module Call.
Inductive t :=
  | tf_config_list_physical_devices (device_type : string)
  | tf_config_experimental_set_memory_growth (d : device) (enable : bool)
  | tf_config_set_visible_devices (ds : list device) (device_type : string)
  | keras_datasets_mnist_load_data
  | ndarray_astype (dtype : string)
  | ndarray_truediv (c : spec_float)
  | np_expand_dims (axis : Z)
  | keras_utils_to_categorical (num_classes : nat)
  | keras_Sequential (layers : list layer)
  | model_compile (m : keras_model) (args : compile_args)
  | model_summary (m : keras_model)
  | model_fit (m : keras_model) (x y : ndarray spec_float) (args : fit_args)
  | model_evaluate (m : keras_model) (x y : ndarray spec_float)
  | keras_models_load_model (path : string)
  | os_makedirs (path : string) (exist_ok : bool)
  | model_save (m : keras_model) (path : string)
  | import_tensorflowjs
  | tfjs_converters_save_keras_model (m : keras_model) (artifacts_dir : string).
End Call.
Abbreviation call := Call.t.

(** What a path of the working directory holds. *)
Inductive entry :=
  | Dir
  | H5 (m : keras_model)
  | ModelJson (topology : list layer) (weight_files : list string)
  | WeightShard (w : weights)
  | Other (content : string).

(** A printed line: literal text and formatted values of an f-string. *)
Inductive piece :=
  | Lit (s : string)
  | FmtNat (n : nat)
  | FmtDevice (d : device)
  | FmtExn (e : exception)
  | FmtFloat (x : Q) (decimals : nat).

Definition line : Type := list piece.

Record state := State {
  sys_argv : list string;
  os_environ : gmap string string;
  fs : gmap string entry;
  tf_memory_growth : gmap string bool;
  (** [None]: the default, every physical GPU is visible *)
  tf_visible_gpus : option (list device);
  (** the lines the script's own [print] statements wrote *)
  stdout : list line;
  (** the library entry points the script called, oldest first *)
  calls : list call;
  (** the paths of the files written, oldest first *)
  writes : list string;
}.

Definition set_os_environ (f : gmap string string → gmap string string)
    (s : state) : state :=
  State (sys_argv s) (f (os_environ s)) (fs s) (tf_memory_growth s)
        (tf_visible_gpus s) (stdout s) (calls s) (writes s).
Definition set_fs (f : gmap string entry → gmap string entry)
    (s : state) : state :=
  State (sys_argv s) (os_environ s) (f (fs s)) (tf_memory_growth s)
        (tf_visible_gpus s) (stdout s) (calls s) (writes s).
Definition set_tf_memory_growth (f : gmap string bool → gmap string bool)
    (s : state) : state :=
  State (sys_argv s) (os_environ s) (fs s) (f (tf_memory_growth s))
        (tf_visible_gpus s) (stdout s) (calls s) (writes s).
Definition set_tf_visible_gpus (v : option (list device)) (s : state) : state :=
  State (sys_argv s) (os_environ s) (fs s) (tf_memory_growth s)
        v (stdout s) (calls s) (writes s).
Definition set_stdout (f : list line → list line) (s : state) : state :=
  State (sys_argv s) (os_environ s) (fs s) (tf_memory_growth s)
        (tf_visible_gpus s) (f (stdout s)) (calls s) (writes s).
Definition set_calls (f : list call → list call) (s : state) : state :=
  State (sys_argv s) (os_environ s) (fs s) (tf_memory_growth s)
        (tf_visible_gpus s) (stdout s) (f (calls s)) (writes s).
Definition set_writes (f : list string → list string) (s : state) : state :=
  State (sys_argv s) (os_environ s) (fs s) (tf_memory_growth s)
        (tf_visible_gpus s) (stdout s) (calls s) (f (writes s)).
Definition set_sys_argv (a : list string) (s : state) : state :=
  State a (os_environ s) (fs s) (tf_memory_growth s)
        (tf_visible_gpus s) (stdout s) (calls s) (writes s).

(** What one epoch of training gives: new weights and the epoch's metrics, or
    an exception out of the training step. *)
Inductive epoch_outcome :=
  | Trained (w : weights) (l : logs)
  | TrainingRaises (e : exception).

(** Everything the script does not decide: the answers of the libraries. *)
Record world := World {
  (** the calls that raise, and what they raise *)
  w_raises : call → option exception;
  (** the GPUs of the machine *)
  w_gpus : list device;
  (** the arrays of the dataset *)
  w_mnist : dataset;
  (** the initial weights of a freshly built model *)
  w_init_weights : list layer → weights;
  (** the outcome of training epoch [i] (counted from 0) *)
  w_epoch : nat → epoch_outcome;
  (** [(loss, accuracy)] of a model on the test set *)
  w_evaluate : keras_model → Q * Q;
  (** how the converter cuts weights into shards *)
  w_shards : weights → list weights;
  (** the files, by name inside the target directory, that a failing
      conversion leaves behind *)
  w_partial : list (string * entry);
}.

(** ** The monad of the script: state and exceptions *)

Definition M (A : Type) : Type := state → result A * state.

Definition ret {A} (a : A) : M A := λ s, (Ok a, s).

Definition bind {A B} (m : M A) (k : A → M B) : M B :=
  λ s, match m s with
       | (Ok a, s') => k a s'
       | (Raise e, s') => (Raise e, s')
       end.

Definition raise {A} (e : exception) : M A := λ s, (Raise e, s).

Definition lift {A} (r : result A) : M A := λ s, (r, s).

Definition modify (f : state → state) : M unit := λ s, (Ok (), f s).

Notation "'let*' x ':=' m 'in' k" := (bind m (λ x, k))
  (at level 10, x pattern, m at level 100, k at level 200,
   format "'[v' 'let*'  x  ':='  m  'in' '/' k ']'").
Notation "m ';;' k" := (bind m (λ _, k))
  (at level 100, k at level 200, right associativity,
   format "'[v' m  ';;' '/' k ']'").

(** [try: body except C1 as e: h1 except C2 as e: h2 ...]: the first clause
    whose class the exception is an instance of handles it; an exception no
    clause matches, or one raised by a handler, propagates. *)
Definition try_except {A} (body : M A)
    (handlers : list (exn_class * (exception → M A))) : M A :=
  λ s, match body s with
       | (Ok a, s') => (Ok a, s')
       | (Raise e, s') =>
           match find (λ h, isinstance e h.1) handlers with
           | Some h => h.2 e s'
           | None => (Raise e, s')
           end
       end.

(** [for x in xs: body] *)
Fixpoint for_each {A} (xs : list A) (body : A → M unit) : M unit :=
  match xs with
  | [] => ret ()
  | x :: xs' => body x ;; for_each xs' body
  end.

Definition print (l : line) : M unit := modify (set_stdout (λ out, out ++ [l])).

(** Record a call of a library entry point. *)
Definition log (c : call) : M unit := modify (set_calls (λ cs, cs ++ [c])).

Definition write_file (path : string) (e : entry) : M unit :=
  modify (λ s, set_writes (λ ws, ws ++ [path]) (set_fs (insert path e) s)).

Definition nl : string := String "010"%char "".

Fixpoint str_repeat (s : string) (n : nat) : string :=
  match n with
  | O => ""
  | S n' => s +:+ str_repeat s n'
  end.

(** ** Paths *)

(** The directories on the way to [s], outermost first, [s] itself last;
    [cur] is the part of the path already read. *)
Fixpoint dir_chain (cur s : string) : list string :=
  match s with
  | "" => [cur]
  | String c s' =>
      if Ascii.eqb c "/"%char then cur :: dir_chain (cur +:+ "/") s'
      else dir_chain (cur +:+ String c "") s'
  end.

(** [os.path.dirname]: what precedes the last slash; [dir] is the answer so
    far, [cur] the part of the path already read. *)
Fixpoint dirname_from (dir cur s : string) : string :=
  match s with
  | "" => dir
  | String c s' =>
      if Ascii.eqb c "/"%char then dirname_from cur (cur +:+ "/") s'
      else dirname_from dir (cur +:+ String c "") s'
  end.

Definition dirname (path : string) : string := dirname_from "" "" path.

(** ** The libraries, as the script uses them *)

Section Script.
Context (w : world).

(** Record a call and raise what the world says it raises. *)
Definition invoke (c : call) : M unit :=
  log c ;;
  match w_raises w c with
  | Some e => raise e
  | None => ret ()
  end.

Definition list_physical_devices (device_type : string) : M (list device) :=
  invoke (Call.tf_config_list_physical_devices device_type) ;;
  ret (if decide (device_type = "GPU") then w_gpus w else []).

Definition set_memory_growth (d : device) (enable : bool) : M unit :=
  invoke (Call.tf_config_experimental_set_memory_growth d enable) ;;
  modify (set_tf_memory_growth (insert d enable)).

Definition set_visible_devices (ds : list device) (device_type : string)
  : M unit :=
  invoke (Call.tf_config_set_visible_devices ds device_type) ;;
  if decide (device_type = "GPU") then modify (set_tf_visible_gpus (Some ds))
  else ret ().

(** [os.environ[k] = v] *)
Definition environ_set (k v : string) : M unit :=
  modify (set_os_environ (insert k v)).


Definition astype (x : ndarray byte) (dtype : string)
  : M (ndarray spec_float) :=
  log (Call.ndarray_astype dtype) ;;
  if decide (dtype = "float32") then ret (astype_float32 x)
  else raise (mk_exception NotImplementedError dtype).

Definition truediv (x : ndarray spec_float) (c : spec_float)
  : M (ndarray spec_float) :=
  log (Call.ndarray_truediv c) ;;
  ret (true_divide x c).

Definition np_expand_dims {A} (x : ndarray A) (axis : Z) : M (ndarray A) :=
  log (Call.np_expand_dims axis) ;;
  lift (expand_dims x axis).

Definition keras_utils_to_categorical (y : ndarray byte) (num_classes : nat)
  : M (ndarray spec_float) :=
  log (Call.keras_utils_to_categorical num_classes) ;;
  lift (to_categorical y num_classes).

Definition keras_Sequential (layers : list layer) : M keras_model :=
  invoke (Call.keras_Sequential layers) ;;
  ret (Model layers None (w_init_weights w layers)).

Definition compile (m : keras_model) (args : compile_args) : M keras_model :=
  invoke (Call.model_compile m args) ;;
  ret (Model (m_layers m) (Some args) (m_weights m)).

Definition summary (m : keras_model) : M unit := invoke (Call.model_summary m).

Definition is_dir (s : state) (path : string) : bool :=
  match fs s !! path with
  | Some Dir => true
  | _ => false
  end.

(** Writing a model to an HDF5 file; the directory must be there. *)
Definition h5_save (m : keras_model) (path : string) : M unit :=
  match w_raises w (Call.model_save m path) with
  | Some e => raise e
  | None =>
      λ s, if bool_decide (dirname path = "") || is_dir s (dirname path)
           then write_file path (H5 m) s
           else raise (mk_exception OSError "Unable to create file") s
  end.

Definition save (m : keras_model) (path : string) : M unit :=
  log (Call.model_save m path) ;;
  h5_save m path.

Definition load_model (path : string) : M keras_model :=
  invoke (Call.keras_models_load_model path) ;;
  λ s, match fs s !! path with
       | Some (H5 m) => (Ok m, s)
       | Some _ => (Raise (mk_exception OSError "Unable to open file"), s)
       | None =>
           (Raise (mk_exception OSError "No file or directory found"), s)
       end.

(** [os.makedirs]: every missing directory on the way is created; a file in
    the way, or an existing leaf without [exist_ok], is an error. *)
Fixpoint make_dir_chain (exist_ok : bool) (chain : list string) : M unit :=
  match chain with
  | [] => ret ()
  | p :: rest =>
      λ s, match fs s !! p with
           | None => make_dir_chain exist_ok rest (set_fs (insert p Dir) s)
           | Some Dir =>
               match rest with
               | [] => if exist_ok then (Ok (), s)
                       else (Raise (mk_exception FileExistsError p), s)
               | _ => make_dir_chain exist_ok rest s
               end
           | Some _ => (Raise (mk_exception FileExistsError p), s)
           end
  end.

Definition makedirs (path : string) (exist_ok : bool) : M unit :=
  invoke (Call.os_makedirs path exist_ok) ;;
  make_dir_chain exist_ok (dir_chain "" path).

(** A file that is downloaded once and kept: an entry already at [path] is
    taken as the valid copy and left alone. *)
Definition cache_file (path : string) (content : entry) : M unit :=
  λ s, match fs s !! path with
       | None => write_file path content s
       | Some Dir => (Raise (mk_exception OSError "Is a directory"), s)
       | Some _ => (Ok (), s)
       end.

Definition mnist_cache : string := "~/.keras/datasets/mnist.npz".

(** [keras.datasets.mnist.load_data()]: on a first run the archive is
    downloaded into the Keras cache of the home directory, whose
    directories are created; a failing download is an exception of the
    call. *)
Definition load_data : M dataset :=
  invoke Call.keras_datasets_mnist_load_data ;;
  make_dir_chain true ["~/.keras"; "~/.keras/datasets"] ;;
  cache_file mnist_cache (Other "mnist.npz") ;;
  ret (w_mnist w).

Definition evaluate (m : keras_model) (x y : ndarray spec_float) : M (Q * Q) :=
  invoke (Call.model_evaluate m x y) ;;
  ret (w_evaluate w m).

(** *** Training and its callbacks *)

Inductive monitor_op := np_greater | np_less.

(** Mode [auto]: a metric whose name mentions [acc] is to be maximised, any
    other minimised. *)
Definition auto_monitor_op (monitor : string) : monitor_op :=
  match String.index 0 "acc" monitor with
  | Some _ => np_greater
  | None => np_less
  end.

Definition Qltb (x y : Q) : bool := negb (Qle_bool y x).

(** [best = None] is the initial value, minus or plus infinity. *)
Definition is_improvement (op : monitor_op) (current : Q) (best : option Q)
  : bool :=
  match best with
  | None => true
  | Some b => match op with
              | np_greater => Qltb b current
              | np_less => Qltb current b
              end
  end.

(** The test of [ReduceLROnPlateau]: an improvement is a change by more
    than [min_delta], which the script leaves at its default 1e-4. *)
Definition plateau_min_delta : Q := 0.0001.

Definition is_plateau_improvement (op : monitor_op) (current : Q)
    (best : option Q) : bool :=
  match best with
  | None => true
  | Some b => match op with
              | np_greater => Qltb (b + plateau_min_delta) current
              | np_less => Qltb current (b - plateau_min_delta)
              end
  end.

Inductive callback_state :=
  | ReduceLRState (wait : nat) (best : option Q)
  | EarlyStoppingState (wait : nat) (best : option Q)
                       (best_weights : option weights)
  | ModelCheckpointState (best : option Q).

Definition on_train_begin (cb : callback) : callback_state :=
  match cb with
  | ReduceLROnPlateau _ _ _ _ _ => ReduceLRState 0 None
  | EarlyStopping _ _ _ _ => EarlyStoppingState 0 None None
  | ModelCheckpoint _ _ _ _ => ModelCheckpointState None
  end.

(** What the callbacks can change of the model being trained: its weights,
    the learning rate of its optimizer and [model.stop_training]. *)
Record training := Training {
  t_weights : weights;
  t_lr : Q;
  t_stop : bool;
}.

Definition learning_rate (args : compile_args) : Q :=
  match c_optimizer args with
  | Adam lr => lr
  end.

Definition with_weights (m : keras_model) (ws : weights) : keras_model :=
  Model (m_layers m) (m_compiled m) ws.

(** [model.optimizer.lr = lr] *)
Definition with_learning_rate (m : keras_model) (lr : Q) : keras_model :=
  Model (m_layers m)
        ((λ args, CompileArgs (Adam lr) (c_loss args) (c_metrics args))
           <$> m_compiled m)
        (m_weights m).

(** The model as it is during training: what [model.save] writes then. *)
Definition snapshot (m : keras_model) (t : training) : keras_model :=
  with_weights (with_learning_rate m (t_lr t)) (t_weights t).

(** [ReduceLROnPlateau] (mode auto, cooldown 0): after [patience] epochs
    without improvement of the monitored value, a learning rate above
    [min_lr] is multiplied by [factor], but not taken below [min_lr]. What
    the new rate does to the next epochs is part of [w_epoch]. *)
Definition on_epoch_end (m : keras_model) (cb : callback) (st : callback_state)
    (epoch : nat) (l : logs) (t : training) : M (callback_state * training) :=
  match cb, st with
  | ReduceLROnPlateau monitor factor patience min_lr _,
    ReduceLRState wait best =>
      match logs_get l monitor with
      | None => ret (st, t)
      | Some current =>
          if is_plateau_improvement (auto_monitor_op monitor) current best
          then ret (ReduceLRState 0 (Some current), t)
          else
            let wait := S wait in
            if decide (patience ≤ wait) then
              let old_lr := t_lr t in
              if Qltb min_lr old_lr then
                let new_lr := (old_lr * factor)%Q in
                let new_lr := if Qltb new_lr min_lr then min_lr else new_lr in
                ret (ReduceLRState 0 best,
                     Training (t_weights t) new_lr (t_stop t))
              else ret (ReduceLRState wait best, t)
            else ret (ReduceLRState wait best, t)
      end
  | EarlyStopping monitor patience restore _,
    EarlyStoppingState wait best best_weights =>
      match logs_get l monitor with
      | None => ret (st, t)
      | Some current =>
          let best_weights :=
            match best_weights with
            | None => if restore then Some (t_weights t) else None
            | Some _ => best_weights
            end in
          let wait := S wait in
          if is_improvement (auto_monitor_op monitor) current best then
            ret (EarlyStoppingState 0 (Some current)
                   (if restore then Some (t_weights t) else best_weights), t)
          else if decide (patience ≤ wait ∧ 0 < epoch) then
            ret (EarlyStoppingState wait best best_weights,
                 Training (if restore
                           then default (t_weights t) best_weights
                           else t_weights t) (t_lr t) true)
          else ret (EarlyStoppingState wait best best_weights, t)
      end
  | ModelCheckpoint filepath monitor save_best_only _,
    ModelCheckpointState best =>
      if save_best_only then
        match logs_get l monitor with
        | None => ret (st, t)
        | Some current =>
            if is_improvement (auto_monitor_op monitor) current best then
              h5_save (snapshot m t) filepath ;;
              ret (ModelCheckpointState (Some current), t)
            else ret (st, t)
        end
      else
        h5_save (snapshot m t) filepath ;;
        ret (st, t)
  | _, _ => ret (st, t)
  end.

(** The callbacks run in the order of the list. *)
Fixpoint callbacks_on_epoch_end (m : keras_model)
    (cbs : list (callback * callback_state)) (epoch : nat) (l : logs)
    (t : training) : M (list (callback * callback_state) * training) :=
  match cbs with
  | [] => ret ([], t)
  | (cb, st) :: rest =>
      let* (st', t') := on_epoch_end m cb st epoch l t in
      let* (rest', t'') := callbacks_on_epoch_end m rest epoch l t' in
      ret ((cb, st') :: rest', t'')
  end.

(** The epochs [epoch], [epoch + 1], ... of the training loop, at most
    [remaining] of them, starting from the weights [ws] and the learning
    rate [lr]; the loop ends early when a callback sets [stop_training]. *)
Fixpoint train_epochs (remaining epoch : nat) (m : keras_model)
    (cbs : list (callback * callback_state)) (ws : weights) (lr : Q)
    (history : list logs) : M (weights * Q * list logs) :=
  match remaining with
  | O => ret (ws, lr, history)
  | S remaining' =>
      match w_epoch w epoch with
      | TrainingRaises e => raise e
      | Trained ws' l =>
          let* (cbs', t) :=
            callbacks_on_epoch_end m cbs epoch l (Training ws' lr false) in
          if t_stop t then ret (t_weights t, t_lr t, history ++ [l])
          else train_epochs remaining' (S epoch) m cbs' (t_weights t)
                 (t_lr t) (history ++ [l])
      end
  end.

Definition fit (m : keras_model) (x y : ndarray spec_float) (args : fit_args)
  : M (keras_model * list logs) :=
  invoke (Call.model_fit m x y args) ;;
  match m_compiled m with
  | None => raise (mk_exception RuntimeError
                     "You must compile your model before training/testing.")
  | Some compiled =>
      let cbs := (λ cb, (cb, on_train_begin cb)) <$> callbacks args in
      let* (ws, lr, history) :=
        train_epochs (epochs args) 0 m cbs (m_weights m)
          (learning_rate compiled) [] in
      ret (with_weights (with_learning_rate m lr) ws, history)
  end.

(** *** tensorflowjs *)

Definition shard_name (i n : nat) : string :=
  "group1-shard" +:+ pretty i +:+ "of" +:+ pretty n +:+ ".bin".

Definition import_tensorflowjs : M unit := invoke Call.import_tensorflowjs.

(** The converter writes [model.json] and the weight shards into
    [artifacts_dir], which it creates. When the world makes it fail, the
    files of [w_partial] are what it leaves in the directory. *)
Definition save_keras_model (m : keras_model) (artifacts_dir : string) : M unit :=
  log (Call.tfjs_converters_save_keras_model m artifacts_dir) ;;
  match w_raises w (Call.tfjs_converters_save_keras_model m artifacts_dir) with
  | Some e =>
      for_each (w_partial w)
        (λ f, write_file (artifacts_dir +:+ "/" +:+ f.1) f.2) ;;
      raise e
  | None =>
      make_dir_chain true (dir_chain "" artifacts_dir) ;;
      let shards := w_shards w (m_weights m) in
      let names := (λ i, shard_name (S i) (length shards))
                     <$> seq 0 (length shards) in
      for_each (zip names shards)
        (λ f, write_file (artifacts_dir +:+ "/" +:+ f.1) (WeightShard f.2)) ;;
      write_file (artifacts_dir +:+ "/model.json")
        (ModelJson (m_layers m) names)
  end.

(** ** The script, block by block *)

(** Lines 19-39: configure GPU. *)
Definition configure_gpu : M unit :=
  let* gpus := list_physical_devices "GPU" in
  match gpus with
  | gpu0 :: _ =>
      try_except
        ((* Enable memory growth to avoid OOM errors *)
         for_each gpus (λ gpu, set_memory_growth gpu true) ;;
         environ_set "TF_ENABLE_ONEDNN_OPTS" "0" ;;
         environ_set "TF_CPP_MIN_LOG_LEVEL" "2" ;;
         print [Lit "✓ Found "; FmtNat (length gpus); Lit " GPU(s)"] ;;
         print [Lit "  GPU: "; FmtDevice gpu0])
        [(RuntimeError, λ e,
            print [Lit "⚠ GPU configuration error: "; FmtExn e] ;;
            print [Lit "  Falling back to CPU..."] ;;
            set_visible_devices [] "GPU")]
  | [] => print [Lit "⚠ No GPU found - training will be slow on CPU"]
  end.

(** Lines 41-43: load MNIST dataset. *)
Definition load_dataset : M dataset :=
  print [Lit (nl +:+ "Loading MNIST dataset...")] ;;
  load_data.

(** Lines 45-55: normalize, add the channel dimension, one-hot encode. *)
Definition preprocess (ds : dataset) : M prepared :=
  let '((x_train, y_train), (x_test, y_test)) := ds in
  (* Normalize pixel values to [0, 1] *)
  let* x_train := (let* x := astype x_train "float32" in truediv x f255) in
  let* x_test := (let* x := astype x_test "float32" in truediv x f255) in
  (* Reshape to add channel dimension (28, 28, 1) *)
  let* x_train := np_expand_dims x_train (-1) in
  let* x_test := np_expand_dims x_test (-1) in
  (* Convert labels to one-hot encoding *)
  let* y_train := keras_utils_to_categorical y_train 10 in
  let* y_test := keras_utils_to_categorical y_test 10 in
  ret (Prepared x_train y_train x_test y_test).

Definition augmentation_layers : list layer :=
  [RandomRotation 0.1; RandomZoom 0.1; RandomTranslation 0.1 0.1].

(** Lines 57-71: data augmentation; the result is
    [(data_augmentation, use_augmentation)]. *)
Definition make_augmentation : M (option keras_model * bool) :=
  try_except
    (let* data_augmentation := keras_Sequential augmentation_layers in
     let use_augmentation := true in
     print [Lit "✓ Data augmentation enabled"] ;;
     ret (Some data_augmentation, use_augmentation))
    [(Exception, λ e,
        print [Lit "⚠ Data augmentation failed: "; FmtExn e] ;;
        print [Lit "  Training without augmentation..."] ;;
        let data_augmentation := None in
        let use_augmentation := false in
        ret (data_augmentation, use_augmentation))].

(** Lines 84-117: the convolutional blocks and the dense layers. *)
Definition convolutional_blocks : list layer :=
  [ (* First convolutional block *)
    Conv2D 32 (3, 3) relu same;
    BatchNormalization;
    Conv2D 32 (3, 3) relu same;
    BatchNormalization;
    MaxPooling2D (2, 2);
    Dropout 0.25;
    (* Second convolutional block *)
    Conv2D 64 (3, 3) relu same;
    BatchNormalization;
    Conv2D 64 (3, 3) relu same;
    BatchNormalization;
    MaxPooling2D (2, 2);
    Dropout 0.25;
    (* Third convolutional block *)
    Conv2D 128 (3, 3) relu same;
    BatchNormalization;
    MaxPooling2D (2, 2);
    Dropout 0.25;
    (* Dense layers *)
    Flatten;
    Dense 256 relu;
    BatchNormalization;
    Dropout 0.5;
    Dense 128 relu;
    BatchNormalization;
    Dropout 0.5;
    Dense 10 softmax ].

(** Lines 75-117: the list [layers]. A Sequential model appended to the list
    is a layer of the new model. *)
Definition create_layers (use_augmentation : bool)
    (data_augmentation : option keras_model) : list layer :=
  let layers := [Input [28; 28; 1]] in
  (* Add data augmentation if available *)
  let layers :=
    match use_augmentation, data_augmentation with
    | true, Some aug => layers ++ [Sequential (m_layers aug)]
    | _, _ => layers
    end in
  (* Add convolutional blocks *)
  layers ++ convolutional_blocks.

(** Lines 73-127: create, compile and summarise the model. *)
Definition create_model (aug : option keras_model * bool) : M keras_model :=
  let '(data_augmentation, use_augmentation) := aug in
  print [Lit (nl +:+ "Creating improved CNN model...")] ;;
  let layers := create_layers use_augmentation data_augmentation in
  let* model := keras_Sequential layers in
  let* model :=
    compile model
      (CompileArgs (Adam 0.001) "categorical_crossentropy" ["accuracy"]) in
  summary model ;;
  ret model.

(** Lines 129-150. *)
Definition the_callbacks : list callback :=
  [ ReduceLROnPlateau "val_loss" 0.5 3 0.00001 1;
    EarlyStopping "val_accuracy" 8 true 1;
    ModelCheckpoint "best_mnist_model.h5" "val_accuracy" true 1 ].

Definition banner : string := str_repeat "=" 60.

(** Lines 152-164: train the model. *)
Definition train (model : keras_model) (p : prepared) : M (keras_model * list logs) :=
  print [Lit (nl +:+ banner)] ;;
  print [Lit "Training model (this may take 10-20 minutes on GPU)..."] ;;
  print [Lit (banner +:+ nl)] ;;
  fit model (x_train p) (y_train p) (FitArgs 128 30 0.15 the_callbacks 1).

(** Lines 166-177: evaluate the trained model, then load the best checkpoint
    and evaluate it; the result is the rebound [model] and [test_acc]. *)
Definition evaluate_and_load_best (model : keras_model) (p : prepared)
  : M (keras_model * Q) :=
  print [Lit (nl +:+ banner)] ;;
  print [Lit "Evaluating model..."] ;;
  print [Lit banner] ;;
  let* (test_loss, test_acc) := evaluate model (x_test p) (y_test p) in
  print [Lit (nl +:+ "✓ Test accuracy: "); FmtFloat test_acc 4; Lit " (";
         FmtFloat (test_acc * 100) 2; Lit "%)"] ;;
  print [Lit "✓ Test loss: "; FmtFloat test_loss 4] ;;
  (* Load best model *)
  let* model := load_model "best_mnist_model.h5" in
  let* (test_loss, test_acc) := evaluate model (x_test p) (y_test p) in
  print [Lit (nl +:+ "✓ Best model accuracy: "); FmtFloat test_acc 4; Lit " (";
         FmtFloat (test_acc * 100) 2; Lit "%)"] ;;
  ret (model, test_acc).

(** Lines 179-183: save final model. *)
Definition save_final (model : keras_model) : M unit :=
  print [Lit (nl +:+ "Saving model in h5 format...")] ;;
  makedirs "models" true ;;
  save model "models/mnist_model.h5" ;;
  print [Lit "✓ Model saved to models/mnist_model.h5"].

Definition converter_command : line :=
  [Lit "  tensorflowjs_converter --input_format keras models/mnist_model.h5 static/model"].

(** Lines 185-206: convert to TensorFlow.js format. *)
Definition convert_to_tfjs (model : keras_model) : M unit :=
  print [Lit (nl +:+ "Converting to TensorFlow.js format...")] ;;
  try_except
    (import_tensorflowjs ;;
     save_keras_model model "static/model" ;;
     print [Lit "✓ Model converted successfully"] ;;
     print [Lit "✓ Model saved to static/model/"])
    [(ImportError, λ _,
        print [Lit (nl +:+ "✗ tensorflowjs not found.")] ;;
        print [Lit "Try: pip install tensorflowjs"] ;;
        print [Lit (nl +:+ "As a workaround, you can convert manually later:")] ;;
        print converter_command);
     (Exception, λ e,
        print [Lit (nl +:+ "⚠ Conversion failed: "); FmtExn e] ;;
        print [Lit (nl +:+ "You can convert manually later with:")] ;;
        print converter_command ;;
        print [Lit (nl +:+ "Or use the saved model file directly:")] ;;
        print [Lit "  models/mnist_model.h5"])].

(** Lines 208-219. *)
Definition report (test_acc : Q) : M unit :=
  print [Lit (nl +:+ banner)] ;;
  print [Lit "✓ TRAINING COMPLETE!"] ;;
  print [Lit banner] ;;
  print [Lit (nl +:+ "Final accuracy: "); FmtFloat (test_acc * 100) 2; Lit "%"] ;;
  print [Lit (nl +:+ "Files created:")] ;;
  print [Lit "  - models/mnist_model.h5"] ;;
  print [Lit "  - static/model/model.json"] ;;
  print [Lit "  - static/model/group*.bin"] ;;
  print [Lit (nl +:+ "Next steps:")] ;;
  print [Lit "  1. Copy the entire 'static/model/' directory to your local machine"] ;;
  print [Lit "  2. Place it in the project's static/model/ folder"] ;;
  print [Lit "  3. Run 'npm run dev' to test the model"].

(** Lines 19-55. *)
Definition prepare : M prepared :=
  configure_gpu ;;
  let* ds := load_dataset in
  preprocess ds.

(** Lines 73-183, given the prepared data and the outcome of lines 57-71. *)
Definition build_train_save (p : prepared) (aug : option keras_model * bool)
  : M (keras_model * Q) :=
  let* model := create_model aug in
  let* (model, history) := train model p in
  let* (model, test_acc) := evaluate_and_load_best model p in
  save_final model ;;
  ret (model, test_acc).

(** Lines 19-183. *)
Definition train_and_save : M (keras_model * Q) :=
  let* p := prepare in
  let* aug := make_augmentation in
  build_train_save p aug.

(** The whole script. *)
Definition main : M unit :=
  let* (model, test_acc) := train_and_save in
  convert_to_tfjs model ;;
  report test_acc.

(** The script from line 41 on, and from line 73 on: [main] continues with
    them after lines 19-39 and 57-71 (lemmas [main_after_configure_gpu] and
    [main_after_augmentation]). *)
Definition from_line_73 (p : prepared) (aug : option keras_model * bool)
  : M unit :=
  let* (model, test_acc) := build_train_save p aug in
  convert_to_tfjs model ;;
  report test_acc.

Definition from_line_41 : M unit :=
  let* p := (let* ds := load_dataset in preprocess ds) in
  let* aug := make_augmentation in
  from_line_73 p aug.

End Script.

(** ** Concrete worlds, for running the script *)

Definition gpu0 : device := "/physical_device:GPU:0".

Definition initial_state : state :=
  State ["train_model_cuda.py"] ∅ ∅ ∅ None [] [] [].

(** Validation accuracy rises for two epochs and then stays below its best:
    0.90, 0.95, 0.93, 0.93, ... *)
Definition sample_epoch (i : nat) : epoch_outcome :=
  Trained [F32.of_Z (Z.of_nat i)]
    (Logs 0.3 0.9 0.2
       match i with
       | 0 => 0.90%Q
       | 1 => 0.95%Q
       | _ => 0.93%Q
       end).

(** One GPU, nothing raises, three weight shards. *)
Definition world_ok : world :=
  World (λ _, None) [gpu0] tiny_mnist (λ _, [F32.zero]) sample_epoch
        (λ _, (0.05%Q, 0.99%Q)) (λ ws, [ws; ws; ws]) [].

Definition raises_at (c : call → bool) (e : exception) (w : world) : world :=
  World (λ x, if c x then Some e else w_raises w x)
        (w_gpus w) (w_mnist w) (w_init_weights w) (w_epoch w)
        (w_evaluate w) (w_shards w) (w_partial w).

Definition is_import_tensorflowjs (c : call) : bool :=
  match c with
  | Call.import_tensorflowjs => true
  | _ => false
  end.

Definition is_save_keras_model (c : call) : bool :=
  match c with
  | Call.tfjs_converters_save_keras_model _ _ => true
  | _ => false
  end.

Definition is_set_memory_growth (c : call) : bool :=
  match c with
  | Call.tf_config_experimental_set_memory_growth _ _ => true
  | _ => false
  end.

Definition is_set_visible_devices (c : call) : bool :=
  match c with
  | Call.tf_config_set_visible_devices _ _ => true
  | _ => false
  end.

Definition is_augmentation (c : call) : bool :=
  match c with
  | Call.keras_Sequential [RandomRotation _; RandomZoom _; RandomTranslation _ _] =>
      true
  | _ => false
  end.

(** tensorflowjs is not installed. *)
Definition world_no_tfjs : world :=
  raises_at is_import_tensorflowjs
    (mk_exception ModuleNotFoundError "No module named 'tensorflowjs'") world_ok.

(** The conversion breaks after writing a first shard. *)
Definition world_bad_conversion : world :=
  let w := raises_at is_save_keras_model
             (mk_exception AttributeError "module 'numpy' has no attribute 'object'")
             world_ok in
  World (w_raises w) (w_gpus w) (w_mnist w) (w_init_weights w) (w_epoch w)
        (w_evaluate w) (w_shards w)
        [("group1-shard1of3.bin", WeightShard [F32.zero])].

(** TensorFlow refuses device configuration: the runtime is already
    initialized. *)
Definition world_gpu_locked : world :=
  raises_at is_set_memory_growth
    (mk_exception RuntimeError
       "Physical devices cannot be modified after being initialized") world_ok.

Definition world_gpu_locked_for_good : world :=
  raises_at is_set_visible_devices
    (mk_exception RuntimeError
       "Visible devices cannot be modified after being initialized")
    world_gpu_locked.


Definition no_tfjs : exception :=
  mk_exception ModuleNotFoundError "No module named 'tensorflowjs'".


Definition devices_locked : exception :=
  mk_exception RuntimeError
    "Physical devices cannot be modified after being initialized".

(** An untrained model without layers, a stand-in where only the control
    flow matters. *)
Definition empty_model : keras_model := Model [] None [].

(** Prepared data without a single sample, a stand-in where only the control
    flow matters. *)
Definition no_samples : prepared :=
  Prepared (NdArray [0; 28; 28; 1] []) (NdArray [0; 10] [])
           (NdArray [0; 28; 28; 1] []) (NdArray [0; 10] []).

(** A compiled model without layers, a stand-in where only training
    matters. *)
Definition compiled_model : keras_model :=
  Model [] (Some (CompileArgs (Adam 0.001) "categorical_crossentropy"
                    ["accuracy"])) [].

(** The value a computation returned, or [d] when it raised. *)
Definition returned {A} (d : A) (r : result A * state) : A :=
  match r.1 with
  | Ok a => a
  | Raise _ => d
  end.

(** A machine without a GPU. *)
Definition world_no_gpu : world :=
  World (w_raises world_ok) [] (w_mnist world_ok) (w_init_weights world_ok)
        (w_epoch world_ok) (w_evaluate world_ok) (w_shards world_ok)
        (w_partial world_ok).

(** Ctrl-C: an exception that is not an instance of [Exception]. *)
Definition interrupt : exception := mk_exception KeyboardInterrupt "".

Definition virtual_devices_configured : exception :=
  mk_exception ValueError
    "Cannot set memory growth on device when virtual devices configured".

(** TensorFlow refuses memory growth with a ValueError. *)
Definition world_gpu_virtual : world :=
  raises_at is_set_memory_growth virtual_devices_configured world_ok.

(** The user interrupts the construction of the random layers, or the
    import of tensorflowjs. *)
Definition world_interrupted_augmentation : world :=
  raises_at is_augmentation interrupt world_ok.

Definition world_interrupted_import : world :=
  raises_at is_import_tensorflowjs interrupt world_ok.

(** The user interrupts the converter. *)
Definition world_interrupted_conversion : world :=
  raises_at is_save_keras_model interrupt world_ok.

(** ** The stages of the pipeline *)

Inductive stage :=
  | Configure | Load | Preprocess | Build | Compile | Fit | Evaluate | Save
  | Convert.

(** The stage a library call belongs to. Building covers both Sequential
    models (the augmentation pipeline and the network); evaluating covers
    lines 166-177: the trained model is evaluated, the best checkpoint is
    loaded and evaluated in turn. *)
Definition stage_of (c : call) : stage :=
  match c with
  | Call.tf_config_list_physical_devices _
  | Call.tf_config_experimental_set_memory_growth _ _
  | Call.tf_config_set_visible_devices _ _ => Configure
  | Call.keras_datasets_mnist_load_data => Load
  | Call.ndarray_astype _ | Call.ndarray_truediv _ | Call.np_expand_dims _
  | Call.keras_utils_to_categorical _ => Preprocess
  | Call.keras_Sequential _ => Build
  | Call.model_compile _ _ | Call.model_summary _ => Compile
  | Call.model_fit _ _ _ _ => Fit
  | Call.model_evaluate _ _ _ | Call.keras_models_load_model _ => Evaluate
  | Call.os_makedirs _ _ | Call.model_save _ _ => Save
  | Call.import_tensorflowjs | Call.tfjs_converters_save_keras_model _ _ =>
      Convert
  end.

(** The position of a stage in the pipeline. *)
Definition stage_index (st : stage) : nat :=
  match st with
  | Configure => 0 | Load => 1 | Preprocess => 2 | Build => 3 | Compile => 4
  | Fit => 5 | Evaluate => 6 | Save => 7 | Convert => 8
  end.

Definition stage_eqb (a b : stage) : bool :=
  Nat.eqb (stage_index a) (stage_index b).

(** The stages a trace went through: consecutive calls of one stage count
    once. *)
Fixpoint stages_run (sts : list stage) : list stage :=
  match sts with
  | [] => []
  | a :: rest =>
      match rest with
      | b :: _ => if stage_eqb a b then stages_run rest
                  else a :: stages_run rest
      | [] => [a]
      end
  end.



(** ** Keras shape inference, per sample *)

Definition conv_output_length (n k : nat) (pad : padding) : nat :=
  match pad with
  | same => n
  | valid => n - k + 1
  end.

Fixpoint output_shape (l : layer) (sh : list nat) : option (list nat) :=
  match l with
  | Input s => Some s
  | RandomRotation _ | RandomZoom _ | RandomTranslation _ _
  | BatchNormalization | Dropout _ => Some sh
  | Conv2D filters (kh, kw) _ pad =>
      match sh with
      | [h; w; _] =>
          Some [conv_output_length h kh pad; conv_output_length w kw pad;
                filters]
      | _ => None
      end
  | MaxPooling2D (ph, pw) =>
      match sh with
      | [h; w; c] => Some [h / ph; w / pw; c]
      | _ => None
      end
  | Flatten => Some [size_of sh]
  | Dense units _ =>
      match reverse sh with
      | _ :: rest => Some (reverse rest ++ [units])
      | [] => None
      end
  | Sequential ls =>
      (fix through (ls : list layer) (sh : list nat) : option (list nat) :=
         match ls with
         | [] => Some sh
         | l :: ls' => match output_shape l sh with
                       | Some sh' => through ls' sh'
                       | None => None
                       end
         end) ls sh
  end.

(** The output shape of the model [keras.Sequential(layers)]. *)
Definition model_output_shape (layers : list layer) : option (list nat) :=
  output_shape (Sequential layers) [].

Definition is_augmentation_layer (l : layer) : bool :=
  match l with
  | Sequential _ => true
  | _ => false
  end.

(** ** Specifications of blocks *)

(** Whatever the state [m] starts in, the state it ends in is related to it
    by [R], and a value it returns satisfies [Q]. *)
Definition hoare {A} (R : relation state) (m : M A) (Q : A → Prop) : Prop :=
  ∀ s, R s (m s).2 ∧ ∀ a, (m s).1 = Ok a → Q a.

(** What a block may do to the state: log calls that satisfy [Pc], change
    the file system at paths in [Df], write files at paths in [Dw], and
    print. It leaves sys.argv alone. *)
Record touches (Pc : call → Prop) (Df Dw : string → Prop) (s s' : state)
  : Prop := {
  touches_argv : sys_argv s' = sys_argv s;
  touches_calls : ∃ cs, calls s' = calls s ++ cs ∧ Forall Pc cs;
  touches_fs : ∀ p, ¬ Df p → fs s' !! p = fs s !! p;
  touches_writes : ∃ ws, writes s' = writes s ++ ws ∧ Forall Dw ws;
  touches_stdout : ∃ ls, stdout s' = stdout s ++ ls;
}.

(** The checkpoint files of a list of callbacks lie in [Df] and [Dw]. *)
Definition checkpoints_in (Df Dw : string → Prop) (cbs : list callback)
  : Prop :=
  Forall (λ cb, match cb with
                | ModelCheckpoint filepath _ _ _ => Df filepath ∧ Dw filepath
                | _ => True
                end) cbs.

(** The Sequential models the script may build: the augmentation pipeline,
    or the network with or without it; the network maps a sample to ten
    values. *)
Definition builds_known_model (w : world) (c : call) : Prop :=
  ∀ ls, c = Call.keras_Sequential ls →
    ls = augmentation_layers
    ∨ ((ls = create_layers false None
        ∨ ls = create_layers true
                 (Some (Model augmentation_layers None
                          (w_init_weights w augmentation_layers))))
       ∧ model_output_shape ls = Some [10]).

(** ** Command-line arguments *)

(** Two interpreter states that differ at most in sys.argv. *)
Definition same_but_argv (s1 s2 : state) : Prop :=
  s2 = set_sys_argv (sys_argv s2) s1.

(** [m] never looks at sys.argv and never writes it. *)
Definition argv_blind {A} (m : M A) : Prop :=
  ∀ s a, m (set_sys_argv a s) = ((m s).1, set_sys_argv a (m s).2).

(** ** Messages *)

(** What lines 194-206 print first when the conversion fails with [e]. *)
Definition conversion_failure_line (e : exception) : line :=
  if isinstance e ImportError
  then [Lit (nl +:+ "✗ tensorflowjs not found.")]
  else [Lit (nl +:+ "⚠ Conversion failed: "); FmtExn e].

(** ** The first call of a block *)

(** [m] only adds calls to the trace. *)
Definition extends {A} (m : M A) : Prop :=
  ∀ s, ∃ cs, calls (m s).2 = calls s ++ cs.

(** The first call [m] adds to the trace is [c], whatever happens next. *)
Definition starts_with {A} (c : call) (m : M A) : Prop :=
  ∀ s, ∃ cs, calls (m s).2 = calls s ++ c :: cs.

(** ** The best checkpoint *)

Definition checkpoint_path : string := "best_mnist_model.h5".
Definition saved_model_path : string := "models/mnist_model.h5".

(** The world trains the epochs [0 .. n-1], and among them epoch [e], with
    weights [ws], is the first one that reaches the highest validation
    accuracy. *)
Definition best_epoch (w : world) (n e : nat) (ws : weights) : Prop :=
  e < n
  ∧ (∀ i, i < n → ∃ ws' l', w_epoch w i = Trained ws' l')
  ∧ ∃ l, w_epoch w e = Trained ws l
         ∧ (∀ e' ws' l', e' < n → w_epoch w e' = Trained ws' l' →
              (val_accuracy l' <= val_accuracy l)%Q)
         ∧ (∀ e' ws' l', e' < e → w_epoch w e' = Trained ws' l' →
              (val_accuracy l' < val_accuracy l)%Q).

(** A learning rate that ReduceLROnPlateau (factor 0.5, min_lr 1e-5) can
    have set when training started at [lr0]: [lr0] itself, or a lower rate
    that is not below the floor. *)
Definition reduced_from (lr0 lr : Q) : Prop :=
  lr = lr0 ∨ ((0.00001 <= lr)%Q ∧ (lr <= lr0)%Q).

(** After the epochs [0 .. n-1] of a training that started at the learning
    rate [lr0], the checkpoint file holds the model with the weights of
    epoch [e], the first epoch with the highest validation accuracy [b],
    and with the learning rate of that moment. *)
Definition checkpoint_of (w : world) (m : keras_model) (lr0 : Q) (n e : nat)
    (b : Q) (s : state) : Prop :=
  ∃ ws l lr,
    best_epoch w n e ws
    ∧ w_epoch w e = Trained ws l
    ∧ val_accuracy l = b
    ∧ reduced_from lr0 lr
    ∧ fs s !! checkpoint_path
      = Some (H5 (with_weights (with_learning_rate m lr) ws)).

(** ** The files of a run *)

(** The paths the conversion to TensorFlow.js may create or write. *)
Definition conversion_path (p : string) : Prop :=
  p = "static" ∨ p = "static/model"
  ∨ ∃ name, p = "static/model" +:+ "/" +:+ name.

(** The paths a run may create or write. *)
Definition run_path (p : string) : Prop :=
  p = "best_mnist_model.h5" ∨ p = "models" ∨ p = "models/mnist_model.h5"
  ∨ conversion_path p.

(** The files a run may write; directories are created, not written. *)
Definition run_file (p : string) : Prop :=
  p = "best_mnist_model.h5" ∨ p = "models/mnist_model.h5"
  ∨ ∃ name, p = "static/model" +:+ "/" +:+ name.

(** Absolute paths and paths under the home directory: where Keras keeps
    its dataset cache, and where libraries keep temporary files. The script
    itself names relative paths only. *)
Definition outside_working_directory (p : string) : Prop :=
  ∃ rest, p = "/" +:+ rest ∨ p = "~" +:+ rest.


(** ** The order of the stages *)

(** The stages of the calls [m] adds to the trace lie between [lo] and [hi]
    and never go back. *)
Definition staged {A} (lo hi : nat) (m : M A) : Prop :=
  ∀ s, ∃ cs,
    calls (m s).2 = calls s ++ cs
    ∧ Sorted le (stage_index ∘ stage_of <$> cs)
    ∧ Forall (λ c, lo ≤ stage_index (stage_of c) ≤ hi) cs.

Definition pipeline : list stage :=
  [Configure; Load; Preprocess; Build; Compile; Fit; Evaluate; Save; Convert].

(** ** The topology of the network *)

(** A list of layers that takes (28, 28, 1) inputs, ends in
    Dense(10, softmax), maps a sample to 10 values, and is the network of
    lines 84-117 once an augmentation layer is left out. *)
Definition classifier_topology (layers : list layer) : Prop :=
  head layers = Some (Input [28; 28; 1])
  ∧ last layers = Some (Dense 10 softmax)
  ∧ model_output_shape layers = Some [10]
  ∧ filter (λ l, is_augmentation_layer l = false) layers
    = Input [28; 28; 1] :: convolutional_blocks.

(** A call of [model.fit] is made on a model with that topology. *)
Definition fits_classifier (c : call) : Prop :=
  ∀ m x y args, c = Call.model_fit m x y args →
    classifier_topology (m_layers m).

(** * Theorems *)

(** ** Preprocessing *)

Lemma byte_pixel_in_unit_interval (b : byte) :
  F32.in_unit_interval (F32.div (F32.of_byte b) f255) = true.
Proof. destruct b; vm_compute; reflexivity. Qed.

Lemma normalize_axis_last (ndim : nat) : normalize_axis (-1) ndim = Some ndim.
Proof.
  unfold normalize_axis.
  destruct (decide (0 ≤ -1 < Z.of_nat ndim + 1)%Z) as [H|_]; [lia|].
  destruct (decide (- (Z.of_nat ndim + 1) ≤ -1 < 0)%Z) as [_|H]; [|lia].
  f_equal. lia.
Qed.

Lemma expand_dims_last {A} (x : ndarray A) :
  expand_dims x (-1) = Ok (NdArray (shape x ++ [1]) (data x)).
Proof.
  unfold expand_dims. rewrite normalize_axis_last.
  by rewrite take_ge, drop_ge by lia.
Qed.

Lemma item_lookup {A} (sh : list nat) (n i : nat) (d : list A) :
  i < n →
  item (NdArray (n :: sh) d) i
  = Some (NdArray sh (take (size_of sh) (drop (i * size_of sh) d))).
Proof. intros Hi. unfold item. simpl. by destruct (decide (i < n)). Qed.

Lemma scatter_ones_ok (nc : nat) (xs : list nat) :
  Forall (λ x, x < nc) xs →
  ∀ i cat, ∃ cat', scatter_ones nc i xs cat = Ok cat'
                   ∧ length cat' = length cat.
Proof.
  induction 1 as [|x xs Hx _ IH]; intros i cat; simpl.
  - by exists cat.
  - destruct (decide (x < nc)); [|done].
    destruct (IH (S i) (<[i * nc + x := F32.one]> cat)) as (cat' & -> & Hlen).
    exists cat'. split; [done|]. by rewrite Hlen, length_insert.
Qed.

Lemma scatter_ones_lookup (nc : nat) (xs : list nat) :
  ∀ i cat cat',
    scatter_ones nc i xs cat = Ok cat' →
    (i + length xs) * nc ≤ length cat →
    ∀ r c, c < nc →
      cat' !! (r * nc + c)
      = if decide (i ≤ r ∧ xs !! (r - i) = Some c)
        then Some F32.one else cat !! (r * nc + c).
Proof.
  induction xs as [|x xs IH]; intros i cat cat' Hs Hlen r c Hc; simpl in Hs.
  - injection Hs as <-. destruct (decide _) as [[_ H]|_]; done.
  - destruct (decide (x < nc)) as [Hx|]; [|done].
    assert ((S i + length xs) * nc ≤ length (<[i * nc + x := F32.one]> cat))
      as Hlen' by (rewrite length_insert; simpl in Hlen; lia).
    rewrite (IH _ _ _ Hs Hlen' r c Hc).
    destruct (decide (r = i)) as [->|Hri].
    + rewrite Nat.sub_diag. simpl.
      destruct (decide (S i ≤ i ∧ _)) as [[? _]|_]; [lia|].
      destruct (decide (c = x)) as [->|Hcx].
      * rewrite list_lookup_insert_eq by (simpl in Hlen; nia).
        by destruct (decide _) as [_|[]].
      * rewrite list_lookup_insert_ne by lia.
        destruct (decide _) as [[_ [=]]|_]; done.
    + rewrite list_lookup_insert_ne by nia.
      destruct (decide (i ≤ r)) as [Hle|Hlt].
      * replace (r - i) with (S (r - S i)) by lia. simpl.
        destruct (decide (S i ≤ r ∧ _)) as [[_ H]|Hn];
          destruct (decide (i ≤ r ∧ _)) as [[_ H']|Hn']; try done.
        -- destruct Hn'. done.
        -- destruct Hn. split; [lia|done].
      * destruct (decide (S i ≤ r ∧ _)) as [[? _]|_]; [lia|].
        destruct (decide (i ≤ r ∧ _)) as [[? _]|_]; [lia|done].
Qed.

Lemma squeeze_last_vector (n : nat) : squeeze_last [n] = [n].
Proof. by destruct n as [|[|n]]. Qed.

Lemma to_categorical_digits (y : ndarray byte) (n : nat) :
  shape y = [n] → well_shaped y →
  Forall (λ b, label_of b ≤ 9) (data y) →
  ∃ c, to_categorical y 10 = Ok c
       ∧ shape c = [n; 10]
       ∧ ∀ i b, data y !! i = Some b →
           ∃ v, item c i = Some (NdArray [10] v) ∧ one_hot v (label_of b).
Proof.
  intros Hsh Hws Hdig.
  assert (length (data y) = n) as Hn.
  { unfold well_shaped in Hws. rewrite Hsh in Hws. simpl in Hws. lia. }
  assert (Forall (λ x, x < 10) (label_of <$> data y)) as Hlt.
  { apply Forall_fmap. eapply Forall_impl; [exact Hdig|]. simpl. lia. }
  destruct (scatter_ones_ok 10 _ Hlt 0
              (replicate (length (label_of <$> data y) * 10) F32.zero))
    as (cat & Hcat & Hlen).
  unfold to_categorical. simpl. rewrite Hcat. simpl.
  eexists. split; [done|]. rewrite Hsh, squeeze_last_vector. cbn [app].
  split; [done|].
  intros i b Hb.
  assert (i < n) as Hi by (rewrite <- Hn; by eapply lookup_lt_Some).
  rewrite length_replicate, length_fmap, Hn in Hlen.
  assert (∀ j, j < 10 →
            cat !! (i * 10 + j)
            = Some (if decide (j = label_of b) then F32.one else F32.zero))
    as Hrow.
  { intros j Hj.
    rewrite (scatter_ones_lookup _ _ _ _ _ Hcat)
      by (rewrite ?length_replicate; lia || done).
    rewrite Nat.sub_0_r, list_lookup_fmap, Hb. simpl.
    destruct (decide (0 ≤ i ∧ Some (label_of b) = Some j)) as [[_ [= ->]]|Hne].
    - by destruct (decide _).
    - destruct (decide (j = label_of b)) as [->|_].
      + destruct Hne. split; [lia|done].
      + apply lookup_replicate_2. rewrite length_fmap. lia. }
  rewrite item_lookup by done.
  eexists. split; [reflexivity|].
  assert (∀ j, j < 10 →
            take (size_of [10]) (drop (i * size_of [10]) cat) !! j
            = cat !! (i * 10 + j)) as Hv.
  { intros j Hj. simpl.
    rewrite lookup_take_lt by done. by rewrite lookup_drop. }
  split; [|split].
  - rewrite length_take, length_drop.
    change (size_of [10]) with 10. lia.
  - assert (label_of b < 10) as Hb10.
    { rewrite Forall_forall in Hdig.
      pose proof (Hdig b (list_elem_of_lookup_2 _ _ _ Hb)). lia. }
    rewrite Hv, Hrow by done. by destruct (decide _).
  - intros j Hj Hne. rewrite Hv, Hrow by done. by destruct (decide _).
Qed.

Lemma normalized_images_intro (raw : ndarray byte) (n : nat) :
  shape raw = [n; 28; 28] → well_shaped raw →
  normalized_images raw
    (NdArray (shape (true_divide (astype_float32 raw) f255) ++ [1])
             (data (true_divide (astype_float32 raw) f255))) n.
Proof.
  intros Hsh Hws. unfold well_shaped in Hws. rewrite Hsh in Hws.
  change (size_of [n; 28; 28]) with (n * 784) in Hws.
  unfold normalized_images. simpl. rewrite Hsh. cbn [app].
  split; [done|]. split; [by rewrite <- list_fmap_compose|].
  intros i Hi. rewrite item_lookup by done.
  eexists. split; [reflexivity|]. simpl. split; [done|].
  change (size_of [28; 28; 1]) with 784.
  split.
  - unfold well_shaped. simpl.
    change (size_of [28; 28; 1]) with 784.
    rewrite length_take, length_drop, !length_fmap. nia.
  - unfold unit_pixels. simpl.
    apply Forall_take, Forall_drop, Forall_fmap, Forall_fmap, Forall_forall.
    intros b _. apply byte_pixel_in_unit_interval.
Qed.

Lemma preprocess_ok (ds : dataset) (n m : nat) (s : state) :
  mnist_like ds n m →
  ∃ p, (preprocess ds s).1 = Ok p
       ∧ normalized_images ds.1.1 (x_train p) n
       ∧ normalized_images ds.2.1 (x_test p) m
       ∧ one_hot_labels ds.1.2 (y_train p) n
       ∧ one_hot_labels ds.2.2 (y_test p) m.
Proof.
  destruct ds as [[xtr ytr] [xte yte]]. intros [? ? ? ? ? ? ? ? ? ?].
  simpl in *.
  destruct (to_categorical_digits ytr n) as (ctr & Htr & ? & ?); [done..|].
  destruct (to_categorical_digits yte m) as (cte & Hte & ? & ?); [done..|].
  unfold preprocess, astype, truediv, np_expand_dims,
    keras_utils_to_categorical, bind, log, modify, lift, ret.
  rewrite !decide_True by done.
  rewrite !expand_dims_last, Htr, Hte. simpl.
  eexists. split; [reflexivity|]. simpl.
  split; [by apply normalized_images_intro|].
  split; [by apply normalized_images_intro|].
  by split.
Qed.

(** C7. After preprocessing (lines 45-51), the training and the test images
    have shape (n, 28, 28, 1); every pixel is the original byte divided by
    255.0 in float32; every image [x[i]] has shape (28, 28, 1) and all its
    pixels lie in [0, 1]. Stated for what the MNIST loader returns: batches
    of 28 x 28 byte images with digit labels. *)
Theorem preprocess_images_normalized (ds : dataset) (n m : nat) (s : state) :
  mnist_like ds n m →
  ∃ p, (preprocess ds s).1 = Ok p
       ∧ normalized_images ds.1.1 (x_train p) n
       ∧ normalized_images ds.2.1 (x_test p) m.
Proof.
  intros H. destruct (preprocess_ok ds n m s H) as (p & ? & ? & ? & _).
  by exists p.
Qed.

Lemma tiny_mnist_like : mnist_like tiny_mnist 1 1.
Proof.
  split; try reflexivity; simpl; repeat constructor; vm_compute; lia.
Defined.

Lemma preprocess_images_normalized_witness :
  mnist_like tiny_mnist 1 1
  ∧ ∃ p, (preprocess tiny_mnist initial_state).1 = Ok p
         ∧ normalized_images tiny_mnist.1.1 (x_train p) 1
         ∧ normalized_images tiny_mnist.2.1 (x_test p) 1.
Proof.
  split; [exact tiny_mnist_like|].
  apply (preprocess_images_normalized tiny_mnist 1 1 initial_state).
  split; try reflexivity; simpl; repeat constructor; vm_compute; lia.
Defined.

(** C8. For labels that are digits (0..9), the one-hot conversion of lines
    53-55 gives, for the training and for the test labels, an (n, 10) array
    whose row [i] has length 10, holds 1 at the index of label [i] and 0 at
    the nine other indices. *)
Theorem preprocess_labels_one_hot (ds : dataset) (n m : nat) (s : state) :
  mnist_like ds n m →
  ∃ p, (preprocess ds s).1 = Ok p
       ∧ one_hot_labels ds.1.2 (y_train p) n
       ∧ one_hot_labels ds.2.2 (y_test p) m.
Proof.
  intros H. destruct (preprocess_ok ds n m s H) as (p & ? & _ & _ & ? & ?).
  by exists p.
Qed.

Lemma preprocess_labels_one_hot_witness :
  mnist_like tiny_mnist 1 1
  ∧ ∃ p, (preprocess tiny_mnist initial_state).1 = Ok p
         ∧ one_hot_labels tiny_mnist.1.2 (y_train p) 1
         ∧ one_hot_labels tiny_mnist.2.2 (y_test p) 1.
Proof.
  split; [exact tiny_mnist_like|].
  apply (preprocess_labels_one_hot tiny_mnist 1 1 initial_state).
  split; try reflexivity; simpl; repeat constructor; vm_compute; lia.
Defined.

(** ** The monad *)

Lemma bind_ok_inv {A B} (m : M A) (k : A → M B) (s s' : state) (b : B) :
  bind m k s = (Ok b, s') →
  ∃ a s1, m s = (Ok a, s1) ∧ k a s1 = (Ok b, s').
Proof.
  unfold bind. destruct (m s) as [[a|e] s1]; [eauto|done].
Qed.

Lemma bind_ok {A B} (m : M A) (k : A → M B) (s s1 : state) (a : A) :
  m s = (Ok a, s1) → bind m k s = k a s1.
Proof. unfold bind. by intros ->. Qed.

Lemma bind_raise {A B} (m : M A) (k : A → M B) (s s1 : state) (e : exception) :
  m s = (Raise e, s1) → bind m k s = (Raise e, s1).
Proof. unfold bind. by intros ->. Qed.

Lemma invoke_ok (w : world) (c : call) (s : state) :
  w_raises w c = None →
  invoke w c s = (Ok (), set_calls (λ cs, cs ++ [c]) s).
Proof. intros H. unfold invoke, bind, log, modify. by rewrite H. Qed.

Lemma invoke_raise (w : world) (c : call) (s : state) (e : exception) :
  w_raises w c = Some e →
  invoke w c s = (Raise e, set_calls (λ cs, cs ++ [c]) s).
Proof. intros H. unfold invoke, bind, log, modify. by rewrite H. Qed.

Lemma invoke_ok_inv (w : world) (c : call) (s s' : state) (u : unit) :
  invoke w c s = (Ok u, s') →
  w_raises w c = None ∧ s' = set_calls (λ cs, cs ++ [c]) s.
Proof.
  unfold invoke, bind, log, modify, raise, ret.
  destruct (w_raises w c); [done|]. by intros [= <-].
Qed.

(** ** Hoare rules, for any reflexive and transitive relation on states *)

Section Hoare.
Context (R : relation state) `{!PreOrder R}.

Lemma hoare_conseq {A} (m : M A) (Q Q' : A → Prop) :
  hoare R m Q → (∀ a, Q a → Q' a) → hoare R m Q'.
Proof. intros H HQ s. destruct (H s) as [? ?]. split; [done|]. eauto. Qed.

Lemma hoare_ret {A} (a : A) (Q : A → Prop) : Q a → hoare R (ret a) Q.
Proof. intros ? s. split; [done|]. by intros a' [= <-]. Qed.

Lemma hoare_raise {A} (e : exception) (Q : A → Prop) : hoare R (raise e) Q.
Proof. by intros s. Qed.

Lemma hoare_lift {A} (r : result A) (Q : A → Prop) :
  (∀ a, r = Ok a → Q a) → hoare R (lift r) Q.
Proof. intros ? s. split; [done|]. simpl. eauto. Qed.

Lemma hoare_modify (f : state → state) (Q : unit → Prop) :
  (∀ s, R s (f s)) → Q () → hoare R (modify f) Q.
Proof. intros ? ? s. split; [done|]. by intros []. Qed.

Lemma hoare_bind {A B} (m : M A) (k : A → M B) (Q1 : A → Prop) (Q2 : B → Prop) :
  hoare R m Q1 → (∀ a, Q1 a → hoare R (k a) Q2) → hoare R (bind m k) Q2.
Proof.
  intros Hm Hk s. destruct (Hm s) as [HR1 Hq1].
  unfold bind. destruct (m s) as [[a|e] s1]; simpl in *; [|done].
  destruct (Hk a (Hq1 a eq_refl) s1) as [HR2 Hq2].
  split; [|done]. by etrans.
Qed.

Lemma hoare_seq {A B} (m : M A) (k : A → M B) (Q : B → Prop) :
  hoare R m (λ _, True) → (∀ a, hoare R (k a) Q) → hoare R (bind m k) Q.
Proof. intros Hm Hk. eapply hoare_bind; [exact Hm|]. intros a _. apply Hk. Qed.

Lemma hoare_try_except {A} (body : M A)
    (handlers : list (exn_class * (exception → M A))) (Q : A → Prop) :
  hoare R body Q →
  Forall (λ h, ∀ e, hoare R (h.2 e) Q) handlers →
  hoare R (try_except body handlers) Q.
Proof.
  intros Hb Hh s. destruct (Hb s) as [HR1 Hq1].
  unfold try_except. destruct (body s) as [[a|e] s1]; simpl in *; [done|].
  destruct (find _ handlers) as [h|] eqn:Hf; simpl; [|done].
  apply find_some in Hf as [Hin _].
  rewrite Forall_forall in Hh.
  destruct (Hh h (proj2 (list_elem_of_In _ _) Hin) e s1) as [HR2 Hq2].
  split; [|done]. by etrans.
Qed.

Lemma hoare_for_each {A} (xs : list A) (body : A → M unit) :
  (∀ x, hoare R (body x) (λ _, True)) →
  hoare R (for_each xs body) (λ _, True).
Proof.
  intros Hb. induction xs as [|x xs IH]; simpl.
  - by apply hoare_ret.
  - apply hoare_seq; [apply Hb|]. intros _. apply IH.
Qed.

End Hoare.

(** Apply a rule; the relation's order is found by instance search. *)
Tactic Notation "hoare_by" uconstr(rule) := eapply rule; try typeclasses eauto.

(** One goal for each clause of a [try_except]. *)
Ltac each_handler :=
  repeat first [apply Forall_nil_2 | apply Forall_cons_2; [intros ?; simpl|]].

(** ** What a block touches *)

Section Touches.
Context (Pc : call → Prop) (Df Dw : string → Prop).

#[global] Instance touches_preorder : PreOrder (touches Pc Df Dw).
Proof.
  split.
  - intros s. split; [done| |done| |].
    + exists []. by rewrite app_nil_r.
    + exists []. by rewrite app_nil_r.
    + exists []. by rewrite app_nil_r.
  - intros s1 s2 s3 [Ha (cs & Hc & HPc) Hf (ws & Hw & HDw) (ls & Hl)]
      [Ha' (cs' & Hc' & HPc') Hf' (ws' & Hw' & HDw') (ls' & Hl')].
    split.
    + congruence.
    + exists (cs ++ cs'). rewrite Hc', Hc, app_assoc.
      split; [done|]. by apply Forall_app.
    + intros p Hp. rewrite Hf', Hf; done.
    + exists (ws ++ ws'). rewrite Hw', Hw, app_assoc.
      split; [done|]. by apply Forall_app.
    + exists (ls ++ ls'). by rewrite Hl', Hl, app_assoc.
Qed.

#[local] Abbreviation T := (touches Pc Df Dw).

Lemma touches_refl_with (s s' : state) :
  sys_argv s' = sys_argv s → calls s' = calls s → fs s' = fs s →
  writes s' = writes s → stdout s' = stdout s → T s s'.
Proof.
  intros Ha Hc Hf Hw Hl. split; [done| | | |].
  - exists []. by rewrite app_nil_r.
  - intros p _. by rewrite Hf.
  - exists []. by rewrite app_nil_r.
  - exists []. by rewrite app_nil_r.
Qed.

Lemma t_print (l : line) : hoare T (print l) (λ _, True).
Proof.
  hoare_by hoare_modify; [|done]. intros s. split; simpl; [done| |done| |].
  - exists []. by rewrite app_nil_r.
  - exists []. by rewrite app_nil_r.
  - by exists [l].
Qed.

Lemma t_log (c : call) : Pc c → hoare T (log c) (λ _, True).
Proof.
  intros ?. hoare_by hoare_modify; [|done].
  intros s. split; simpl; [done| |done| |].
  - exists [c]. split; [done|]. by constructor.
  - exists []. by rewrite app_nil_r.
  - exists []. by rewrite app_nil_r.
Qed.

Lemma t_invoke (w : world) (c : call) : Pc c → hoare T (invoke w c) (λ _, True).
Proof.
  intros ?. unfold invoke. hoare_by hoare_seq; [by apply t_log|].
  intros _. destruct (w_raises w c); [hoare_by hoare_raise|by hoare_by hoare_ret].
Qed.

Lemma t_write_file (path : string) (e : entry) :
  Df path → Dw path → hoare T (write_file path e) (λ _, True).
Proof.
  intros ? ?. hoare_by hoare_modify; [|done].
  intros s. split; simpl; [done| | | |].
  - exists []. by rewrite app_nil_r.
  - intros p Hp. apply lookup_insert_ne. by intros ->.
  - exists [path]. split; [done|]. by constructor.
  - exists []. by rewrite app_nil_r.
Qed.

Lemma t_environ_set (k v : string) : hoare T (environ_set k v) (λ _, True).
Proof. hoare_by hoare_modify; [|done]. intros s. by apply touches_refl_with. Qed.

End Touches.

(** ** What the library operations touch *)

Section TouchesLibrary.
Context (Pc : call → Prop) (Df Dw : string → Prop) (w : world).

#[local] Abbreviation T := (touches Pc Df Dw).

Lemma t_keep {A} (m : M A) (Q : A → Prop) :
  (∀ s, sys_argv (m s).2 = sys_argv s ∧ calls (m s).2 = calls s
        ∧ fs (m s).2 = fs s ∧ writes (m s).2 = writes s
        ∧ stdout (m s).2 = stdout s) →
  (∀ s a, (m s).1 = Ok a → Q a) →
  hoare T m Q.
Proof.
  intros Hk HQ s. split; [|by apply HQ].
  destruct (Hk s) as (? & ? & ? & ? & ?). by apply touches_refl_with.
Qed.

Lemma t_list_physical_devices (device_type : string) :
  Pc (Call.tf_config_list_physical_devices device_type) →
  hoare T (list_physical_devices w device_type) (λ _, True).
Proof.
  intros ?. unfold list_physical_devices.
  hoare_by hoare_seq; [by apply t_invoke|]. intros _. by hoare_by hoare_ret.
Qed.

Lemma t_set_memory_growth (d : device) (enable : bool) :
  Pc (Call.tf_config_experimental_set_memory_growth d enable) →
  hoare T (set_memory_growth w d enable) (λ _, True).
Proof.
  intros ?. unfold set_memory_growth.
  hoare_by hoare_seq; [by apply t_invoke|]. intros _.
  hoare_by hoare_modify; [|done]. intros s. by apply touches_refl_with.
Qed.

Lemma t_set_visible_devices (ds : list device) (device_type : string) :
  Pc (Call.tf_config_set_visible_devices ds device_type) →
  hoare T (set_visible_devices w ds device_type) (λ _, True).
Proof.
  intros ?. unfold set_visible_devices.
  hoare_by hoare_seq; [by apply t_invoke|]. intros _.
  destruct (decide _); [|by hoare_by hoare_ret].
  hoare_by hoare_modify; [|done]. intros s. by apply touches_refl_with.
Qed.

Lemma t_astype (x : ndarray byte) (dtype : string) :
  Pc (Call.ndarray_astype dtype) → hoare T (astype x dtype) (λ _, True).
Proof.
  intros ?. unfold astype.
  hoare_by hoare_seq; [by apply t_log|]. intros _.
  destruct (decide _); [by hoare_by hoare_ret|hoare_by hoare_raise].
Qed.

Lemma t_truediv (x : ndarray spec_float) (c : spec_float) :
  Pc (Call.ndarray_truediv c) → hoare T (truediv x c) (λ _, True).
Proof.
  intros ?. unfold truediv.
  hoare_by hoare_seq; [by apply t_log|]. intros _. by hoare_by hoare_ret.
Qed.

Lemma t_np_expand_dims {A} (x : ndarray A) (axis : Z) :
  Pc (Call.np_expand_dims axis) → hoare T (np_expand_dims x axis) (λ _, True).
Proof.
  intros ?. unfold np_expand_dims.
  hoare_by hoare_seq; [by apply t_log|]. intros _. by hoare_by hoare_lift.
Qed.

Lemma t_keras_utils_to_categorical (y : ndarray byte) (num_classes : nat) :
  Pc (Call.keras_utils_to_categorical num_classes) →
  hoare T (keras_utils_to_categorical y num_classes) (λ _, True).
Proof.
  intros ?. unfold keras_utils_to_categorical.
  hoare_by hoare_seq; [by apply t_log|]. intros _. by hoare_by hoare_lift.
Qed.

Lemma t_keras_Sequential (layers : list layer) :
  Pc (Call.keras_Sequential layers) →
  hoare T (keras_Sequential w layers)
    (λ m, m = Model layers None (w_init_weights w layers)).
Proof.
  intros ?. unfold keras_Sequential.
  hoare_by hoare_seq; [by apply t_invoke|]. intros _. by hoare_by hoare_ret.
Qed.

Lemma t_compile (m : keras_model) (args : compile_args) :
  Pc (Call.model_compile m args) → hoare T (compile w m args) (λ _, True).
Proof.
  intros ?. unfold compile.
  hoare_by hoare_seq; [by apply t_invoke|]. intros _. by hoare_by hoare_ret.
Qed.

Lemma t_summary (m : keras_model) :
  Pc (Call.model_summary m) → hoare T (summary w m) (λ _, True).
Proof. intros ?. by apply t_invoke. Qed.

Lemma t_evaluate (m : keras_model) (x y : ndarray spec_float) :
  Pc (Call.model_evaluate m x y) → hoare T (evaluate w m x y) (λ _, True).
Proof.
  intros ?. unfold evaluate.
  hoare_by hoare_seq; [by apply t_invoke|]. intros _. by hoare_by hoare_ret.
Qed.

Lemma t_h5_save (m : keras_model) (path : string) :
  Df path → Dw path → hoare T (h5_save w m path) (λ _, True).
Proof.
  intros ? ?. unfold h5_save.
  destruct (w_raises w _); [hoare_by hoare_raise|].
  intros s. split; [|done].
  destruct (_ || _).
  - by apply (t_write_file Pc Df Dw path (H5 m)).
  - reflexivity.
Qed.

Lemma t_save (m : keras_model) (path : string) :
  Pc (Call.model_save m path) → Df path → Dw path →
  hoare T (save w m path) (λ _, True).
Proof.
  intros ? ? ?. unfold save.
  hoare_by hoare_seq; [by apply t_log|]. intros _. by apply t_h5_save.
Qed.

Lemma t_load_model (path : string) :
  Pc (Call.keras_models_load_model path) →
  hoare T (load_model w path) (λ _, True).
Proof.
  intros ?. unfold load_model.
  hoare_by hoare_seq; [by apply t_invoke|]. intros _.
  apply t_keep; [|done]. intros s.
  by destruct (fs s !! path) as [[]|].
Qed.

Lemma t_make_dir_chain (exist_ok : bool) (chain : list string) :
  Forall Df chain → hoare T (make_dir_chain exist_ok chain) (λ _, True).
Proof.
  induction 1 as [|p rest Hp Hrest IH]; [by hoare_by hoare_ret|].
  intros s. split; [|done]. simpl.
  destruct (fs s !! p) as [[]|] eqn:Hl; try reflexivity.
  - destruct rest; [by destruct exist_ok|]. apply IH.
  - etrans; [|apply IH].
    split; simpl; [done| | | |].
    + exists []. by rewrite app_nil_r.
    + intros q Hq. apply lookup_insert_ne. by intros ->.
    + exists []. by rewrite app_nil_r.
    + exists []. by rewrite app_nil_r.
Qed.

Lemma t_makedirs (path : string) (exist_ok : bool) :
  Pc (Call.os_makedirs path exist_ok) → Forall Df (dir_chain "" path) →
  hoare T (makedirs w path exist_ok) (λ _, True).
Proof.
  intros ? ?. unfold makedirs.
  hoare_by hoare_seq; [by apply t_invoke|]. intros _.
  by apply t_make_dir_chain.
Qed.

Lemma t_cache_file (path : string) (content : entry) :
  Df path → Dw path → hoare T (cache_file path content) (λ _, True).
Proof.
  intros ? ? s. unfold cache_file.
  destruct (fs s !! path) as [[]|]; try done.
  by apply t_write_file.
Qed.

Lemma t_load_data :
  Pc Call.keras_datasets_mnist_load_data →
  Df "~/.keras" ∧ Df "~/.keras/datasets" ∧ Df mnist_cache → Dw mnist_cache →
  hoare T (load_data w) (λ _, True).
Proof.
  intros ? (? & ? & ?) ?. unfold load_data.
  hoare_by hoare_seq; [by apply t_invoke|]. intros _.
  hoare_by hoare_seq; [|intros _].
  { apply t_make_dir_chain. by repeat constructor. }
  hoare_by hoare_seq; [by apply t_cache_file|]. intros _.
  by hoare_by hoare_ret.
Qed.

Lemma t_on_epoch_end (m : keras_model) (cb : callback) (st : callback_state)
    (epoch : nat) (l : logs) (t : training) :
  checkpoints_in Df Dw [cb] →
  hoare T (on_epoch_end w m cb st epoch l t) (λ _, True).
Proof.
  intros Hcb. unfold checkpoints_in in Hcb. rewrite Forall_singleton in Hcb.
  destruct cb, st; cbv beta iota zeta delta [on_epoch_end];
    try by hoare_by hoare_ret.
  - destruct (logs_get l monitor); [|by hoare_by hoare_ret].
    destruct (is_plateau_improvement _ _ _); [by hoare_by hoare_ret|].
    case_decide; [|by hoare_by hoare_ret].
    destruct (Qltb min_lr (t_lr t)); by hoare_by hoare_ret.
  - destruct (logs_get l monitor); [|by hoare_by hoare_ret].
    destruct (is_improvement _ _ _); [by hoare_by hoare_ret|].
    case_decide; by hoare_by hoare_ret.
  - destruct Hcb.
    destruct save_best_only.
    + destruct (logs_get l monitor); [|by hoare_by hoare_ret].
      destruct (is_improvement _ _ _); [|by hoare_by hoare_ret].
      hoare_by hoare_seq; [by apply t_h5_save|]. intros _.
      by hoare_by hoare_ret.
    + hoare_by hoare_seq; [by apply t_h5_save|]. intros _.
      by hoare_by hoare_ret.
Qed.

Lemma t_callbacks_on_epoch_end (m : keras_model)
    (cbs : list (callback * callback_state)) (epoch : nat) (l : logs)
    (t : training) :
  checkpoints_in Df Dw cbs.*1 →
  hoare T (callbacks_on_epoch_end w m cbs epoch l t)
    (λ r, r.1.*1 = cbs.*1).
Proof.
  revert t. induction cbs as [|[cb st] cbs IH]; intros t Hcbs; simpl.
  - by hoare_by hoare_ret.
  - apply Forall_cons in Hcbs as [Hcb Hcbs].
    hoare_by hoare_seq.
    { apply t_on_epoch_end. unfold checkpoints_in. by rewrite Forall_singleton. }
    intros [st' t'].
    hoare_by hoare_bind; [by apply IH|]. intros [rest' t''] Hr.
    hoare_by hoare_ret. simpl in *. by f_equal.
Qed.

Lemma t_train_epochs (remaining epoch : nat) (m : keras_model)
    (cbs : list (callback * callback_state)) (ws : weights) (lr : Q)
    (history : list logs) :
  checkpoints_in Df Dw cbs.*1 →
  hoare T (train_epochs w remaining epoch m cbs ws lr history) (λ _, True).
Proof.
  revert epoch cbs ws lr history.
  induction remaining as [|remaining IH]; intros epoch cbs ws lr history Hcbs;
    simpl.
  - by hoare_by hoare_ret.
  - destruct (w_epoch w epoch) as [ws' l|e]; [|hoare_by hoare_raise].
    hoare_by hoare_bind; [by apply t_callbacks_on_epoch_end|].
    intros [cbs' t] Hr. simpl in Hr.
    destruct (t_stop t); [by hoare_by hoare_ret|].
    apply IH. by rewrite Hr.
Qed.

Lemma t_fit (m : keras_model) (x y : ndarray spec_float) (args : fit_args) :
  Pc (Call.model_fit m x y args) → checkpoints_in Df Dw (callbacks args) →
  hoare T (fit w m x y args) (λ _, True).
Proof.
  intros ? Hcbs. unfold fit.
  hoare_by hoare_seq; [by apply t_invoke|]. intros _.
  destruct (m_compiled m); [|hoare_by hoare_raise].
  hoare_by hoare_seq.
  { apply t_train_epochs. by rewrite <- list_fmap_compose, list_fmap_id. }
  intros [[ws lr] history]. by hoare_by hoare_ret.
Qed.

Lemma t_import_tensorflowjs :
  Pc Call.import_tensorflowjs → hoare T (import_tensorflowjs w) (λ _, True).
Proof. intros ?. by apply t_invoke. Qed.

Lemma t_save_keras_model (m : keras_model) (artifacts_dir : string) :
  Pc (Call.tfjs_converters_save_keras_model m artifacts_dir) →
  Forall Df (dir_chain "" artifacts_dir) →
  (∀ name, Df (artifacts_dir +:+ "/" +:+ name)
           ∧ Dw (artifacts_dir +:+ "/" +:+ name)) →
  hoare T (save_keras_model w m artifacts_dir) (λ _, True).
Proof.
  intros ? ? Hin. unfold save_keras_model.
  hoare_by hoare_seq; [by apply t_log|]. intros _.
  destruct (w_raises w _).
  - hoare_by hoare_seq; [|intros _; hoare_by hoare_raise].
    hoare_by hoare_for_each. intros [name e']. simpl.
    destruct (Hin name). by apply t_write_file.
  - hoare_by hoare_seq; [by apply t_make_dir_chain|]. intros _.
    hoare_by hoare_seq.
    + hoare_by hoare_for_each. intros [name ws]. simpl.
      destruct (Hin name). by apply t_write_file.
    + intros _. destruct (Hin "model.json"). by apply t_write_file.
Qed.

End TouchesLibrary.

(** ** What the blocks of the script touch *)

Section TouchesScript.
Context (Pc : call → Prop) (Df Dw : string → Prop) (w : world).

#[local] Abbreviation T := (touches Pc Df Dw).

(** [St] holds of the stages whose calls satisfy [Pc]; the calls that build
    a model are accounted for one by one. *)
Context (St : stage → Prop).
Hypothesis Pc_St : ∀ c, St (stage_of c) → stage_of c ≠ Build → Pc c.
Hypothesis Df_cache :
  Df "~/.keras" ∧ Df "~/.keras/datasets" ∧ Df mnist_cache.
Hypothesis Dw_cache : Dw mnist_cache.

Ltac pc := by (apply Pc_St; [simpl; assumption|]).

Ltac t_prim :=
  first
    [ apply t_print
    | apply t_environ_set
    | apply t_list_physical_devices; pc
    | apply t_set_memory_growth; pc
    | apply t_set_visible_devices; pc
    | apply t_load_data; [pc|exact Df_cache|exact Dw_cache]
    | apply t_astype; pc
    | apply t_truediv; pc
    | apply t_np_expand_dims; pc
    | apply t_keras_utils_to_categorical; pc
    | apply t_compile; pc
    | apply t_summary; pc
    | apply t_evaluate; pc
    | apply t_load_model; pc
    | apply t_import_tensorflowjs; pc
    | by (hoare_by hoare_ret) ].

Ltac t_seq :=
  hoare_by hoare_seq;
  [ t_prim
  | intros ?; repeat match goal with x : (_ * _)%type |- _ => destruct x end ].

Lemma t_configure_gpu :
  St Configure → hoare T (configure_gpu w) (λ _, True).
Proof.
  intros ?. unfold configure_gpu. t_seq. destruct a as [|gpu0 gpus]; [t_prim|].
  hoare_by hoare_try_except.
  - hoare_by hoare_seq.
    { hoare_by hoare_for_each. intros gpu. t_prim. }
    intros _. repeat t_seq. t_prim.
  - each_handler. repeat t_seq. t_prim.
Qed.

Lemma t_load_dataset : St Load → hoare T (load_dataset w) (λ _, True).
Proof. intros ?. unfold load_dataset. t_seq. t_prim. Qed.

Lemma t_preprocess (ds : dataset) :
  St Preprocess → hoare T (preprocess ds) (λ _, True).
Proof.
  intros ?. destruct ds as [[xtr ytr] [xte yte]]. unfold preprocess.
  hoare_by hoare_seq; [t_seq; t_prim|intros ?].
  hoare_by hoare_seq; [t_seq; t_prim|intros ?].
  repeat t_seq. t_prim.
Qed.

Lemma t_prepare :
  St Configure → St Load → St Preprocess → hoare T (prepare w) (λ _, True).
Proof.
  intros ? ? ?. unfold prepare.
  hoare_by hoare_seq; [by apply t_configure_gpu|intros _].
  hoare_by hoare_seq; [by apply t_load_dataset|intros ds].
  by apply t_preprocess.
Qed.

(** The two outcomes of lines 57-71. *)
Lemma t_make_augmentation :
  Pc (Call.keras_Sequential augmentation_layers) →
  hoare T (make_augmentation w)
    (λ r, r = (None, false)
          ∨ r = (Some (Model augmentation_layers None
                         (w_init_weights w augmentation_layers)), true)).
Proof.
  intros ?. unfold make_augmentation. hoare_by hoare_try_except.
  - hoare_by hoare_bind; [by apply t_keras_Sequential|].
    intros m ->. t_seq. hoare_by hoare_ret. by right.
  - each_handler. repeat t_seq.
    hoare_by hoare_ret. by left.
Qed.

Lemma t_create_model (aug : option keras_model * bool) :
  St Compile →
  Pc (Call.keras_Sequential (create_layers aug.2 aug.1)) →
  hoare T (create_model w aug) (λ _, True).
Proof.
  intros ? H. destruct aug as [data_augmentation use_augmentation].
  simpl in H. unfold create_model. t_seq.
  hoare_by hoare_bind; [by apply t_keras_Sequential|intros model _].
  repeat t_seq. t_prim.
Qed.

Lemma t_train (model : keras_model) (p : prepared) :
  St Fit → Df "best_mnist_model.h5" → Dw "best_mnist_model.h5" →
  hoare T (train w model p) (λ _, True).
Proof.
  intros ? ? ?. unfold train. repeat t_seq.
  apply t_fit; [pc|]. by repeat constructor.
Qed.

Lemma t_evaluate_and_load_best (model : keras_model) (p : prepared) :
  St Evaluate → hoare T (evaluate_and_load_best w model p) (λ _, True).
Proof.
  intros ?. unfold evaluate_and_load_best. repeat t_seq. t_prim.
Qed.

Lemma t_save_final (model : keras_model) :
  St Save →
  Df "models" → Df "models/mnist_model.h5" → Dw "models/mnist_model.h5" →
  hoare T (save_final w model) (λ _, True).
Proof.
  intros ? ? ? ?. unfold save_final. t_seq.
  hoare_by hoare_seq; [|intros _].
  { apply t_makedirs; [pc|]. by repeat constructor. }
  hoare_by hoare_seq; [|intros _].
  { apply t_save; [pc|done..]. }
  t_prim.
Qed.

Lemma t_convert_to_tfjs (model : keras_model) :
  St Convert →
  Df "static" → Df "static/model" →
  (∀ name, Df ("static/model" +:+ "/" +:+ name)
           ∧ Dw ("static/model" +:+ "/" +:+ name)) →
  hoare T (convert_to_tfjs w model) (λ _, True).
Proof.
  intros ? ? ? ?. unfold convert_to_tfjs. t_seq.
  hoare_by hoare_try_except.
  - t_seq. hoare_by hoare_seq; [|intros _].
    { apply t_save_keras_model; [pc| |done]. by repeat constructor. }
    t_seq. t_prim.
  - each_handler; repeat t_seq; t_prim.
Qed.

Lemma t_report (test_acc : Q) : hoare T (report test_acc) (λ _, True).
Proof. unfold report. repeat t_seq. t_prim. Qed.

Hypothesis St_all : ∀ st, St st.
Hypothesis Pc_augmentation : Pc (Call.keras_Sequential augmentation_layers).
Hypothesis Pc_plain : Pc (Call.keras_Sequential (create_layers false None)).
Hypothesis Pc_augmented :
  Pc (Call.keras_Sequential
        (create_layers true
           (Some (Model augmentation_layers None
                    (w_init_weights w augmentation_layers))))).
Hypothesis Df_checkpoint : Df "best_mnist_model.h5".
Hypothesis Dw_checkpoint : Dw "best_mnist_model.h5".
Hypothesis Df_models : Df "models".
Hypothesis Df_saved : Df "models/mnist_model.h5".
Hypothesis Dw_saved : Dw "models/mnist_model.h5".
Hypothesis Df_static : Df "static".
Hypothesis Df_static_model : Df "static/model".
Hypothesis D_converted :
  ∀ name, Df ("static/model" +:+ "/" +:+ name)
          ∧ Dw ("static/model" +:+ "/" +:+ name).

Lemma t_build_train_save (p : prepared) (aug : option keras_model * bool) :
  aug = (None, false)
  ∨ aug = (Some (Model augmentation_layers None
                   (w_init_weights w augmentation_layers)), true) →
  hoare T (build_train_save w p aug) (λ _, True).
Proof.
  intros Haug. unfold build_train_save.
  hoare_by hoare_seq; [|intros model].
  { apply t_create_model; [done|]. by destruct Haug as [-> | ->]. }
  hoare_by hoare_seq; [by apply t_train|intros [model' history]].
  hoare_by hoare_seq;
    [by apply t_evaluate_and_load_best|intros [model'' test_acc]].
  hoare_by hoare_seq; [by apply t_save_final|intros _].
  by hoare_by hoare_ret.
Qed.

Lemma t_train_and_save : hoare T (train_and_save w) (λ _, True).
Proof.
  unfold train_and_save.
  hoare_by hoare_seq; [by apply t_prepare|intros p].
  hoare_by hoare_bind; [by apply t_make_augmentation|].
  intros aug Haug. by apply t_build_train_save.
Qed.

Lemma t_main : hoare T (main w) (λ _, True).
Proof.
  unfold main.
  hoare_by hoare_seq; [apply t_train_and_save|intros [model test_acc]].
  hoare_by hoare_seq; [by apply t_convert_to_tfjs|intros _].
  apply t_report.
Qed.

End TouchesScript.

(** ** The topology of the model *)

Lemma create_layers_cases (use_augmentation : bool)
    (data_augmentation : option keras_model) :
  create_layers use_augmentation data_augmentation
  = Input [28; 28; 1] :: convolutional_blocks
  ∨ ∃ aug, data_augmentation = Some aug ∧ use_augmentation = true
           ∧ create_layers use_augmentation data_augmentation
             = Input [28; 28; 1] :: Sequential (m_layers aug)
               :: convolutional_blocks.
Proof.
  destruct use_augmentation, data_augmentation as [aug|]; eauto.
Qed.

(** ** sys.argv is never read *)

Lemma ab_ret {A} (a : A) : argv_blind (ret a).
Proof. done. Qed.

Lemma ab_raise {A} (e : exception) : argv_blind (@raise A e).
Proof. done. Qed.

Lemma ab_lift {A} (r : result A) : argv_blind (lift r).
Proof. done. Qed.

Lemma ab_modify (f : state → state) :
  (∀ s a, f (set_sys_argv a s) = set_sys_argv a (f s)) →
  argv_blind (modify f).
Proof. intros H s a. unfold modify. by rewrite H. Qed.

Lemma ab_bind {A B} (m : M A) (k : A → M B) :
  argv_blind m → (∀ a, argv_blind (k a)) → argv_blind (bind m k).
Proof.
  intros Hm Hk s a. unfold bind. rewrite Hm.
  destruct (m s) as [[x|e] s1]; simpl; [apply Hk|done].
Qed.

Lemma ab_try_except {A} (body : M A)
    (handlers : list (exn_class * (exception → M A))) :
  argv_blind body → Forall (λ h, ∀ e, argv_blind (h.2 e)) handlers →
  argv_blind (try_except body handlers).
Proof.
  intros Hb Hh s a. unfold try_except. rewrite Hb.
  destruct (body s) as [[x|e] s1]; simpl; [done|].
  destruct (find _ handlers) as [h|] eqn:Hf; [|done].
  apply find_some in Hf as [Hin _]. rewrite Forall_forall in Hh.
  apply (Hh h (proj2 (list_elem_of_In _ _) Hin) e).
Qed.

Lemma ab_for_each {A} (xs : list A) (body : A → M unit) :
  (∀ x, argv_blind (body x)) → argv_blind (for_each xs body).
Proof.
  intros Hb. induction xs as [|x xs IH]; simpl; [apply ab_ret|].
  apply ab_bind; [apply Hb|]. intros _. apply IH.
Qed.

Lemma ab_print (l : line) : argv_blind (print l).
Proof. by apply ab_modify. Qed.

Lemma ab_log (c : call) : argv_blind (log c).
Proof. by apply ab_modify. Qed.

Lemma ab_write_file (path : string) (e : entry) : argv_blind (write_file path e).
Proof. by apply ab_modify. Qed.

Lemma ab_invoke (w : world) (c : call) : argv_blind (invoke w c).
Proof.
  unfold invoke. apply ab_bind; [apply ab_log|]. intros _.
  destruct (w_raises w c); [apply ab_raise|apply ab_ret].
Qed.

Lemma ab_h5_save (w : world) (m : keras_model) (path : string) :
  argv_blind (h5_save w m path).
Proof.
  unfold h5_save. destruct (w_raises w _); [apply ab_raise|].
  intros s a. change (is_dir (set_sys_argv a s)) with (is_dir s).
  destruct (_ || _); [apply ab_write_file|done].
Qed.

Lemma ab_load_model (w : world) (path : string) : argv_blind (load_model w path).
Proof.
  unfold load_model. apply ab_bind; [apply ab_invoke|]. intros _ s a. simpl.
  by destruct (fs s !! path) as [[]|].
Qed.

Lemma ab_make_dir_chain (exist_ok : bool) (chain : list string) :
  argv_blind (make_dir_chain exist_ok chain).
Proof.
  induction chain as [|p rest IH]; [apply ab_ret|].
  intros s a. simpl. destruct (fs s !! p) as [[]|]; try done.
  - destruct rest; [by destruct exist_ok|apply IH].
  - change (set_fs <[p:=Dir]> (set_sys_argv a s))
      with (set_sys_argv a (set_fs <[p:=Dir]> s)).
    apply IH.
Qed.

Lemma ab_cache_file (path : string) (content : entry) :
  argv_blind (cache_file path content).
Proof.
  intros s a. unfold cache_file.
  change (fs (set_sys_argv a s)) with (fs s).
  by destruct (fs s !! path) as [[]|].
Qed.

(** The structure of a block decides the rule. *)
Ltac ab_step :=
  lazymatch goal with
  | |- argv_blind (bind _ _) => apply ab_bind; [|intros ?]
  | |- argv_blind (ret _) => apply ab_ret
  | |- argv_blind (raise _) => apply ab_raise
  | |- argv_blind (lift _) => apply ab_lift
  | |- argv_blind (print _) => apply ab_print
  | |- argv_blind (log _) => apply ab_log
  | |- argv_blind (invoke _ _) => apply ab_invoke
  | |- argv_blind (write_file _ _) => apply ab_write_file
  | |- argv_blind (h5_save _ _ _) => apply ab_h5_save
  | |- argv_blind (load_model _ _) => apply ab_load_model
  | |- argv_blind (make_dir_chain _ _) => apply ab_make_dir_chain
  | |- argv_blind (cache_file _ _) => apply ab_cache_file
  | |- argv_blind (modify _) => apply ab_modify; done
  | |- argv_blind (try_except _ _) => apply ab_try_except; [|each_handler]
  | |- argv_blind (for_each _ _) => apply ab_for_each; intros ?
  | |- argv_blind (match ?x with _ => _ end) => destruct x
  end.

Lemma ab_on_epoch_end (w : world) (m : keras_model) (cb : callback)
    (st : callback_state) (epoch : nat) (l : logs) (t : training) :
  argv_blind (on_epoch_end w m cb st epoch l t).
Proof.
  destruct cb, st; cbv beta iota zeta delta [on_epoch_end]; repeat ab_step.
Qed.

Lemma ab_callbacks_on_epoch_end (w : world) (m : keras_model)
    (cbs : list (callback * callback_state)) (epoch : nat) (l : logs)
    (t : training) :
  argv_blind (callbacks_on_epoch_end w m cbs epoch l t).
Proof.
  revert t. induction cbs as [|[cb st] cbs IH]; intros t; simpl;
    [apply ab_ret|].
  apply ab_bind; [apply ab_on_epoch_end|]. intros [st' t'].
  apply ab_bind; [apply IH|]. intros [rest' t'']. apply ab_ret.
Qed.

Lemma ab_train_epochs (w : world) (remaining epoch : nat) (m : keras_model)
    (cbs : list (callback * callback_state)) (ws : weights) (lr : Q)
    (history : list logs) :
  argv_blind (train_epochs w remaining epoch m cbs ws lr history).
Proof.
  revert epoch cbs ws lr history.
  induction remaining as [|remaining IH]; intros epoch cbs ws lr history;
    simpl; [apply ab_ret|].
  destruct (w_epoch w epoch) as [ws' l|e]; [|apply ab_raise].
  apply ab_bind; [apply ab_callbacks_on_epoch_end|]. intros [cbs' t].
  destruct (t_stop t); [apply ab_ret|apply IH].
Qed.

Lemma ab_fit (w : world) (m : keras_model) (x y : ndarray spec_float)
    (args : fit_args) :
  argv_blind (fit w m x y args).
Proof.
  unfold fit. apply ab_bind; [apply ab_invoke|intros _].
  destruct (m_compiled m); [|apply ab_raise].
  apply ab_bind; [apply ab_train_epochs|intros [[ws lr] history]].
  apply ab_ret.
Qed.

Lemma ab_save_keras_model (w : world) (m : keras_model) (dir : string) :
  argv_blind (save_keras_model w m dir).
Proof. unfold save_keras_model. repeat ab_step. Qed.

Lemma ab_configure_gpu (w : world) : argv_blind (configure_gpu w).
Proof.
  unfold configure_gpu, list_physical_devices, set_memory_growth,
    set_visible_devices, environ_set.
  repeat ab_step.
Qed.

Lemma ab_load_dataset (w : world) : argv_blind (load_dataset w).
Proof. unfold load_dataset, load_data. repeat ab_step. Qed.

Lemma ab_preprocess (ds : dataset) : argv_blind (preprocess ds).
Proof.
  destruct ds as [[xtr ytr] [xte yte]].
  unfold preprocess, astype, truediv, np_expand_dims,
    keras_utils_to_categorical.
  repeat ab_step.
Qed.

Lemma ab_make_augmentation (w : world) : argv_blind (make_augmentation w).
Proof. unfold make_augmentation, keras_Sequential. repeat ab_step. Qed.

Lemma ab_create_model (w : world) (aug : option keras_model * bool) :
  argv_blind (create_model w aug).
Proof.
  destruct aug as [data_augmentation use_augmentation].
  unfold create_model, keras_Sequential, compile, summary. repeat ab_step.
Qed.

Lemma ab_train (w : world) (model : keras_model) (p : prepared) :
  argv_blind (train w model p).
Proof. unfold train. repeat first [apply ab_fit | ab_step]. Qed.

Lemma ab_evaluate_and_load_best (w : world) (model : keras_model)
    (p : prepared) :
  argv_blind (evaluate_and_load_best w model p).
Proof. unfold evaluate_and_load_best, evaluate. repeat ab_step. Qed.

Lemma ab_save_final (w : world) (model : keras_model) :
  argv_blind (save_final w model).
Proof. unfold save_final, makedirs, save. repeat ab_step. Qed.

Lemma ab_convert_to_tfjs (w : world) (model : keras_model) :
  argv_blind (convert_to_tfjs w model).
Proof.
  unfold convert_to_tfjs, import_tensorflowjs.
  repeat first [apply ab_save_keras_model | ab_step].
Qed.

Lemma ab_report (test_acc : Q) : argv_blind (report test_acc).
Proof. unfold report. repeat ab_step. Qed.

Lemma ab_main (w : world) : argv_blind (main w).
Proof.
  unfold main, train_and_save, prepare, build_train_save.
  repeat first
    [ apply ab_configure_gpu | apply ab_load_dataset | apply ab_preprocess
    | apply ab_make_augmentation | apply ab_create_model | apply ab_train
    | apply ab_evaluate_and_load_best | apply ab_save_final
    | apply ab_convert_to_tfjs | apply ab_report | ab_step ].
Qed.

(** C9. The script has no command-line interface: two runs that differ only
    in the command-line arguments (sys.argv) end with the same outcome, the
    same printed output, the same files, the same calls into the libraries
    and the same environment; sys.argv itself is left as it was. *)
Theorem command_line_is_ignored (w : world) (s : state)
    (argv1 argv2 : list string) :
  let r1 := main w (set_sys_argv argv1 s) in
  let r2 := main w (set_sys_argv argv2 s) in
  r1.1 = r2.1
  ∧ stdout r1.2 = stdout r2.2
  ∧ fs r1.2 = fs r2.2
  ∧ writes r1.2 = writes r2.2
  ∧ calls r1.2 = calls r2.2
  ∧ os_environ r1.2 = os_environ r2.2
  ∧ tf_memory_growth r1.2 = tf_memory_growth r2.2
  ∧ tf_visible_gpus r1.2 = tf_visible_gpus r2.2
  ∧ sys_argv r1.2 = argv1 ∧ sys_argv r2.2 = argv2.
Proof.
  intros r1 r2. subst r1 r2. rewrite !(ab_main w s). simpl. done.
Qed.

(** ** The script continues after its guarded blocks *)

Lemma bind_assoc {A B C} (m : M A) (k : A → M B) (h : B → M C) (s : state) :
  bind (bind m k) h s = bind m (λ a, bind (k a) h) s.
Proof. unfold bind. by destruct (m s) as [[a|e] s1]. Qed.

Lemma bind_ext {A B} (m : M A) (k k' : A → M B) (s : state) :
  (∀ a s1, k a s1 = k' a s1) → bind m k s = bind m k' s.
Proof. intros H. unfold bind. by destruct (m s) as [[a|e] s1]. Qed.

Lemma main_after_configure_gpu (w : world) (s : state) :
  main w s = (configure_gpu w ;; from_line_41 w) s.
Proof.
  unfold main, train_and_save, prepare, from_line_41, from_line_73.
  rewrite !bind_assoc. apply bind_ext. intros _ s1.
  apply bind_ext. intros p s2. apply bind_assoc.
Qed.

Lemma main_after_augmentation (w : world) (s s1 : state) (p : prepared) :
  prepare w s = (Ok p, s1) →
  main w s = (let* aug := make_augmentation w in from_line_73 w p aug) s1.
Proof.
  intros Hp. unfold main, train_and_save, from_line_73.
  rewrite !bind_assoc. rewrite (bind_ok _ _ _ _ _ Hp).
  apply bind_assoc.
Qed.

Lemma main_after_save (w : world) (s s1 : state) (model : keras_model)
    (test_acc : Q) :
  train_and_save w s = (Ok (model, test_acc), s1) →
  main w s = (convert_to_tfjs w model ;; report test_acc) s1.
Proof. intros H. unfold main. by rewrite (bind_ok _ _ _ _ _ H). Qed.

Lemma try_except_handled {A} (body : M A)
    (handlers : list (exn_class * (exception → M A))) (s s1 : state)
    (e : exception) :
  body s = (Raise e, s1) →
  try_except body handlers s
  = match find (λ h, isinstance e h.1) handlers with
    | Some h => h.2 e s1
    | None => (Raise e, s1)
    end.
Proof. unfold try_except. by intros ->. Qed.

Lemma print_eq (l : line) (s : state) :
  print l s = (Ok (), set_stdout (λ out, out ++ [l]) s).
Proof. done. Qed.

Lemma set_stdout_app (l1 l2 : list line) (s : state) :
  set_stdout (λ out, out ++ l2) (set_stdout (λ out, out ++ l1) s)
  = set_stdout (λ out, out ++ (l1 ++ l2)) s.
Proof.
  destruct s. unfold set_stdout. simpl. by rewrite app_assoc.
Qed.

Lemma report_ok (test_acc : Q) (s : state) :
  ∃ ls, report test_acc s = (Ok (), set_stdout (λ out, out ++ ls) s).
Proof.
  eexists. unfold report, bind. rewrite !print_eq.
  rewrite !set_stdout_app. reflexivity.
Qed.

Lemma for_each_write_file_ok {A} (xs : list A) (path : A → string)
    (content : A → entry) (s : state) :
  ∃ s', for_each xs (λ x, write_file (path x) (content x)) s = (Ok (), s')
        ∧ stdout s' = stdout s.
Proof.
  revert s. induction xs as [|x xs IH]; intros s; [by eexists|].
  simpl. unfold bind. simpl.
  destruct (IH (set_writes (λ ws, ws ++ [path x])
                  (set_fs (insert (path x) (content x)) s)))
    as (s' & -> & Hout).
  by exists s'.
Qed.

(** The body of the [try] at lines 187-193 when the import or the conversion
    raises: nothing is printed. *)
Lemma conversion_body_raises (w : world) (model : keras_model) (s : state)
    (e : exception) :
  w_raises w Call.import_tensorflowjs = Some e
  ∨ (w_raises w Call.import_tensorflowjs = None
     ∧ w_raises w (Call.tfjs_converters_save_keras_model model "static/model")
       = Some e) →
  ∃ s1,
    (import_tensorflowjs w ;;
     save_keras_model w model "static/model" ;;
     print [Lit "✓ Model converted successfully"] ;;
     print [Lit "✓ Model saved to static/model/"]) s = (Raise e, s1)
    ∧ stdout s1 = stdout s.
Proof.
  intros [Himp|[Himp Hconv]]; unfold import_tensorflowjs.
  - eexists. by rewrite (bind_raise _ _ _ _ _ (invoke_raise _ _ _ _ Himp)).
  - rewrite (bind_ok _ _ _ _ _ (invoke_ok _ _ _ Himp)).
    unfold save_keras_model. rewrite Hconv.
    set (s0 := set_calls _ s).
    destruct (for_each_write_file_ok (w_partial w)
                (λ f, "static/model" +:+ "/" +:+ f.1) (λ f, f.2)
                (set_calls (λ cs, cs ++ [Call.tfjs_converters_save_keras_model
                                           model "static/model"]) s0))
      as (s1 & Hw & Hout).
    exists s1. split; [|done].
    unfold bind at 1. unfold bind at 1. unfold log at 1, modify at 1.
    unfold bind at 1. rewrite Hw. done.
Qed.

(** C2, amended. When the conversion to the TensorFlow.js format fails,
    because importing tensorflowjs raises or because the conversion itself
    raises, with an exception that is an instance of Python's [Exception]
    (the two except clauses catch nothing else), the rest of the
    script, lines 185-219, ends normally; what it prints contains the line
    that reports the failure and the manual conversion command; the file
    models/mnist_model.h5 is what it was before the conversion; and a run
    that reached the conversion ends normally. *)
Theorem conversion_failure_is_survived (w : world) (model : keras_model)
    (test_acc : Q) (s : state) (e : exception) :
  w_raises w Call.import_tensorflowjs = Some e
  ∨ (w_raises w Call.import_tensorflowjs = None
     ∧ w_raises w (Call.tfjs_converters_save_keras_model model "static/model")
       = Some e) →
  isinstance e Exception = true →
  ∃ s' ls,
    (convert_to_tfjs w model ;; report test_acc) s = (Ok (), s')
    ∧ stdout s' = stdout s ++ ls
    ∧ conversion_failure_line e ∈ ls
    ∧ converter_command ∈ ls
    ∧ fs s' !! "models/mnist_model.h5" = fs s !! "models/mnist_model.h5"
    ∧ ∀ s0, train_and_save w s0 = (Ok (model, test_acc), s) →
            main w s0 = (Ok (), s').
Proof.
  intros Hfail Hexc.
  (* the file system outside static/model *)
  assert (hoare (touches (λ _, True) (λ p, p ≠ "models/mnist_model.h5")
                   (λ _, True))
            (convert_to_tfjs w model ;; report test_acc) (λ _, True)) as Hfs.
  { hoare_by hoare_seq; [|intros _; apply t_report; done].
    apply (t_convert_to_tfjs _ _ _ _ (λ _, True)); try done. }
  destruct (Hfs s) as [[_ _ Hframe _ _] _].
  (* the outcome and the output *)
  destruct (conversion_body_raises w model
              (set_stdout
                 (λ out, out ++ [[Lit (nl +:+ "Converting to TensorFlow.js format...")]])
                 s) e Hfail) as (s1 & Hbody & Hout1).
  simpl in Hout1.
  assert (∃ s2 ls,
            convert_to_tfjs w model s = (Ok (), s2)
            ∧ stdout s2 = stdout s ++ ls
            ∧ conversion_failure_line e ∈ ls
            ∧ converter_command ∈ ls) as (s2 & ls & Hconv & Hout2 & Hl1 & Hl2).
  { unfold conversion_failure_line.
    destruct (isinstance e ImportError) eqn:Himp.
    - eexists _, _. split; [|split].
      + unfold convert_to_tfjs. etrans; [apply bind_ok, print_eq|].
        etrans; [apply (try_except_handled _ _ _ _ _ Hbody)|].
        simpl find. rewrite Himp. simpl.
        unfold bind. rewrite !print_eq. reflexivity.
      + simpl. rewrite Hout1, <- !app_assoc. reflexivity.
      + simpl. split; apply list_elem_of_In; simpl; tauto.
    - eexists _, _. split; [|split].
      + unfold convert_to_tfjs. etrans; [apply bind_ok, print_eq|].
        etrans; [apply (try_except_handled _ _ _ _ _ Hbody)|].
        simpl find. rewrite Himp, Hexc. simpl.
        unfold bind. rewrite !print_eq. reflexivity.
      + simpl. rewrite Hout1, <- !app_assoc. reflexivity.
      + simpl. split; apply list_elem_of_In; simpl; tauto. }
  destruct (report_ok test_acc s2) as (ls' & Hreport).
  assert ((convert_to_tfjs w model ;; report test_acc) s
          = (Ok (), set_stdout (λ out, out ++ ls') s2)) as Hrun.
  { by rewrite (bind_ok _ _ _ _ _ Hconv). }
  exists (set_stdout (λ out, out ++ ls') s2), (ls ++ ls').
  split; [done|]. split; [simpl; by rewrite Hout2, app_assoc|].
  split; [apply elem_of_app; by left|].
  split; [apply elem_of_app; by left|].
  split.
  - rewrite Hrun in Hframe. apply Hframe. by intros H.
  - intros s00 Hts. by rewrite (main_after_save _ _ _ _ _ Hts).
Qed.

Lemma conversion_failure_is_survived_witness :
  (w_raises world_no_tfjs Call.import_tensorflowjs = Some no_tfjs
   ∧ isinstance no_tfjs Exception = true)
  ∧ ∃ s' ls,
      (convert_to_tfjs world_no_tfjs empty_model ;; report 0.99) initial_state
      = (Ok (), s')
      ∧ stdout s' = stdout initial_state ++ ls
      ∧ conversion_failure_line no_tfjs ∈ ls
      ∧ converter_command ∈ ls
      ∧ fs s' !! "models/mnist_model.h5"
        = fs initial_state !! "models/mnist_model.h5"
      ∧ ∀ s0, train_and_save world_no_tfjs s0
              = (Ok (empty_model, 0.99%Q), initial_state) →
              main world_no_tfjs s0 = (Ok (), s').
Proof.
  split; [split; reflexivity|].
  apply (conversion_failure_is_survived world_no_tfjs empty_model 0.99
           initial_state no_tfjs).
  - left. reflexivity.
  - reflexivity.
Defined.

(** ** Lines 57-71: data augmentation *)

Lemma extends_touches {A} (m : M A) (Pc : call → Prop) (Df Dw : string → Prop)
    (Q : A → Prop) :
  hoare (touches Pc Df Dw) m Q → extends m.
Proof. intros H s. destruct (H s) as [[_ (cs & Hcs & _) _ _ _] _]. eauto. Qed.

Lemma sw_bind {A B} (c : call) (m : M A) (k : A → M B) :
  starts_with c m → (∀ a, extends (k a)) → starts_with c (bind m k).
Proof.
  intros Hm Hk s. destruct (Hm s) as (cs & Hcs). unfold bind.
  destruct (m s) as [[a|e] s1]; simpl in *; [|eauto].
  destruct (Hk a s1) as (cs' & Hcs').
  exists (cs ++ cs'). by rewrite Hcs', Hcs, <- app_assoc.
Qed.

Lemma sw_print {A} (c : call) (l : line) (k : unit → M A) :
  starts_with c (k ()) → starts_with c (bind (print l) k).
Proof. intros Hk s. apply (Hk (set_stdout (λ out, out ++ [l]) s)). Qed.

Lemma sw_log (c : call) : starts_with c (log c).
Proof. intros s. by exists []. Qed.

Lemma sw_invoke (w : world) (c : call) : starts_with c (invoke w c).
Proof.
  unfold invoke. apply sw_bind; [apply sw_log|].
  intros _ s. exists []. rewrite app_nil_r. by destruct (w_raises w c).
Qed.

Lemma extends_ret {A} (a : A) : extends (ret a).
Proof. intros s. exists []. by rewrite app_nil_r. Qed.

Lemma sw_keras_Sequential (w : world) (layers : list layer) :
  starts_with (Call.keras_Sequential layers) (keras_Sequential w layers).
Proof.
  unfold keras_Sequential. apply sw_bind; [apply sw_invoke|].
  intros _. apply extends_ret.
Qed.

(** ** Lines 19-39: GPU configuration *)

Lemma memory_growth_raises (w : world) (before after : list device)
    (gpu : device) (e : exception) (s : state) :
  Forall (λ g, w_raises w (Call.tf_config_experimental_set_memory_growth g true)
               = None) before →
  w_raises w (Call.tf_config_experimental_set_memory_growth gpu true) = Some e →
  ∃ s', for_each (before ++ gpu :: after) (λ g, set_memory_growth w g true) s
        = (Raise e, s')
        ∧ stdout s' = stdout s ∧ fs s' = fs s
        ∧ tf_visible_gpus s' = tf_visible_gpus s.
Proof.
  intros Hbefore Hgpu. revert s.
  induction Hbefore as [|g before Hg _ IH]; intros s; simpl.
  - eexists.
    split;
      [ apply bind_raise; unfold set_memory_growth; apply bind_raise;
        by apply invoke_raise
      | done ].
  - destruct (IH (set_tf_memory_growth (insert g true)
                    (set_calls
                       (λ cs, cs ++ [Call.tf_config_experimental_set_memory_growth
                                       g true]) s)))
      as (s' & Hloop & ? & ? & ?).
    exists s'. split; [|done].
    erewrite bind_ok; [exact Hloop|].
    unfold set_memory_growth. erewrite bind_ok; [reflexivity|].
    by apply invoke_ok.
Qed.

(** When enabling memory growth raises a RuntimeError on one of the
    detected GPUs, the handler prints its two lines and calls
    [tf.config.set_visible_devices([], 'GPU')]; when that call returns, the
    list of visible GPUs is empty and the script goes on from line 41. *)
Lemma gpu_failure_falls_back_to_cpu (w : world) (s : state)
    (before after : list device) (gpu : device) (e : exception) :
  w_raises w (Call.tf_config_list_physical_devices "GPU") = None →
  w_gpus w = before ++ gpu :: after →
  Forall (λ g, w_raises w (Call.tf_config_experimental_set_memory_growth g true)
               = None) before →
  w_raises w (Call.tf_config_experimental_set_memory_growth gpu true) = Some e →
  isinstance e RuntimeError = true →
  ∃ s1,
    configure_gpu w s = set_visible_devices w [] "GPU" s1
    ∧ stdout s1 = stdout s
                  ++ [[Lit "⚠ GPU configuration error: "; FmtExn e];
                      [Lit "  Falling back to CPU..."]]
    ∧ (w_raises w (Call.tf_config_set_visible_devices [] "GPU") = None →
       ∃ s2, configure_gpu w s = (Ok (), s2)
             ∧ tf_visible_gpus s2 = Some []
             ∧ main w s = from_line_41 w s2).
Proof.
  intros Hlist Hgpus Hbefore Hgpu Hrt.
  set (s0 := set_calls (λ cs, cs ++ [Call.tf_config_list_physical_devices "GPU"])
               s).
  destruct (memory_growth_raises w before after gpu e s0 Hbefore Hgpu)
    as (s' & Hloop & Hout & _ & Hvis).
  set (s1 := set_stdout (λ out, out ++ [[Lit "  Falling back to CPU..."]])
               (set_stdout
                  (λ out, out ++ [[Lit "⚠ GPU configuration error: ";
                                   FmtExn e]]) s')).
  assert (configure_gpu w s = set_visible_devices w [] "GPU" s1) as Hconf.
  { assert (∃ g gs, w_gpus w = g :: gs) as (g & gs & Hcons).
    { rewrite Hgpus. destruct before; simpl; eauto. }
    unfold configure_gpu.
    etrans.
    { apply bind_ok. unfold list_physical_devices.
      etrans; [apply bind_ok; by apply invoke_ok|]. reflexivity. }
    rewrite decide_True by done. rewrite Hcons.
    etrans.
    { apply (try_except_handled _ _ _ s' e).
      apply bind_raise. rewrite <- Hcons, Hgpus. exact Hloop. }
    simpl find. rewrite Hrt. reflexivity. }
  exists s1. split; [done|].
  split; [simpl; by rewrite Hout, <- app_assoc|].
  intros Hvisible.
  assert (set_visible_devices w [] "GPU" s1
          = (Ok (), set_tf_visible_gpus (Some [])
                      (set_calls
                         (λ cs, cs ++ [Call.tf_config_set_visible_devices
                                         [] "GPU"]) s1))) as Hset.
  { unfold set_visible_devices.
    erewrite bind_ok; [|by apply invoke_ok].
    by rewrite decide_True by done. }
  eexists. rewrite Hconf. split; [exact Hset|]. split; [done|].
  rewrite main_after_configure_gpu. unfold bind.
  by rewrite Hconf, Hset.
Qed.

(** C3. The failing input: a machine with one GPU whose devices can no
    longer be configured, so that [set_memory_growth] raises a RuntimeError
    and the [set_visible_devices([], 'GPU')] of the handler raises one too.
    The handler announces the fallback to CPU and makes its call, nothing
    guards that call, and the run ends with its RuntimeError: three calls
    were made, the dataset was never loaded, and the visible GPUs are as
    they were. The claim asks for a run that continues on CPU, as the run
    without any GPU does. *)
Theorem gpu_fallback_can_abort :
  w_raises world_gpu_locked_for_good
    (Call.tf_config_experimental_set_memory_growth gpu0 true)
  = Some devices_locked
  ∧ isinstance devices_locked RuntimeError = true
  ∧ [Lit "  Falling back to CPU..."]
    ∈ stdout (main world_gpu_locked_for_good initial_state).2
  ∧ (main world_gpu_locked_for_good initial_state).1
    = Raise (mk_exception RuntimeError
               "Visible devices cannot be modified after being initialized")
  ∧ calls (main world_gpu_locked_for_good initial_state).2
    = [Call.tf_config_list_physical_devices "GPU";
       Call.tf_config_experimental_set_memory_growth gpu0 true;
       Call.tf_config_set_visible_devices [] "GPU"]
  ∧ tf_visible_gpus (main world_gpu_locked_for_good initial_state).2 = None.
Proof.
  split; [reflexivity|]. split; [reflexivity|]. split.
  { vm_compute. apply list_elem_of_further. apply list_elem_of_here. }
  repeat split; vm_compute; reflexivity.
Qed.

(** ** Training: the checkpoint holds the best epoch *)

Lemma Qltb_false (x y : Q) : Qltb x y = false → (y <= x)%Q.
Proof.
  unfold Qltb. intros H. apply negb_false_iff in H. by apply Qle_bool_iff.
Qed.

Lemma Qltb_true (x y : Q) : Qltb x y = true → (x < y)%Q.
Proof.
  unfold Qltb. intros H. apply negb_true_iff in H.
  apply Qnot_le_lt. intros Hle. apply Qle_bool_iff in Hle. congruence.
Qed.

Lemma h5_save_checkpoint_inv (w : world) (m : keras_model) (s s' : state)
    (u : unit) :
  h5_save w m checkpoint_path s = (Ok u, s') →
  s' = set_writes (λ ws, ws ++ [checkpoint_path])
         (set_fs (insert checkpoint_path (H5 m)) s).
Proof.
  unfold h5_save. destruct (w_raises w _); [done|].
  change (bool_decide (dirname checkpoint_path = "")) with true. simpl.
  unfold write_file, modify. by intros [= <-].
Qed.

Lemma reduced_from_refl (lr : Q) : reduced_from lr lr.
Proof. by left. Qed.

Lemma reduced_from_trans (lr0 lr lr' : Q) :
  reduced_from lr0 lr → reduced_from lr lr' → reduced_from lr0 lr'.
Proof.
  intros [->|[Hmin Hle]] [->|[Hmin' Hle']].
  - by left.
  - by right.
  - by right.
  - right. split; [done|]. by eapply Qle_trans.
Qed.

(** [ReduceLROnPlateau] as the script sets it up: the learning rate stays,
    or goes down without passing under 1e-5; nothing else changes. *)
Lemma reduce_lr_step (w : world) (m : keras_model) (rw : nat) (rb : option Q)
    (epoch : nat) (l : logs) (t : training) :
  ∃ rw' rb' lr',
    on_epoch_end w m (ReduceLROnPlateau "val_loss" 0.5 3 0.00001 1)
      (ReduceLRState rw rb) epoch l t
    = ret (ReduceLRState rw' rb', Training (t_weights t) lr' (t_stop t))
    ∧ reduced_from (t_lr t) lr'.
Proof.
  destruct t as [ws lr stop].
  cbv beta iota zeta delta [on_epoch_end t_weights t_lr t_stop].
  change (logs_get l "val_loss") with (Some (val_loss l)).
  cbv beta iota.
  destruct (is_plateau_improvement _ _ _).
  { eexists _, _, _. split; [reflexivity|]. apply reduced_from_refl. }
  destruct (decide (3 ≤ S rw)).
  2:{ eexists _, _, _. split; [reflexivity|]. apply reduced_from_refl. }
  destruct (Qltb 0.00001 lr) eqn:Hlr.
  2:{ eexists _, _, _. split; [reflexivity|]. apply reduced_from_refl. }
  apply Qltb_true in Hlr.
  eexists _, _, _. split; [reflexivity|]. right.
  destruct (Qltb (lr * 0.5) 0.00001) eqn:Hnew.
  - split; [apply Qle_refl|by apply Qlt_le_weak].
  - apply Qltb_false in Hnew. split; [done|]. lra.
Qed.

(** One epoch end with the callbacks of the script, once a best value [b]
    is known: either the epoch improves on [b] and the checkpoint is
    rewritten with the weights of the epoch, or nothing is written. The
    learning rate goes from [lr] to some [lr']. *)
Lemma callbacks_step (w : world) (m : keras_model) (epoch rw wait : nat)
    (rb : option Q) (b : Q) (bw : option weights) (l : logs) (ws : weights)
    (lr : Q) (s s' : state) (cbs' : list (callback * callback_state))
    (t : training) :
  callbacks_on_epoch_end w m
    [(ReduceLROnPlateau "val_loss" 0.5 3 0.00001 1, ReduceLRState rw rb);
     (EarlyStopping "val_accuracy" 8 true 1,
      EarlyStoppingState wait (Some b) bw);
     (ModelCheckpoint checkpoint_path "val_accuracy" true 1,
      ModelCheckpointState (Some b))]
    epoch l (Training ws lr false) s
  = (Ok (cbs', t), s') →
  ∃ rw' rb' lr',
    reduced_from lr lr'
    ∧ (((b < val_accuracy l)%Q
        ∧ t = Training ws lr' false
        ∧ s' = set_writes (λ ws, ws ++ [checkpoint_path])
                 (set_fs
                    (insert checkpoint_path
                       (H5 (with_weights (with_learning_rate m lr') ws))) s)
        ∧ ∃ bw',
            cbs' = [(ReduceLROnPlateau "val_loss" 0.5 3 0.00001 1,
                     ReduceLRState rw' rb');
                    (EarlyStopping "val_accuracy" 8 true 1,
                     EarlyStoppingState 0 (Some (val_accuracy l)) bw');
                    (ModelCheckpoint checkpoint_path "val_accuracy" true 1,
                     ModelCheckpointState (Some (val_accuracy l)))])
       ∨ ((val_accuracy l <= b)%Q
          ∧ s' = s
          ∧ t_lr t = lr'
          ∧ t_stop t = bool_decide (8 ≤ S wait ∧ 0 < epoch)
          ∧ ∃ bw',
              cbs' = [(ReduceLROnPlateau "val_loss" 0.5 3 0.00001 1,
                       ReduceLRState rw' rb');
                      (EarlyStopping "val_accuracy" 8 true 1,
                       EarlyStoppingState (S wait) (Some b) bw');
                      (ModelCheckpoint checkpoint_path "val_accuracy" true 1,
                       ModelCheckpointState (Some b))])).
Proof.
  destruct (reduce_lr_step w m rw rb epoch l (Training ws lr false))
    as (rw' & rb' & lr' & Hreduce & Hlr).
  cbn [t_weights t_lr t_stop] in Hreduce, Hlr.
  cbn [callbacks_on_epoch_end]. unfold bind at 1. rewrite Hreduce.
  intros H. exists rw', rb', lr'. split; [done|]. revert H.
  cbv beta iota zeta delta
    [on_epoch_end bind ret snapshot t_weights t_lr t_stop].
  change (logs_get l "val_accuracy") with (Some (val_accuracy l)).
  change (auto_monitor_op "val_accuracy") with np_greater.
  cbv beta iota zeta delta [is_improvement].
  destruct (Qltb b (val_accuracy l)) eqn:Hlt.
  - destruct (h5_save w _ checkpoint_path s) as [[u|e] s1] eqn:Hsave;
      [|done].
    apply h5_save_checkpoint_inv in Hsave.
    intros [= <- <- <-]. left.
    split; [by apply Qltb_true|]. split; [done|]. split; [done|]. eauto.
  - apply Qltb_false in Hlt.
    destruct (decide (8 ≤ S wait ∧ 0 < epoch)) as [Hstop|Hgo].
    + intros [= <- <- <-]. right. split; [done|]. split; [done|].
      split; [done|].
      split; [by rewrite bool_decide_eq_true_2|]. eauto.
    + intros [= <- <- <-]. right. split; [done|]. split; [done|].
      split; [done|].
      split; [by rewrite bool_decide_eq_false_2|]. eauto.
Qed.

(** The first epoch end: there is no best value yet, so the epoch counts as
    an improvement, the learning rate stays and the checkpoint is written. *)
Lemma callbacks_first_step (w : world) (m : keras_model) (epoch : nat)
    (l : logs) (ws : weights) (lr : Q) (s s' : state)
    (cbs' : list (callback * callback_state)) (t : training) :
  callbacks_on_epoch_end w m
    ((λ cb, (cb, on_train_begin cb)) <$> the_callbacks)
    epoch l (Training ws lr false) s
  = (Ok (cbs', t), s') →
  t = Training ws lr false
  ∧ s' = set_writes (λ ws, ws ++ [checkpoint_path])
           (set_fs
              (insert checkpoint_path
                 (H5 (with_weights (with_learning_rate m lr) ws))) s)
  ∧ ∃ rw' rb' bw',
      cbs' = [(ReduceLROnPlateau "val_loss" 0.5 3 0.00001 1,
               ReduceLRState rw' rb');
              (EarlyStopping "val_accuracy" 8 true 1,
               EarlyStoppingState 0 (Some (val_accuracy l)) bw');
              (ModelCheckpoint checkpoint_path "val_accuracy" true 1,
               ModelCheckpointState (Some (val_accuracy l)))].
Proof.
  cbv beta iota zeta delta
    [callbacks_on_epoch_end on_epoch_end bind ret the_callbacks on_train_begin
     fmap list_fmap snapshot t_weights t_lr t_stop].
  change (logs_get l "val_loss") with (Some (val_loss l)).
  change (logs_get l "val_accuracy") with (Some (val_accuracy l)).
  change (auto_monitor_op "val_accuracy") with np_greater.
  cbv beta iota zeta delta [is_improvement is_plateau_improvement].
  destruct (h5_save w _ _ s) as [[u|e] s1] eqn:Hsave; [|done].
  apply h5_save_checkpoint_inv in Hsave.
  intros [= <- <- <-]. eauto 10.
Qed.

Lemma best_epoch_improved (w : world) (epoch e : nat) (ws ws' : weights)
    (l l' : logs) :
  best_epoch w epoch e ws → w_epoch w e = Trained ws l →
  w_epoch w epoch = Trained ws' l' →
  (val_accuracy l < val_accuracy l')%Q →
  best_epoch w (S epoch) epoch ws'.
Proof.
  intros (He & Hall & l0 & Hl0 & Hle & Hlt) Hl Hl' Hbetter.
  assert (l0 = l) as -> by congruence.
  split; [lia|]. split.
  { intros i Hi. destruct (decide (i = epoch)) as [->|]; [eauto|].
    apply Hall. lia. }
  exists l'. split; [done|]. split.
  - intros e' ws1 l1 He' H1.
    destruct (decide (e' = epoch)) as [->|Hne].
    + assert (l1 = l') as -> by congruence. apply Qle_refl.
    + apply Qlt_le_weak. eapply Qle_lt_trans; [|exact Hbetter].
      eapply Hle; [|exact H1]. lia.
  - intros e' ws1 l1 He' H1.
    eapply Qle_lt_trans; [|exact Hbetter]. by eapply Hle.
Qed.

Lemma best_epoch_kept (w : world) (epoch e : nat) (ws ws' : weights)
    (l l' : logs) :
  best_epoch w epoch e ws → w_epoch w e = Trained ws l →
  w_epoch w epoch = Trained ws' l' →
  (val_accuracy l' <= val_accuracy l)%Q →
  best_epoch w (S epoch) e ws.
Proof.
  intros (He & Hall & l0 & Hl0 & Hle & Hlt) Hl Hl' Hworse.
  assert (l0 = l) as -> by congruence.
  split; [lia|]. split.
  { intros i Hi. destruct (decide (i = epoch)) as [->|]; [eauto|].
    apply Hall. lia. }
  exists l. split; [done|]. split; [|done].
  intros e' ws1 l1 He' H1.
  destruct (decide (e' = epoch)) as [->|Hne].
  - by assert (l1 = l') as -> by congruence.
  - eapply Hle; [|exact H1]. lia.
Qed.

(** The training loop from epoch [epoch] on, when epoch [e] is the best so
    far and [wait] epochs have passed since: the loop ends after
    [n = min (epoch + remaining) (e' + 9)] epochs in all, [e'] being the best
    of them; the checkpoint holds the weights of [e'], the history has one
    entry for each epoch, and only the checkpoint was written. *)
Lemma train_epochs_checkpoint (w : world) (m : keras_model) (lr0 : Q)
    (remaining : nat) :
  ∀ (epoch rw wait e : nat) (rb : option Q) (b : Q) (bw : option weights)
    (ws : weights) (lr : Q) (history : list logs) (s s' : state)
    (r : weights * Q * list logs),
    train_epochs w remaining epoch m
      [(ReduceLROnPlateau "val_loss" 0.5 3 0.00001 1, ReduceLRState rw rb);
       (EarlyStopping "val_accuracy" 8 true 1,
        EarlyStoppingState wait (Some b) bw);
       (ModelCheckpoint checkpoint_path "val_accuracy" true 1,
        ModelCheckpointState (Some b))]
      ws lr history s
    = (Ok r, s') →
    checkpoint_of w m lr0 epoch e b s →
    reduced_from lr0 lr →
    epoch = e + 1 + wait → wait < 8 →
    ∃ e' b' k,
      checkpoint_of w m lr0 (Nat.min (epoch + remaining) (e' + 9)) e' b' s'
      ∧ epoch ≤ Nat.min (epoch + remaining) (e' + 9)
      ∧ length r.2
        = length history + (Nat.min (epoch + remaining) (e' + 9) - epoch)
      ∧ reduced_from lr0 r.1.2
      ∧ writes s' = writes s ++ replicate k checkpoint_path.
Proof.
  induction remaining as [|remaining IH];
    intros epoch rw wait e rb b bw ws lr history s s' r Hrun Hck Hlr Hepoch
      Hwait.
  - injection Hrun as <- <-. exists e, b, 0.
    replace (Nat.min (epoch + 0) (e + 9)) with epoch by lia.
    split; [done|]. split; [done|]. simpl.
    split; [lia|]. split; [done|]. by rewrite app_nil_r.
  - cbn [train_epochs] in Hrun.
    destruct (w_epoch w epoch) as [ws1 l1|exn] eqn:Hepoch_w; [|done].
    apply bind_ok_inv in Hrun as ([cbs' t] & s1 & Hcbs & Hrun).
    destruct Hck as (we & le & lre & Hbest & Hwe & Hb & Hlre & Hfs).
    apply callbacks_step in Hcbs
      as (rw' & rb' & lr' & Hstep
          & [(Hlt & -> & -> & bw' & ->)|(Hle & -> & Ht & Hstop & bw' & ->)]).
    + (* the epoch improves on the best: the checkpoint is rewritten *)
      cbn [t_stop t_weights t_lr] in Hrun.
      eapply (IH (S epoch) rw' 0 epoch) in Hrun
        as (e' & b' & k & Hck' & Hn & Hlen & Hlr' & Hw); [| | |lia|lia].
      * exists e', b', (S k).
        replace (epoch + S remaining) with (S epoch + remaining) by lia.
        split; [done|]. split; [lia|]. split; [|split; [done|]].
        -- rewrite Hlen, length_app. cbn [length]. lia.
        -- rewrite Hw. simpl. by rewrite <- app_assoc.
      * exists ws1, l1, lr'.
        split; [|split; [done|split; [done|split]]].
        -- eapply best_epoch_improved; [done..|]. by rewrite Hb.
        -- by eapply reduced_from_trans.
        -- simpl. by rewrite lookup_insert_eq.
      * by eapply reduced_from_trans.
    + (* no improvement: nothing is written *)
      assert (best_epoch w (S epoch) e we) as Hbest'.
      { eapply best_epoch_kept; [done..|]. by rewrite Hb. }
      assert (reduced_from lr0 (t_lr t)) as Hlrt.
      { rewrite Ht. by eapply reduced_from_trans. }
      destruct (t_stop t) eqn:Hstopped.
      * (* patience is exhausted *)
        injection Hrun as <- <-.
        symmetry in Hstop. apply bool_decide_eq_true in Hstop as [Hp _].
        exists e, b, 0.
        replace (Nat.min (epoch + S remaining) (e + 9)) with (S epoch) by lia.
        split; [by exists we, le, lre|]. split; [lia|]. split; [|split].
        -- cbn [snd]. rewrite length_app. cbn [length]. lia.
        -- done.
        -- simpl. by rewrite app_nil_r.
      * symmetry in Hstop. apply bool_decide_eq_false in Hstop.
        eapply (IH (S epoch) rw' (S wait) e) in Hrun
          as (e' & b' & k & Hck' & Hn & Hlen & Hlr' & Hw);
          [|by exists we, le, lre|done|lia|lia].
        exists e', b', k.
        replace (epoch + S remaining) with (S epoch + remaining) by lia.
        split; [done|]. split; [lia|]. split; [|done].
        rewrite Hlen, length_app. cbn [length]. lia.
Qed.

Lemma train_epochs_S (w : world) (remaining epoch : nat) (m : keras_model)
    (cbs : list (callback * callback_state)) (ws : weights) (lr : Q)
    (history : list logs) :
  train_epochs w (S remaining) epoch m cbs ws lr history
  = match w_epoch w epoch with
    | TrainingRaises e => raise e
    | Trained ws' l =>
        let* (cbs', t) :=
          callbacks_on_epoch_end w m cbs epoch l (Training ws' lr false) in
        if t_stop t then ret (t_weights t, t_lr t, history ++ [l])
        else train_epochs w remaining (S epoch) m cbs' (t_weights t)
               (t_lr t) (history ++ [l])
    end.
Proof. done. Qed.

Lemma bind_print {A} (l : line) (k : unit → M A) (s : state) :
  bind (print l) k s = k () (set_stdout (λ out, out ++ [l]) s).
Proof. done. Qed.

(** Lines 152-164 when training ends normally: the checkpoint was written
    at the end of epoch 0 and perhaps later, and nothing else was; it holds
    the best of the [n = min 30 (e + 9)] epochs that ran; the history has
    [n] entries; the model that comes out differs from the one that went in
    by its weights and its learning rate. *)
Lemma train_inv (w : world) (model model' : keras_model) (p : prepared)
    (history : list logs) (s s' : state) :
  train w model p s = (Ok (model', history), s') →
  ∃ compiled e b k,
    m_compiled model = Some compiled
    ∧ checkpoint_of w model (learning_rate compiled) (Nat.min 30 (e + 9)) e b
        s'
    ∧ length history = Nat.min 30 (e + 9)
    ∧ writes s' = writes s ++ replicate (S k) checkpoint_path
    ∧ m_layers model' = m_layers model.
Proof.
  unfold train. rewrite !bind_print. unfold fit. intros H.
  apply bind_ok_inv in H as ([] & s1 & Hinv & H).
  apply invoke_ok_inv in Hinv as [_ ->].
  destruct (m_compiled model) as [compiled|] eqn:Hcompiled; [|done].
  apply bind_ok_inv in H as ([[ws lr] hist] & s2 & H & Hret).
  injection Hret as <- <- <-.
  cbn [epochs callbacks] in H. rewrite train_epochs_S in H.
  destruct (w_epoch w 0) as [ws0 l0|exn] eqn:H0; [|done].
  apply bind_ok_inv in H as ([cbs' t] & s3 & Hfirst & H).
  apply callbacks_first_step in Hfirst as (-> & -> & rw' & rb' & bw' & ->).
  cbn [t_stop t_weights t_lr] in H.
  match type of H with
  | _ ?st = _ =>
      assert (checkpoint_of w model (learning_rate compiled) 1 0
                (val_accuracy l0) st) as Hck
  end.
  { exists ws0, l0, (learning_rate compiled).
    split; [|split; [done|split; [done|split]]].
    + split; [lia|]. split.
      { intros i Hi. assert (i = 0) as -> by lia. eauto. }
      exists l0. split; [done|]. split.
      * intros e' ws' l' He' H'. assert (e' = 0) as -> by lia.
        assert (l' = l0) as -> by congruence. apply Qle_refl.
      * intros e' ws' l' He'. lia.
    + apply reduced_from_refl.
    + simpl. by rewrite lookup_insert_eq. }
  destruct (train_epochs_checkpoint w model (learning_rate compiled) 29 1 _ 0
              0 _ _ _ _ _ _ _ _ _ H Hck (reduced_from_refl _))
    as (e & b & k & He & Hn & Hlen & _ & Hw); [lia..|].
  exists compiled, e, b, k. change (1 + 29) with 30 in *.
  split; [done|]. split; [done|].
  split; [cbn [snd app length] in Hlen; lia|].
  split; [|done].
  rewrite Hw. simpl. by rewrite <- app_assoc.
Qed.

(** ** Blocks that end normally *)

Lemma evaluate_inv (w : world) (m : keras_model) (x y : ndarray spec_float)
    (r : Q * Q) (s s' : state) :
  evaluate w m x y s = (Ok r, s') →
  r = w_evaluate w m
  ∧ s' = set_calls (λ cs, cs ++ [Call.model_evaluate m x y]) s.
Proof.
  unfold evaluate. intros H.
  apply bind_ok_inv in H as ([] & s1 & Hinv & H).
  apply invoke_ok_inv in Hinv as [_ ->]. by injection H as <- <-.
Qed.

Lemma load_model_inv (w : world) (path : string) (m : keras_model)
    (s s' : state) :
  load_model w path s = (Ok m, s') →
  fs s !! path = Some (H5 m)
  ∧ s' = set_calls (λ cs, cs ++ [Call.keras_models_load_model path]) s.
Proof.
  unfold load_model. intros H.
  apply bind_ok_inv in H as ([] & s1 & Hinv & H).
  apply invoke_ok_inv in Hinv as [_ ->].
  change (fs (set_calls (λ cs, cs ++ [Call.keras_models_load_model path]) s))
    with (fs s) in H.
  destruct (fs s !! path) as [[]|]; try done. by injection H as <- <-.
Qed.

(** Lines 166-177: the model that comes out is the one stored in the
    checkpoint file; no file is touched. *)
Lemma evaluate_and_load_best_inv (w : world) (model m : keras_model)
    (p : prepared) (test_acc : Q) (s s' : state) :
  evaluate_and_load_best w model p s = (Ok (m, test_acc), s') →
  fs s !! checkpoint_path = Some (H5 m)
  ∧ fs s' = fs s ∧ writes s' = writes s
  ∧ test_acc = (w_evaluate w m).2.
Proof.
  unfold evaluate_and_load_best. rewrite !bind_print. intros H.
  apply bind_ok_inv in H as ([test_loss0 test_acc0] & s1 & Heval & H).
  apply evaluate_inv in Heval as [_ ->].
  rewrite !bind_print in H.
  apply bind_ok_inv in H as (m' & s2 & Hload & H).
  apply load_model_inv in Hload as [Hfile ->].
  apply bind_ok_inv in H as ([test_loss1 test_acc1] & s3 & Heval & H).
  apply evaluate_inv in Heval as [Hval ->].
  rewrite !bind_print in H. injection H as <- <- <-.
  by rewrite <- Hval.
Qed.

Lemma makedirs_models_inv (w : world) (u : unit) (s s' : state) :
  makedirs w "models" true s = (Ok u, s') →
  is_dir s' "models" = true
  ∧ (∀ p, p ≠ "models" → fs s' !! p = fs s !! p)
  ∧ writes s' = writes s.
Proof.
  destruct u. unfold makedirs. intros H.
  apply bind_ok_inv in H as ([] & s1 & Hinv & H).
  apply invoke_ok_inv in Hinv as [_ ->].
  change (dir_chain "" "models") with ["models"] in H.
  cbn [make_dir_chain] in H.
  change (fs (set_calls (λ cs, cs ++ [Call.os_makedirs "models" true]) s))
    with (fs s) in H.
  unfold is_dir.
  destruct (fs s !! "models") as [[]|] eqn:Hm; try done.
  - injection H as <-. simpl. by rewrite Hm.
  - injection H as <-. simpl. rewrite lookup_insert_eq.
    split; [done|]. split; [|done]. intros p Hp. by rewrite lookup_insert_ne.
Qed.

(** Lines 179-183: the model is in models/mnist_model.h5 afterwards, and
    that is the one file written. *)
Lemma save_final_inv (w : world) (model : keras_model) (u : unit)
    (s s' : state) :
  save_final w model s = (Ok u, s') →
  fs s' !! saved_model_path = Some (H5 model)
  ∧ (∀ p, p ≠ "models" → p ≠ saved_model_path → fs s' !! p = fs s !! p)
  ∧ writes s' = writes s ++ [saved_model_path].
Proof.
  destruct u. unfold save_final. rewrite bind_print. intros H.
  apply bind_ok_inv in H as ([] & s1 & Hdirs & H).
  apply makedirs_models_inv in Hdirs as (Hdir & Hframe & Hwrites).
  apply bind_ok_inv in H as ([] & s2 & Hsave & H).
  rewrite print_eq in H. injection H as <-.
  unfold save in Hsave.
  apply bind_ok_inv in Hsave as ([] & s3 & Hlog & Hsave).
  injection Hlog as <-. unfold h5_save in Hsave.
  destruct (w_raises w _); [done|].
  change (dirname "models/mnist_model.h5") with "models" in Hsave.
  change (is_dir (set_calls _ s1) "models") with (is_dir s1 "models") in Hsave.
  rewrite Hdir in Hsave. simpl in Hsave. injection Hsave as <-.
  simpl in *. rewrite lookup_insert_eq. split; [done|]. split.
  - intros p Hp1 Hp2. rewrite lookup_insert_ne by done. by apply Hframe.
  - by rewrite Hwrites.
Qed.

Lemma create_model_inv (w : world) (aug : option keras_model * bool)
    (model : keras_model) (s s' : state) :
  create_model w aug s = (Ok model, s') →
  m_layers model = create_layers aug.2 aug.1
  ∧ m_compiled model
    = Some (CompileArgs (Adam 0.001) "categorical_crossentropy" ["accuracy"])
  ∧ fs s' = fs s ∧ writes s' = writes s.
Proof.
  destruct aug as [data_augmentation use_augmentation].
  unfold create_model. rewrite bind_print. intros H.
  apply bind_ok_inv in H as (m0 & s1 & Hseq & H).
  unfold keras_Sequential in Hseq.
  apply bind_ok_inv in Hseq as ([] & s2 & Hinv & Hseq).
  apply invoke_ok_inv in Hinv as [_ ->]. injection Hseq as <- <-.
  apply bind_ok_inv in H as (m1 & s3 & Hcomp & H).
  unfold compile in Hcomp.
  apply bind_ok_inv in Hcomp as ([] & s4 & Hinv & Hcomp).
  apply invoke_ok_inv in Hinv as [_ ->]. injection Hcomp as <- <-.
  apply bind_ok_inv in H as ([] & s5 & Hsum & H).
  apply invoke_ok_inv in Hsum as [_ ->]. by injection H as <- <-.
Qed.

(** A run that ends normally went through every block. *)
Lemma main_inv (w : world) (s s' : state) :
  main w s = (Ok (), s') →
  ∃ p aug m0 m1 history m2 test_acc s1 s2 s3 s4 s5 s6,
    prepare w s = (Ok p, s1)
    ∧ make_augmentation w s1 = (Ok aug, s2)
    ∧ create_model w aug s2 = (Ok m0, s3)
    ∧ train w m0 p s3 = (Ok (m1, history), s4)
    ∧ evaluate_and_load_best w m1 p s4 = (Ok (m2, test_acc), s5)
    ∧ save_final w m2 s5 = (Ok (), s6)
    ∧ (convert_to_tfjs w m2 ;; report test_acc) s6 = (Ok (), s').
Proof.
  unfold main. intros H.
  apply bind_ok_inv in H as ([model test_acc] & s6 & Hts & H).
  unfold train_and_save in Hts.
  apply bind_ok_inv in Hts as (p & s1 & Hp & Hts).
  apply bind_ok_inv in Hts as (aug & s2 & Haug & Hts).
  unfold build_train_save in Hts.
  apply bind_ok_inv in Hts as (m0 & s3 & Hm0 & Hts).
  apply bind_ok_inv in Hts as ([m1 history] & s4 & Htrain & Hts).
  apply bind_ok_inv in Hts as ([m2 acc] & s5 & Heval & Hts).
  apply bind_ok_inv in Hts as ([] & s6' & Hsave & Hts).
  injection Hts as <- <- <-.
  by exists p, aug, m0, m1, history, m2, acc, s1, s2, s3, s4, s5, s6'.
Qed.

(** ** Training and the checkpoint (lines 129-164) *)

(** X1. Lines 129-164. When [model.fit] ends normally, [n = min 30 (e + 9)]
    epochs ran, [e] being the first epoch that reached the highest validation
    accuracy: training stops 8 epochs after its best epoch, or at epoch 30.
    The history has [n] entries; best_mnist_model.h5 holds the model with the
    weights of epoch [e], whatever the file held before (its optimizer has
    the learning rate that ReduceLROnPlateau had set by then: the initial
    one, or a lower one that is not below 1e-5); the file was written at
    least once and no other file was written or changed. *)
Theorem training_checkpoints_best_epoch (w : world)
    (model model' : keras_model) (p : prepared) (history : list logs)
    (s s' : state) :
  train w model p s = (Ok (model', history), s') →
  ∃ e ws k compiled lr,
    best_epoch w (Nat.min 30 (e + 9)) e ws
    ∧ length history = Nat.min 30 (e + 9)
    ∧ m_compiled model = Some compiled
    ∧ reduced_from (learning_rate compiled) lr
    ∧ fs s' !! "best_mnist_model.h5"
      = Some (H5 (with_weights (with_learning_rate model lr) ws))
    ∧ writes s' = writes s ++ replicate (S k) "best_mnist_model.h5"
    ∧ ∀ path, path ≠ "best_mnist_model.h5" → fs s' !! path = fs s !! path.
Proof.
  intros Hrun.
  destruct (train_inv _ _ _ _ _ _ _ Hrun)
    as (compiled & e & b & k & Hcompiled
        & (ws & l & lr & Hbest & _ & _ & Hlr & Hfile) & Hlen & Hwrites & _).
  exists e, ws, k, compiled, lr.
  split; [done|]. split; [done|]. split; [done|]. split; [done|].
  split; [done|]. split; [done|].
  assert (hoare (touches (λ _, True) (λ path, path = "best_mnist_model.h5")
                   (λ _, True)) (train w model p) (λ _, True)) as Hframe.
  { by apply (t_train _ _ _ _ (λ _, True)). }
  destruct (Hframe s) as [[_ _ Hfs _ _] _]. rewrite Hrun in Hfs.
  intros path Hpath. by apply Hfs.
Qed.

Lemma training_checkpoints_best_epoch_witness :
  ∃ e ws k compiled lr,
    best_epoch world_ok (Nat.min 30 (e + 9)) e ws
    ∧ length (returned (compiled_model, [])
                (train world_ok compiled_model no_samples initial_state)).2
      = Nat.min 30 (e + 9)
    ∧ m_compiled compiled_model = Some compiled
    ∧ reduced_from (learning_rate compiled) lr
    ∧ fs (train world_ok compiled_model no_samples initial_state).2
        !! "best_mnist_model.h5"
      = Some (H5 (with_weights (with_learning_rate compiled_model lr) ws))
    ∧ writes (train world_ok compiled_model no_samples initial_state).2
      = writes initial_state ++ replicate (S k) "best_mnist_model.h5"
    ∧ ∀ path, path ≠ "best_mnist_model.h5" →
        fs (train world_ok compiled_model no_samples initial_state).2 !! path
        = fs initial_state !! path.
Proof.
  apply (training_checkpoints_best_epoch world_ok compiled_model
           (returned (compiled_model, [])
              (train world_ok compiled_model no_samples initial_state)).1
           no_samples
           (returned (compiled_model, [])
              (train world_ok compiled_model no_samples initial_state)).2
           initial_state
           (train world_ok compiled_model no_samples initial_state).2).
  vm_compute. reflexivity.
Defined.

Lemma Qltb_of_le (x y : Q) : (y <= x)%Q → Qltb x y = false.
Proof.
  intros H. unfold Qltb. apply negb_false_iff. by apply Qle_bool_iff.
Qed.

Lemma Qltb_of_lt (x y : Q) : (x < y)%Q → Qltb x y = true.
Proof.
  intros H. unfold Qltb. apply negb_true_iff.
  destruct (Qle_bool y x) eqn:Hle; [|done].
  apply Qle_bool_iff in Hle. by apply Qlt_not_le in H.
Qed.

(** The end of an epoch with the callbacks of the script, once a best
    validation accuracy [b] is known, computed forwards. *)
Lemma callbacks_known_best (w : world) (m : keras_model)
    (epoch rw wait : nat) (rb : option Q) (b : Q) (bw : option weights)
    (l : logs) (ws : weights) (lr : Q) (s : state) :
  let cbs :=
    [(ReduceLROnPlateau "val_loss" 0.5 3 0.00001 1, ReduceLRState rw rb);
     (EarlyStopping "val_accuracy" 8 true 1,
      EarlyStoppingState wait (Some b) bw);
     (ModelCheckpoint "best_mnist_model.h5" "val_accuracy" true 1,
      ModelCheckpointState (Some b))] in
  ∃ rw' rb' lr',
    reduced_from lr lr'
    ∧ ((val_accuracy l <= b)%Q →
       ∃ bw' ws',
         callbacks_on_epoch_end w m cbs epoch l (Training ws lr false) s
         = (Ok ([(ReduceLROnPlateau "val_loss" 0.5 3 0.00001 1,
                  ReduceLRState rw' rb');
                 (EarlyStopping "val_accuracy" 8 true 1,
                  EarlyStoppingState (S wait) (Some b) bw');
                 (ModelCheckpoint "best_mnist_model.h5" "val_accuracy" true 1,
                  ModelCheckpointState (Some b))],
                if bool_decide (8 ≤ S wait ∧ 0 < epoch)
                then Training ws' lr' true else Training ws lr' false), s))
    ∧ ((b < val_accuracy l)%Q →
       ∃ bw',
         callbacks_on_epoch_end w m cbs epoch l (Training ws lr false) s
         = match w_raises w
                   (Call.model_save
                      (with_weights (with_learning_rate m lr') ws)
                      "best_mnist_model.h5") with
           | None =>
               (Ok ([(ReduceLROnPlateau "val_loss" 0.5 3 0.00001 1,
                      ReduceLRState rw' rb');
                     (EarlyStopping "val_accuracy" 8 true 1,
                      EarlyStoppingState 0 (Some (val_accuracy l)) bw');
                     (ModelCheckpoint "best_mnist_model.h5" "val_accuracy"
                        true 1,
                      ModelCheckpointState (Some (val_accuracy l)))],
                    Training ws lr' false),
                set_writes (λ paths, paths ++ ["best_mnist_model.h5"])
                  (set_fs
                     (insert "best_mnist_model.h5"
                        (H5 (with_weights (with_learning_rate m lr') ws)))
                     s))
           | Some e => (Raise e, s)
           end).
Proof.
  intros cbs. subst cbs.
  destruct (reduce_lr_step w m rw rb epoch l (Training ws lr false))
    as (rw' & rb' & lr' & Hreduce & Hlr).
  cbn [t_weights t_lr t_stop] in Hreduce, Hlr.
  exists rw', rb', lr'. split; [done|].
  cbn [callbacks_on_epoch_end]. unfold bind at 1 3. rewrite Hreduce.
  cbv beta iota zeta delta
    [on_epoch_end bind ret snapshot t_weights t_lr t_stop].
  change (logs_get l "val_accuracy") with (Some (val_accuracy l)).
  change (auto_monitor_op "val_accuracy") with np_greater.
  cbv beta iota zeta delta [is_improvement].
  split.
  - intros Hle. rewrite (Qltb_of_le _ _ Hle).
    destruct (decide (8 ≤ S wait ∧ 0 < epoch)).
    + rewrite bool_decide_eq_true_2 by done. by eexists _, _.
    + rewrite bool_decide_eq_false_2 by done. by eexists _, ws.
  - intros Hlt. rewrite (Qltb_of_lt _ _ Hlt).
    unfold h5_save.
    destruct (w_raises w _) as [e|]; [by exists bw|].
    change (bool_decide (dirname "best_mnist_model.h5" = "")) with true.
    cbn [orb]. by eexists.
Qed.

(** X2. Lines 129-164. One turn of the training loop, once a best
    validation accuracy [b] is known. An epoch that does not improve on [b]
    leaves the interpreter state as it is, so that best_mnist_model.h5 is
    not rewritten: the loop stops there when 8 epochs have passed without
    improvement, and goes on with the next epoch otherwise. An epoch that
    improves on [b] rewrites the file with the weights of that epoch and
    the loop goes on with the next epoch; if writing the file raises, the
    exception ends the loop. *)
Theorem checkpoint_is_written_only_on_improvement (w : world)
    (m : keras_model) (remaining epoch rw wait : nat) (rb : option Q) (b : Q)
    (bw : option weights) (l : logs) (ws0 ws : weights) (lr : Q)
    (history : list logs) (s : state) :
  let loop :=
    train_epochs w (S remaining) epoch m
      [(ReduceLROnPlateau "val_loss" 0.5 3 0.00001 1, ReduceLRState rw rb);
       (EarlyStopping "val_accuracy" 8 true 1,
        EarlyStoppingState wait (Some b) bw);
       (ModelCheckpoint "best_mnist_model.h5" "val_accuracy" true 1,
        ModelCheckpointState (Some b))]
      ws0 lr history s in
  w_epoch w epoch = Trained ws l →
  ∃ rw' rb' lr',
    reduced_from lr lr'
    ∧ ((val_accuracy l <= b)%Q →
       ∃ bw' ws',
         loop
         = if bool_decide (8 ≤ S wait ∧ 0 < epoch)
           then (Ok (ws', lr', history ++ [l]), s)
           else
             train_epochs w remaining (S epoch) m
               [(ReduceLROnPlateau "val_loss" 0.5 3 0.00001 1,
                 ReduceLRState rw' rb');
                (EarlyStopping "val_accuracy" 8 true 1,
                 EarlyStoppingState (S wait) (Some b) bw');
                (ModelCheckpoint "best_mnist_model.h5" "val_accuracy" true 1,
                 ModelCheckpointState (Some b))]
               ws lr' (history ++ [l]) s)
    ∧ ((b < val_accuracy l)%Q →
       ∃ bw',
         loop
         = match w_raises w
                   (Call.model_save
                      (with_weights (with_learning_rate m lr') ws)
                      "best_mnist_model.h5") with
           | None =>
               train_epochs w remaining (S epoch) m
                 [(ReduceLROnPlateau "val_loss" 0.5 3 0.00001 1,
                   ReduceLRState rw' rb');
                  (EarlyStopping "val_accuracy" 8 true 1,
                   EarlyStoppingState 0 (Some (val_accuracy l)) bw');
                  (ModelCheckpoint "best_mnist_model.h5" "val_accuracy"
                     true 1,
                   ModelCheckpointState (Some (val_accuracy l)))]
                 ws lr' (history ++ [l])
                 (set_writes (λ paths, paths ++ ["best_mnist_model.h5"])
                    (set_fs
                       (insert "best_mnist_model.h5"
                          (H5 (with_weights (with_learning_rate m lr') ws)))
                       s))
           | Some e => (Raise e, s)
           end).
Proof.
  intros loop Hepoch. subst loop. rewrite train_epochs_S, Hepoch.
  destruct (callbacks_known_best w m epoch rw wait rb b bw l ws lr s)
    as (rw' & rb' & lr' & Hlr & Hkept & Himproved).
  exists rw', rb', lr'. split; [done|]. split.
  - intros Hle. destruct (Hkept Hle) as (bw' & ws' & Hend).
    exists bw', ws'. unfold bind. rewrite Hend.
    by destruct (bool_decide (8 ≤ S wait ∧ 0 < epoch)).
  - intros Hlt. destruct (Himproved Hlt) as (bw' & Hend).
    exists bw'. unfold bind. rewrite Hend.
    by destruct (w_raises w _).
Qed.

Lemma checkpoint_is_written_only_on_improvement_witness :
  ∃ rw' rb' lr',
    reduced_from 0.001 lr'
    ∧ ((0.95 <= 0.90)%Q →
       ∃ bw' ws',
         train_epochs world_ok 29 1 compiled_model
           [(ReduceLROnPlateau "val_loss" 0.5 3 0.00001 1,
             ReduceLRState 0 (Some 0.2%Q));
            (EarlyStopping "val_accuracy" 8 true 1,
             EarlyStoppingState 0 (Some 0.90%Q) None);
            (ModelCheckpoint "best_mnist_model.h5" "val_accuracy" true 1,
             ModelCheckpointState (Some 0.90%Q))]
           [] 0.001 [] initial_state
         = if bool_decide (8 ≤ 1 ∧ 0 < 1)
           then (Ok (ws', lr', [] ++ [Logs 0.3 0.9 0.2 0.95]), initial_state)
           else
             train_epochs world_ok 28 2 compiled_model
               [(ReduceLROnPlateau "val_loss" 0.5 3 0.00001 1,
                 ReduceLRState rw' rb');
                (EarlyStopping "val_accuracy" 8 true 1,
                 EarlyStoppingState 1 (Some 0.90%Q) bw');
                (ModelCheckpoint "best_mnist_model.h5" "val_accuracy" true 1,
                 ModelCheckpointState (Some 0.90%Q))]
               [F32.of_Z 1] lr' ([] ++ [Logs 0.3 0.9 0.2 0.95])
               initial_state)
    ∧ ((0.90 < 0.95)%Q →
       ∃ bw',
         train_epochs world_ok 29 1 compiled_model
           [(ReduceLROnPlateau "val_loss" 0.5 3 0.00001 1,
             ReduceLRState 0 (Some 0.2%Q));
            (EarlyStopping "val_accuracy" 8 true 1,
             EarlyStoppingState 0 (Some 0.90%Q) None);
            (ModelCheckpoint "best_mnist_model.h5" "val_accuracy" true 1,
             ModelCheckpointState (Some 0.90%Q))]
           [] 0.001 [] initial_state
         = match w_raises world_ok
                   (Call.model_save
                      (with_weights (with_learning_rate compiled_model lr')
                         [F32.of_Z 1])
                      "best_mnist_model.h5") with
           | None =>
               train_epochs world_ok 28 2 compiled_model
                 [(ReduceLROnPlateau "val_loss" 0.5 3 0.00001 1,
                   ReduceLRState rw' rb');
                  (EarlyStopping "val_accuracy" 8 true 1,
                   EarlyStoppingState 0 (Some 0.95%Q) bw');
                  (ModelCheckpoint "best_mnist_model.h5" "val_accuracy"
                     true 1,
                   ModelCheckpointState (Some 0.95%Q))]
                 [F32.of_Z 1] lr' ([] ++ [Logs 0.3 0.9 0.2 0.95])
                 (set_writes (λ paths, paths ++ ["best_mnist_model.h5"])
                    (set_fs
                       (insert "best_mnist_model.h5"
                          (H5 (with_weights
                                 (with_learning_rate compiled_model lr')
                                 [F32.of_Z 1])))
                       initial_state))
           | Some e => (Raise e, initial_state)
           end).
Proof.
  apply (checkpoint_is_written_only_on_improvement world_ok compiled_model
           28 1 0 0 (Some 0.2%Q) 0.90 None (Logs 0.3 0.9 0.2 0.95) []
           [F32.of_Z 1] 0.001 [] initial_state).
  reflexivity.
Defined.

(** ** What a run leaves behind (lines 19-219) *)

Lemma checkpoint_not_conversion_path : ¬ conversion_path checkpoint_path.
Proof. by intros [|[|[name ?]]]. Qed.

Lemma saved_model_not_conversion_path : ¬ conversion_path saved_model_path.
Proof. by intros [|[|[name ?]]]. Qed.

Lemma convert_and_report_frame (w : world) (model : keras_model)
    (test_acc : Q) (s : state) (p : string) :
  ¬ conversion_path p →
  fs ((convert_to_tfjs w model ;; report test_acc) s).2 !! p = fs s !! p.
Proof.
  intros Hp.
  assert (hoare (touches (λ _, True) conversion_path (λ _, True))
            (convert_to_tfjs w model ;; report test_acc) (λ _, True)) as Ht.
  { hoare_by hoare_seq; [|intros _; apply t_report].
    apply (t_convert_to_tfjs _ _ _ _ (λ _, True)); try done.
    - by left.
    - by right; left.
    - intros name. split; [|done]. right; right. by exists name. }
  destruct (Ht s) as [[_ _ Hfs _ _] _]. by apply Hfs.
Qed.



Lemma cache_outside_working_directory :
  outside_working_directory "~/.keras"
  ∧ outside_working_directory "~/.keras/datasets"
  ∧ outside_working_directory mnist_cache.
Proof. repeat split; eexists; right; reflexivity. Qed.

(** X4. Lines 19-219. Whatever the frameworks answer and however the run
    ends, with or without an exception: in the working directory, the only
    paths that can differ afterwards are best_mnist_model.h5, models,
    models/mnist_model.h5, static, static/model and the entries of
    static/model, and the only files written there are the two model files
    and entries of static/model; what was printed before is still there;
    and sys.argv is as it was. Absolute paths and the home directory, where
    Keras caches the dataset and libraries keep temporary files, are
    outside this statement. *)
Theorem run_footprint (w : world) (s : state) :
  (∀ p, ¬ run_path p → ¬ outside_working_directory p →
        fs (main w s).2 !! p = fs s !! p)
  ∧ (∃ ws, writes (main w s).2 = writes s ++ ws
           ∧ Forall (λ p, run_file p ∨ outside_working_directory p) ws)
  ∧ (∃ ls, stdout (main w s).2 = stdout s ++ ls)
  ∧ sys_argv (main w s).2 = sys_argv s.
Proof.
  pose proof cache_outside_working_directory as (Hkeras & Hdatasets & Hcache).
  assert (hoare (touches (λ _, True)
                   (λ p, run_path p ∨ outside_working_directory p)
                   (λ p, run_file p ∨ outside_working_directory p))
            (main w) (λ _, True)) as Ht.
  { apply (t_main _ _ _ _ (λ _, True)); try done.
    - split; [by right|]. split; by right.
    - by right.
    - left. by left.
    - left. by left.
    - left. by right; left.
    - left. by right; right; left.
    - left. by right; left.
    - left. by right; right; right; left.
    - left. by right; right; right; right; left.
    - intros name. split.
      + left. right; right; right; right; right. by exists name.
      + left. right; right. by exists name. }
  destruct (Ht s) as [[? ? Hfs ? ?] _].
  split; [|done]. intros p Hrun Hout. apply Hfs. by intros [?|?].
Qed.

Lemma report_prints (test_acc : Q) (s s' : state) (r : result unit) :
  report test_acc s = (r, s') →
  [Lit (nl +:+ "Final accuracy: "); FmtFloat (test_acc * 100) 2; Lit "%"]
  ∈ stdout s'.
Proof.
  unfold report, bind. rewrite !print_eq, !set_stdout_app.
  intros [= _ <-]. destruct s. unfold set_stdout. cbn [stdout].
  apply elem_of_app. right.
  do 3 apply list_elem_of_further. apply list_elem_of_here.
Qed.

(** X5. Lines 166-219. The accuracy that a completed run reports at its end is
    the test accuracy of the model it saved in models/mnist_model.h5, that
    is of the reloaded best checkpoint, not the accuracy of the model as it
    was when training ended. *)
Theorem reported_accuracy_is_of_saved_model (w : world) (s s' : state) :
  main w s = (Ok (), s') →
  ∃ m,
    fs s' !! "models/mnist_model.h5" = Some (H5 m)
    ∧ [Lit (nl +:+ "Final accuracy: ");
       FmtFloat ((w_evaluate w m).2 * 100) 2; Lit "%"] ∈ stdout s'.
Proof.
  intros Hrun.
  apply main_inv in Hrun
    as (p & aug & m0 & m1 & history & m2 & test_acc
        & s1 & s2 & s3 & s4 & s5 & s6
        & _ & _ & _ & _ & Heval & Hsave & Hrest).
  apply evaluate_and_load_best_inv in Heval as (_ & _ & _ & ->).
  apply save_final_inv in Hsave as (Hsaved & _ & _).
  exists m2. split.
  - replace s' with ((convert_to_tfjs w m2 ;; report (w_evaluate w m2).2)
                       s6).2 by by rewrite Hrest.
    rewrite convert_and_report_frame
      by apply saved_model_not_conversion_path.
    done.
  - apply bind_ok_inv in Hrest as ([] & s7 & _ & Hreport).
    by apply report_prints in Hreport.
Qed.

Lemma reported_accuracy_is_of_saved_model_witness :
  ∃ m,
    fs (main world_ok initial_state).2 !! "models/mnist_model.h5"
    = Some (H5 m)
    ∧ [Lit (nl +:+ "Final accuracy: ");
       FmtFloat ((w_evaluate world_ok m).2 * 100) 2; Lit "%"]
      ∈ stdout (main world_ok initial_state).2.
Proof.
  apply (reported_accuracy_is_of_saved_model world_ok initial_state
           (main world_ok initial_state).2).
  vm_compute. reflexivity.
Defined.

Lemma models_not_conversion_path : ¬ conversion_path "models".
Proof. by intros [|[|[name ?]]]. Qed.

Lemma train_and_save_frame (w : world) (s : state) (p : string) :
  conversion_path p → fs (train_and_save w s).2 !! p = fs s !! p.
Proof.
  intros Hp.
  assert (hoare (touches (λ _, True) (λ p, ¬ conversion_path p) (λ _, True))
            (train_and_save w) (λ _, True)) as Ht.
  { apply (t_train_and_save _ _ _ _ (λ _, True)); try done.
    - repeat split; by intros [|[|[name ?]]].
    - apply checkpoint_not_conversion_path.
    - apply models_not_conversion_path.
    - apply saved_model_not_conversion_path. }
  destruct (Ht s) as [[_ _ Hfs _ _] _]. apply Hfs. by intros H.
Qed.

Lemma failed_import_frame (w : world) (model : keras_model) (s : state)
    (e : exception) :
  w_raises w Call.import_tensorflowjs = Some e →
  fs (convert_to_tfjs w model s).2 = fs s.
Proof.
  intros Himport.
  unfold convert_to_tfjs. rewrite bind_print.
  erewrite try_except_handled.
  2:{ apply bind_raise. unfold import_tensorflowjs. by apply invoke_raise. }
  assert (∀ (h : M unit) s0,
            hoare (touches (λ _, True) (λ _, False) (λ _, False)) h
              (λ _, True) →
            fs (h s0).2 = fs s0) as Hprints.
  { intros h s0 Hh. destruct (Hh s0) as [[_ _ Hfs _ _] _].
    apply map_eq. intros p. apply Hfs. by intros []. }
  simpl find.
  destruct (isinstance e ImportError); cbn [fst snd].
  { rewrite Hprints; [done|].
    repeat (hoare_by hoare_seq; [apply t_print|intros _]). apply t_print. }
  destruct (isinstance e Exception); cbn [fst snd]; [|done].
  rewrite Hprints; [done|].
  repeat (hoare_by hoare_seq; [apply t_print|intros _]). apply t_print.
Qed.

Lemma report_lists_files (test_acc : Q) (s : state) :
  ∃ before after,
    report test_acc s
    = (Ok (),
       set_stdout
         (λ out, out ++ before
                     ++ [[Lit (nl +:+ "Files created:")];
                         [Lit "  - models/mnist_model.h5"];
                         [Lit "  - static/model/model.json"];
                         [Lit "  - static/model/group*.bin"]] ++ after) s).
Proof.
  exists [[Lit (nl +:+ banner)]; [Lit "✓ TRAINING COMPLETE!"]; [Lit banner];
          [Lit (nl +:+ "Final accuracy: "); FmtFloat (test_acc * 100) 2;
           Lit "%"]].
  exists [[Lit (nl +:+ "Next steps:")];
          [Lit "  1. Copy the entire 'static/model/' directory to your local machine"];
          [Lit "  2. Place it in the project's static/model/ folder"];
          [Lit "  3. Run 'npm run dev' to test the model"]].
  unfold report, bind. rewrite !print_eq, !set_stdout_app. reflexivity.
Qed.

(** X6. Lines 185-219. The final report does not depend on how the conversion
    went. When the import of tensorflowjs fails and the run completes, the
    run has created or changed nothing at static, static/model or inside
    static/model, and the report still names static/model/model.json and
    static/model/group*.bin among the files created. *)
Theorem report_names_converted_files_after_failed_import (w : world)
    (s s' : state) (e : exception) :
  main w s = (Ok (), s') →
  w_raises w Call.import_tensorflowjs = Some e →
  (∀ p, conversion_path p → fs s' !! p = fs s !! p)
  ∧ ∃ before after,
      stdout s'
      = before ++ [[Lit (nl +:+ "Files created:")];
                   [Lit "  - models/mnist_model.h5"];
                   [Lit "  - static/model/model.json"];
                   [Lit "  - static/model/group*.bin"]] ++ after.
Proof.
  intros Hrun Himport.
  unfold main in Hrun.
  apply bind_ok_inv in Hrun as ([model test_acc] & s1 & Hsaved & Hrest).
  apply bind_ok_inv in Hrest as ([] & s2 & Hconvert & Hreport).
  destruct (report_lists_files test_acc s2) as (before & after & Hlines).
  rewrite Hlines in Hreport. injection Hreport as <-.
  split.
  - intros p Hp.
    pose proof (train_and_save_frame w s p Hp) as Hframe.
    rewrite Hsaved in Hframe. simpl in Hframe. rewrite <- Hframe.
    pose proof (failed_import_frame w model s1 e Himport) as Hfs.
    rewrite Hconvert in Hfs. simpl in Hfs.
    change (fs (set_stdout _ s2)) with (fs s2). by rewrite Hfs.
  - cbn [stdout set_stdout].
    exists (stdout s2 ++ before), after. by rewrite <- !app_assoc.
Qed.

Lemma report_names_converted_files_after_failed_import_witness :
  (∀ p, conversion_path p →
        fs (main world_no_tfjs initial_state).2 !! p = fs initial_state !! p)
  ∧ ∃ before after,
      stdout (main world_no_tfjs initial_state).2
      = before ++ [[Lit (nl +:+ "Files created:")];
                   [Lit "  - models/mnist_model.h5"];
                   [Lit "  - static/model/model.json"];
                   [Lit "  - static/model/group*.bin"]] ++ after.
Proof.
  apply (report_names_converted_files_after_failed_import world_no_tfjs
           initial_state (main world_no_tfjs initial_state).2 no_tfjs).
  - vm_compute. reflexivity.
  - reflexivity.
Defined.

(** ** The order of the stages (lines 19-206) *)

Lemma Sorted_le_app (l1 l2 : list nat) (mid : nat) :
  Sorted le l1 → Sorted le l2 →
  Forall (λ x, x ≤ mid) l1 → Forall (λ x, mid ≤ x) l2 →
  Sorted le (l1 ++ l2).
Proof.
  intros H1 H2 Hl1 Hl2. apply StronglySorted_Sorted.
  apply StronglySorted_app_2.
  - intros x1 x2 Hx1 Hx2.
    rewrite Forall_forall in Hl1, Hl2.
    specialize (Hl1 _ Hx1). specialize (Hl2 _ Hx2). lia.
  - by apply (Sorted_StronglySorted le _).
  - by apply (Sorted_StronglySorted le _).
Qed.

Lemma Sorted_le_constant (l : list nat) (k : nat) :
  Forall (λ x, x = k) l → Sorted le l.
Proof.
  intros H. apply StronglySorted_Sorted.
  induction H as [|x l -> Hl IH]; constructor; [done|].
  eapply Forall_impl; [done|]. simpl. lia.
Qed.

Lemma StronglySorted_le_lookup (l : list nat) (i j x y : nat) :
  StronglySorted le l → i < j → l !! i = Some x → l !! j = Some y → x ≤ y.
Proof.
  intros Hl. revert i j. induction Hl as [|a l Hl IH Ha]; [done|].
  intros [|i] [|j] Hij Hi Hj; try lia; simpl in *.
  - injection Hi as ->. rewrite Forall_forall in Ha.
    apply Ha. by eapply list_elem_of_lookup_2.
  - apply (IH i j); [lia|done..].
Qed.

Lemma staged_weaken {A} (lo hi lo' hi' : nat) (m : M A) :
  staged lo hi m → lo' ≤ lo → hi ≤ hi' → staged lo' hi' m.
Proof.
  intros H ? ? s. destruct (H s) as (cs & Hcs & Hsorted & Hbounds).
  exists cs. split; [done|]. split; [done|].
  eapply Forall_impl; [done|]. simpl. lia.
Qed.

Lemma staged_silent {A} (lo hi : nat) (m : M A) :
  (∀ s, calls (m s).2 = calls s) → staged lo hi m.
Proof.
  intros H s. exists []. rewrite app_nil_r. split; [done|].
  split; constructor.
Qed.

Lemma staged_ret {A} (lo hi : nat) (a : A) : staged lo hi (ret a).
Proof. by apply staged_silent. Qed.

Lemma staged_print (lo hi : nat) (l : line) : staged lo hi (print l).
Proof. by apply staged_silent. Qed.

Lemma staged_bind {A B} (lo mid hi : nat) (m : M A) (k : A → M B) :
  lo ≤ mid ≤ hi →
  staged lo mid m → (∀ a, staged mid hi (k a)) → staged lo hi (bind m k).
Proof.
  intros ? Hm Hk s. destruct (Hm s) as (cs1 & Hcs1 & Hsorted1 & Hbounds1).
  unfold bind. destruct (m s) as [[a|e] s1]; simpl in *.
  - destruct (Hk a s1) as (cs2 & Hcs2 & Hsorted2 & Hbounds2).
    exists (cs1 ++ cs2). rewrite Hcs2, Hcs1, app_assoc. split; [done|]. split.
    + rewrite fmap_app. apply (Sorted_le_app _ _ mid); [done..| |].
      * apply Forall_fmap. eapply Forall_impl; [done|]. simpl. lia.
      * apply Forall_fmap. eapply Forall_impl; [done|]. simpl. lia.
    + apply Forall_app. split; (eapply Forall_impl; [done|]); simpl; lia.
  - exists cs1. split; [done|]. split; [done|].
    eapply Forall_impl; [done|]. simpl. lia.
Qed.

(** A block whose calls all belong to one stage. *)
Lemma staged_touches {A} (st : stage) (m : M A) (Df Dw : string → Prop)
    (Q : A → Prop) :
  hoare (touches (λ c, stage_of c = st) Df Dw) m Q →
  staged (stage_index st) (stage_index st) m.
Proof.
  intros H s. destruct (H s) as [[_ (cs & Hcs & Hst) _ _ _] _].
  exists cs. split; [done|]. split.
  - apply (Sorted_le_constant _ (stage_index st)). apply Forall_fmap.
    eapply Forall_impl; [done|]. by intros c <-.
  - eapply Forall_impl; [done|]. by intros c <-.
Qed.

Lemma staged_invoke (w : world) (c : call) :
  staged (stage_index (stage_of c)) (stage_index (stage_of c)) (invoke w c).
Proof.
  apply (staged_touches _ _ (λ _, True) (λ _, True) (λ _, True)).
  by apply t_invoke.
Qed.

Section StagedBlocks.
Context (w : world).

Lemma staged_configure_gpu : staged 0 0 (configure_gpu w).
Proof.
  apply (staged_touches Configure _ (λ _, True) (λ _, True) (λ _, True)).
  by apply (t_configure_gpu _ _ _ _ (λ st, st = Configure)).
Qed.

Lemma staged_load_dataset : staged 1 1 (load_dataset w).
Proof.
  apply (staged_touches Load _ (λ _, True) (λ _, True) (λ _, True)).
  by apply (t_load_dataset _ _ _ _ (λ st, st = Load)).
Qed.

Lemma staged_preprocess (ds : dataset) : staged 2 2 (preprocess ds).
Proof.
  apply (staged_touches Preprocess _ (λ _, True) (λ _, True) (λ _, True)).
  by apply (t_preprocess _ _ _ (λ st, st = Preprocess)).
Qed.

Lemma staged_make_augmentation : staged 3 3 (make_augmentation w).
Proof.
  eapply (staged_touches Build _ (λ _, True) (λ _, True)).
  by apply t_make_augmentation.
Qed.

Lemma staged_create_model (aug : option keras_model * bool) :
  staged 3 4 (create_model w aug).
Proof.
  destruct aug as [data_augmentation use_augmentation]. unfold create_model.
  apply (staged_bind 3 3 4); [lia|apply staged_print|intros _].
  apply (staged_bind 3 3 4); [lia| |intros model].
  { eapply (staged_touches Build _ (λ _, True) (λ _, True)).
    by apply t_keras_Sequential. }
  apply (staged_bind 3 4 4); [lia| |intros model'].
  { apply (staged_weaken 4 4); [|lia..].
    apply (staged_touches Compile _ (λ _, True) (λ _, True) (λ _, True)).
    by apply t_compile. }
  apply (staged_bind 4 4 4); [lia|apply (staged_invoke w)|intros _].
  apply staged_ret.
Qed.

Lemma staged_train (model : keras_model) (p : prepared) :
  staged 5 5 (train w model p).
Proof.
  apply (staged_touches Fit _ (λ _, True) (λ _, True) (λ _, True)).
  by apply (t_train _ _ _ _ (λ st, st = Fit)).
Qed.

Lemma staged_evaluate_and_load_best (model : keras_model) (p : prepared) :
  staged 6 6 (evaluate_and_load_best w model p).
Proof.
  apply (staged_touches Evaluate _ (λ _, True) (λ _, True) (λ _, True)).
  by apply (t_evaluate_and_load_best _ _ _ _ (λ st, st = Evaluate)).
Qed.

Lemma staged_save_final (model : keras_model) :
  staged 7 7 (save_final w model).
Proof.
  apply (staged_touches Save _ (λ _, True) (λ _, True) (λ _, True)).
  by apply (t_save_final _ _ _ _ (λ st, st = Save)).
Qed.

Lemma staged_convert_to_tfjs (model : keras_model) :
  staged 8 8 (convert_to_tfjs w model).
Proof.
  apply (staged_touches Convert _ (λ _, True) (λ _, True) (λ _, True)).
  by apply (t_convert_to_tfjs _ _ _ _ (λ st, st = Convert)).
Qed.

Lemma staged_report (test_acc : Q) : staged 8 8 (report test_acc).
Proof.
  apply (staged_touches Convert _ (λ _, True) (λ _, True) (λ _, True)).
  apply t_report.
Qed.

Lemma staged_main : staged 0 8 (main w).
Proof.
  unfold main, train_and_save, build_train_save, prepare.
  apply (staged_bind 0 7 8); [lia| |intros [model test_acc]].
  - apply (staged_bind 0 2 7); [lia| |intros p].
    { apply (staged_bind 0 0 2); [lia|apply staged_configure_gpu|intros _].
      apply (staged_bind 0 1 2); [lia| |intros ds].
      - apply (staged_weaken 1 1); [apply staged_load_dataset|lia..].
      - apply (staged_weaken 2 2); [apply staged_preprocess|lia..]. }
    apply (staged_bind 2 3 7); [lia| |intros aug].
    { apply (staged_weaken 3 3); [apply staged_make_augmentation|lia..]. }
    apply (staged_bind 3 4 7); [lia|apply staged_create_model|intros m0].
    apply (staged_bind 4 5 7); [lia| |intros [m1 history]].
    { apply (staged_weaken 5 5); [apply staged_train|lia..]. }
    apply (staged_bind 5 6 7); [lia| |intros [m2 acc]].
    { apply (staged_weaken 6 6);
        [apply staged_evaluate_and_load_best|lia..]. }
    apply (staged_bind 6 7 7); [lia| |intros _; apply staged_ret].
    apply (staged_weaken 7 7); [apply staged_save_final|lia..].
  - apply (staged_bind 7 8 8); [lia| |intros _; apply staged_report].
    apply (staged_weaken 8 8); [apply staged_convert_to_tfjs|lia..].
Qed.

End StagedBlocks.

(** X7. Lines 19-206. In every run, whether it completes or is aborted by an
    exception, the calls into the frameworks are made in the order of the
    pipeline: configure the GPU, load the dataset, preprocess, build,
    compile, fit, evaluate, save, convert. A call of one stage is never
    followed by a call of an earlier stage. *)
Theorem stages_never_go_back (w : world) (s : state) :
  ∃ cs,
    calls (main w s).2 = calls s ++ cs
    ∧ ∀ i j c1 c2,
        i < j → cs !! i = Some c1 → cs !! j = Some c2 →
        stage_index (stage_of c1) ≤ stage_index (stage_of c2).
Proof.
  destruct (staged_main w s) as (cs & Hcs & Hsorted & _).
  exists cs. split; [done|]. intros i j c1 c2 Hij Hi Hj.
  apply (Sorted_StronglySorted le _) in Hsorted.
  apply (StronglySorted_le_lookup _ i j _ _ Hsorted Hij).
  - by rewrite list_lookup_fmap, Hi.
  - by rewrite list_lookup_fmap, Hj.
Qed.

(** ** The first call of every block *)

Section FirstCalls.
Context (w : world).

#[local] Abbreviation anything :=
  (touches (λ _, True) (λ _, True) (λ _, True)).

Ltac any_leaf :=
  first
    [ apply t_print
    | apply t_environ_set
    | by apply t_set_memory_growth
    | by apply t_set_visible_devices
    | by apply t_astype
    | by apply t_truediv
    | by apply t_np_expand_dims
    | by apply t_keras_utils_to_categorical
    | by apply t_evaluate
    | by apply t_load_model
    | by apply t_save
    | by hoare_by hoare_ret ].

Ltac any_seq :=
  hoare_by hoare_seq;
  [ any_leaf
  | intros ?; repeat match goal with x : (_ * _)%type |- _ => destruct x end ].

Ltac extends_by_touches :=
  apply (extends_touches _ (λ _, True) (λ _, True) (λ _, True) (λ _, True)).

Lemma sw_configure_gpu :
  starts_with (Call.tf_config_list_physical_devices "GPU") (configure_gpu w).
Proof.
  unfold configure_gpu. apply sw_bind.
  { unfold list_physical_devices. apply sw_bind; [apply sw_invoke|].
    intros _. apply extends_ret. }
  intros gpus. extends_by_touches. destruct gpus as [|gpu0 gpus]; [any_leaf|].
  hoare_by hoare_try_except.
  - hoare_by hoare_seq.
    { hoare_by hoare_for_each. intros gpu. any_leaf. }
    intros _. repeat any_seq. any_leaf.
  - each_handler. repeat any_seq. any_leaf.
Qed.

Lemma sw_load_dataset :
  starts_with Call.keras_datasets_mnist_load_data (load_dataset w).
Proof.
  unfold load_dataset. apply sw_print. unfold load_data.
  apply sw_bind; [apply sw_invoke|]. intros _. extends_by_touches.
  hoare_by hoare_seq; [|intros _].
  { apply t_make_dir_chain. by repeat constructor. }
  hoare_by hoare_seq; [by apply t_cache_file|]. intros _.
  by hoare_by hoare_ret.
Qed.

Lemma sw_preprocess (ds : dataset) :
  starts_with (Call.ndarray_astype "float32") (preprocess ds).
Proof.
  destruct ds as [[xtr ytr] [xte yte]]. unfold preprocess.
  apply sw_bind.
  - apply sw_bind.
    + unfold astype. apply sw_bind; [apply sw_log|]. intros _.
      apply extends_ret.
    + intros x. extends_by_touches. any_leaf.
  - intros x. extends_by_touches.
    hoare_by hoare_seq; [any_seq; any_leaf|intros ?].
    repeat any_seq. any_leaf.
Qed.

Lemma sw_make_augmentation :
  starts_with (Call.keras_Sequential augmentation_layers)
    (make_augmentation w).
Proof.
  intros s. unfold make_augmentation, try_except.
  destruct (sw_bind (Call.keras_Sequential augmentation_layers)
              (keras_Sequential w augmentation_layers)
              (λ data_augmentation,
                 print [Lit "✓ Data augmentation enabled"] ;;
                 ret (Some data_augmentation, true))
              (sw_keras_Sequential w augmentation_layers)
              (λ a, ltac:(extends_by_touches; any_seq; any_leaf)) s)
    as (cs & Hcs).
  destruct (bind _ _ s) as [[a|e] s1]; simpl in *; [by exists cs|].
  destruct (isinstance e Exception); simpl; by exists cs.
Qed.

Lemma sw_train (model : keras_model) (p : prepared) :
  starts_with
    (Call.model_fit model (x_train p) (y_train p)
       (FitArgs 128 30 0.15 the_callbacks 1))
    (train w model p).
Proof.
  unfold train. do 3 apply sw_print. unfold fit.
  apply sw_bind; [apply sw_invoke|]. intros _.
  extends_by_touches. destruct (m_compiled model); [|hoare_by hoare_raise].
  hoare_by hoare_seq; [|intros [[ws lr] history]; by hoare_by hoare_ret].
  apply t_train_epochs. by repeat constructor.
Qed.

Lemma sw_evaluate_and_load_best (model : keras_model) (p : prepared) :
  starts_with (Call.model_evaluate model (x_test p) (y_test p))
    (evaluate_and_load_best w model p).
Proof.
  unfold evaluate_and_load_best. do 3 apply sw_print. apply sw_bind.
  { unfold evaluate. apply sw_bind; [apply sw_invoke|]. intros _.
    apply extends_ret. }
  intros [test_loss test_acc]. extends_by_touches. repeat any_seq. any_leaf.
Qed.

Lemma sw_save_final (model : keras_model) :
  starts_with (Call.os_makedirs "models" true) (save_final w model).
Proof.
  unfold save_final. apply sw_print. apply sw_bind.
  { unfold makedirs. apply sw_bind; [apply sw_invoke|]. intros _.
    extends_by_touches. apply t_make_dir_chain. by repeat constructor. }
  intros _. extends_by_touches. repeat any_seq. any_leaf.
Qed.

Lemma sw_convert_to_tfjs (model : keras_model) (test_acc : Q) :
  starts_with Call.import_tensorflowjs
    (convert_to_tfjs w model ;; report test_acc).
Proof.
  apply sw_bind; [|intros _; extends_by_touches; apply t_report].
  intros s. unfold convert_to_tfjs. rewrite bind_print.
  set (s0 := set_stdout _ s).
  change (calls s) with (calls s0). generalize s0. clear s s0. intros s.
  unfold try_except.
  match goal with
  | |- context [bind (import_tensorflowjs w) ?k] =>
      destruct (sw_bind Call.import_tensorflowjs (import_tensorflowjs w) k
                  (sw_invoke w _)
                  (λ a, ltac:(extends_by_touches;
                              hoare_by hoare_seq;
                              [apply t_save_keras_model;
                               [done|by repeat constructor|done]
                              |intros _; repeat any_seq; any_leaf])) s)
        as (cs & Hcs)
  end.
  destruct (bind _ _ s) as [[a|e] s1]; simpl in *; [by exists cs|].
  destruct (isinstance e ImportError); simpl; [by exists cs|].
  destruct (isinstance e Exception); simpl; by exists cs.
Qed.

End FirstCalls.

(** ** The stages of a completed run *)

Lemma stage_index_inj (a b : stage) : stage_index a = stage_index b → a = b.
Proof. by destruct a, b. Qed.

Lemma stage_index_bound (st : stage) : stage_index st ≤ 8.
Proof. destruct st; simpl; lia. Qed.

Lemma pipeline_drop (st : stage) :
  drop (stage_index st) pipeline = st :: drop (S (stage_index st)) pipeline.
Proof. by destruct st. Qed.

Lemma stage_eqb_eq (a b : stage) : stage_eqb a b = true ↔ a = b.
Proof.
  unfold stage_eqb. rewrite Nat.eqb_eq. split; [apply stage_index_inj|].
  by intros ->.
Qed.

(** A trace whose stages never go back and that reaches every stage from
    the [k]-th on goes through these stages once each, in order. *)
Lemma stages_run_sorted (k : nat) (sts : list stage) :
  StronglySorted le (stage_index <$> sts) →
  Forall (λ st, k ≤ stage_index st) sts →
  (∀ st, k ≤ stage_index st → st ∈ sts) →
  stages_run sts = drop k pipeline.
Proof.
  revert k. induction sts as [|a rest IH]; intros k Hsorted Hlow Hall.
  { specialize (Hall Convert). destruct k as [|k].
    - by apply elem_of_nil in Hall; [|simpl; lia].
    - destruct (decide (S k ≤ 8)) as [Hk|Hk].
      + by apply elem_of_nil in Hall.
      + rewrite drop_ge; [done|]. simpl. lia. }
  rewrite fmap_cons in Hsorted. apply StronglySorted_inv in Hsorted as [Hrest Ha].
  apply Forall_cons in Hlow as [Hka Hlow].
  rewrite Forall_fmap in Ha.
  assert (stage_index a = k) as Hak.
  { assert (k ≤ 8) as Hk8 by (pose proof (stage_index_bound a); lia).
    assert (∃ st, stage_index st = k) as [st Hst].
    { destruct k as [|[|[|[|[|[|[|[|[|k]]]]]]]]]; [..|lia].
      - by exists Configure. - by exists Load. - by exists Preprocess.
      - by exists Build. - by exists Compile. - by exists Fit.
      - by exists Evaluate. - by exists Save. - by exists Convert. }
    specialize (Hall st ltac:(lia)).
    apply elem_of_cons in Hall as [->|Hin]; [done|].
    rewrite Forall_forall in Ha. specialize (Ha st Hin). simpl in Ha. lia. }
  destruct rest as [|b rest'].
  { assert (Convert = a) as <-.
    { specialize (Hall Convert
                    ltac:(pose proof (stage_index_bound a); simpl; lia)).
      apply elem_of_cons in Hall as [?|Hin]; [done|].
      by apply elem_of_nil in Hin. }
    by subst k. }
  change (stages_run (a :: b :: rest'))
    with (if stage_eqb a b then stages_run (b :: rest')
          else a :: stages_run (b :: rest')).
  destruct (stage_eqb a b) eqn:Hab.
  - apply stage_eqb_eq in Hab as <-. apply IH; [done..|].
    intros st Hst. specialize (Hall st Hst).
    apply elem_of_cons in Hall as [->|Hin]; [apply list_elem_of_here|done].
  - assert (a ≠ b) as Hne.
    { intros Heq. apply stage_eqb_eq in Heq. congruence. }
    subst k. rewrite pipeline_drop. f_equal.
    apply IH; [done| |].
    + apply Forall_cons in Ha as [Hab' _]. simpl in Hab'.
      assert (stage_index a ≠ stage_index b) as Hidx.
      { intros Heq. by apply stage_index_inj in Heq. }
      rewrite fmap_cons in Hrest.
      apply StronglySorted_inv in Hrest as [_ Hb].
      rewrite Forall_fmap in Hb.
      apply Forall_cons. split; [lia|].
      eapply Forall_impl; [exact Hb|]. simpl. lia.
    + intros st Hst.
      specialize (Hall st ltac:(lia)).
      apply elem_of_cons in Hall as [->|Hin]; [lia|done].
Qed.

Lemma started {A} (c : call) (m : M A) (r : result A) (s s' : state) :
  starts_with c m → m s = (r, s') → ∃ cs, calls s' = calls s ++ c :: cs.
Proof. intros Hm Hrun. destruct (Hm s) as (cs & Hcs). rewrite Hrun in Hcs. eauto. Qed.

Lemma create_model_calls (w : world) (aug : option keras_model * bool)
    (model : keras_model) (s s' : state) :
  create_model w aug s = (Ok model, s') →
  ∃ m0 args,
    calls s' = calls s ++ [Call.keras_Sequential (create_layers aug.2 aug.1);
                           Call.model_compile m0 args;
                           Call.model_summary model].
Proof.
  destruct aug as [data_augmentation use_augmentation].
  unfold create_model. rewrite bind_print. intros H.
  apply bind_ok_inv in H as (m0 & s1 & Hseq & H).
  unfold keras_Sequential in Hseq.
  apply bind_ok_inv in Hseq as ([] & s2 & Hinv & Hseq).
  apply invoke_ok_inv in Hinv as [_ ->]. injection Hseq as <- <-.
  apply bind_ok_inv in H as (m1 & s3 & Hcomp & H).
  unfold compile in Hcomp.
  apply bind_ok_inv in Hcomp as ([] & s4 & Hinv & Hcomp).
  apply invoke_ok_inv in Hinv as [_ ->]. injection Hcomp as <- <-.
  apply bind_ok_inv in H as ([] & s5 & Hsum & H).
  apply invoke_ok_inv in Hsum as [_ ->]. injection H as <- <-.
  eexists _, _. simpl. by rewrite <- !app_assoc.
Qed.

(** X8. Lines 19-219. A run that completes goes through the nine stages of the
    pipeline, each of them once and in this order: configure the GPU, load
    the dataset, preprocess, build, compile, fit, evaluate, save, convert
    (the conversion is at least attempted). *)
Theorem completed_run_stages (w : world) (s s' : state) :
  main w s = (Ok (), s') →
  ∃ cs,
    calls s' = calls s ++ cs
    ∧ stages_run (stage_of <$> cs)
      = [Configure; Load; Preprocess; Build; Compile; Fit; Evaluate; Save;
         Convert].
Proof.
  intros Hrun.
  destruct (staged_main w s) as (cs & Hcs & Hsorted & _).
  rewrite Hrun in Hcs. simpl in Hcs.
  exists cs. split; [done|].
  apply main_inv in Hrun
    as (p & aug & m0 & m1 & history & m2 & test_acc
        & s1 & s2 & s3 & s4 & s5 & s6
        & Hprep & Haug & Hcreate & Htrain & Heval & Hsave & Hrest).
  unfold prepare in Hprep.
  apply bind_ok_inv in Hprep as ([] & sa & Hconf & Hprep).
  apply bind_ok_inv in Hprep as (ds & sb & Hload & Hprep).
  apply (started _ _ _ _ _ (sw_configure_gpu w)) in Hconf as (c0 & Hc0).
  apply (started _ _ _ _ _ (sw_load_dataset w)) in Hload as (c1 & Hc1).
  apply (started _ _ _ _ _ (sw_preprocess ds)) in Hprep as (c2 & Hc2).
  apply (started _ _ _ _ _ (sw_make_augmentation w)) in Haug as (c3 & Hc3).
  apply create_model_calls in Hcreate as (m & args & Hc4).
  apply (started _ _ _ _ _ (sw_train w m0 p)) in Htrain as (c5 & Hc5).
  apply (started _ _ _ _ _ (sw_evaluate_and_load_best w m1 p)) in Heval
    as (c6 & Hc6).
  apply (started _ _ _ _ _ (sw_save_final w m2)) in Hsave as (c7 & Hc7).
  apply (started _ _ _ _ _ (sw_convert_to_tfjs w m2 test_acc)) in Hrest
    as (c8 & Hc8).
  rewrite Hc8, Hc7, Hc6, Hc5, Hc4, Hc3, Hc2, Hc1, Hc0 in Hcs.
  rewrite <- !app_assoc in Hcs. apply app_inv_head in Hcs. subst cs.
  rewrite list_fmap_compose in Hsorted.
  apply (Sorted_StronglySorted le _) in Hsorted.
  apply (stages_run_sorted 0); [done| |].
  { apply Forall_forall. intros; lia. }
  intros st _. rewrite <- !app_comm_cons.
  repeat first [rewrite fmap_cons | rewrite fmap_app].
  cbn [stage_of].
  destruct st;
    repeat first [ apply list_elem_of_here
                 | apply list_elem_of_further
                 | apply elem_of_app; right ].
Qed.

Lemma completed_run_stages_witness :
  ∃ cs,
    calls (main world_ok initial_state).2 = calls initial_state ++ cs
    ∧ stages_run (stage_of <$> cs)
      = [Configure; Load; Preprocess; Build; Compile; Fit; Evaluate; Save;
         Convert].
Proof.
  apply (completed_run_stages world_ok initial_state
           (main world_ok initial_state).2).
  vm_compute. reflexivity.
Defined.

(** ** Saving the final model (lines 179-183) *)

Lemma makedirs_models (w : world) (s : state) :
  w_raises w (Call.os_makedirs "models" true) = None →
  makedirs w "models" true s
  = let s1 := set_calls (λ cs, cs ++ [Call.os_makedirs "models" true]) s in
    match fs s !! "models" with
    | None => (Ok (), set_fs (insert "models" Dir) s1)
    | Some Dir => (Ok (), s1)
    | Some _ => (Raise (mk_exception FileExistsError "models"), s1)
    end.
Proof.
  intros Hdirs. unfold makedirs.
  erewrite bind_ok; [|by apply invoke_ok].
  change (dir_chain "" "models") with ["models"]. cbn [make_dir_chain].
  change (fs (set_calls (λ cs, cs ++ [Call.os_makedirs "models" true]) s))
    with (fs s).
  by destruct (fs s !! "models") as [[]|].
Qed.

Lemma save_into_models (w : world) (model : keras_model) (s : state) :
  w_raises w (Call.model_save model "models/mnist_model.h5") = None →
  fs s !! "models" = Some Dir →
  ∃ s', (save w model "models/mnist_model.h5" ;;
         print [Lit "✓ Model saved to models/mnist_model.h5"]) s
        = (Ok (), s')
        ∧ fs s' !! "models" = Some Dir
        ∧ fs s' !! "models/mnist_model.h5" = Some (H5 model).
Proof.
  intros Hsave Hdir. unfold save, bind, log, modify, h5_save. rewrite Hsave.
  change (dirname "models/mnist_model.h5") with "models".
  unfold is_dir. cbn [fs set_calls]. rewrite Hdir. cbn [orb bool_decide].
  eexists. split; [reflexivity|]. destruct s. simpl in *.
  rewrite lookup_insert_ne by done. by rewrite lookup_insert_eq.
Qed.

(** X9. Lines 179-183, when neither [os.makedirs] nor [model.save] fails for a
    reason of its own. If models does not exist it is created, if it is a
    directory it is reused (exist_ok=True), and the model is in
    models/mnist_model.h5 afterwards. If models exists but is not a
    directory, FileExistsError is raised and no file is created, written or
    changed. *)
Theorem save_final_needs_models_directory (w : world) (model : keras_model)
    (s : state) :
  w_raises w (Call.os_makedirs "models" true) = None →
  w_raises w (Call.model_save model "models/mnist_model.h5") = None →
  match fs s !! "models" with
  | None | Some Dir =>
      ∃ s', save_final w model s = (Ok (), s')
            ∧ fs s' !! "models" = Some Dir
            ∧ fs s' !! "models/mnist_model.h5" = Some (H5 model)
  | Some _ =>
      ∃ s', save_final w model s
            = (Raise (mk_exception FileExistsError "models"), s')
            ∧ fs s' = fs s ∧ writes s' = writes s
  end.
Proof.
  intros Hdirs Hsave.
  unfold save_final. rewrite bind_print.
  set (s1 := set_stdout _ s).
  change (fs s) with (fs s1). change (writes s) with (writes s1).
  clearbody s1. clear s.
  pose proof (makedirs_models w s1 Hdirs) as Hmk. cbv zeta in Hmk.
  destruct (fs s1 !! "models") as [[]|] eqn:Hm.
  - erewrite bind_ok; [|exact Hmk]. by apply save_into_models.
  - eexists. split; [by apply bind_raise|]. done.
  - eexists. split; [by apply bind_raise|]. done.
  - eexists. split; [by apply bind_raise|]. done.
  - eexists. split; [by apply bind_raise|]. done.
  - erewrite bind_ok; [|exact Hmk]. apply save_into_models; [done|].
    cbn [fs set_fs]. apply lookup_insert_eq.
Qed.

Lemma save_final_needs_models_directory_witness :
  match fs initial_state !! "models" with
  | None | Some Dir =>
      ∃ s', save_final world_ok empty_model initial_state = (Ok (), s')
            ∧ fs s' !! "models" = Some Dir
            ∧ fs s' !! "models/mnist_model.h5" = Some (H5 empty_model)
  | Some _ =>
      ∃ s', save_final world_ok empty_model initial_state
            = (Raise (mk_exception FileExistsError "models"), s')
            ∧ fs s' = fs initial_state ∧ writes s' = writes initial_state
  end.
Proof.
  apply (save_final_needs_models_directory world_ok empty_model
           initial_state); reflexivity.
Defined.

(** ** A conversion that succeeds (lines 185-193) *)

Lemma string_length_app (a t : string) :
  String.length (a +:+ t) = String.length a + String.length t.
Proof. induction a as [|c a IH]; simpl; [done|]. by rewrite IH. Qed.

Lemma string_app_inv_tail (a b t : string) : a +:+ t = b +:+ t → a = b.
Proof.
  revert b. induction a as [|c a IH]; intros [|c' b] H; simpl in H.
  - done.
  - apply (f_equal String.length) in H.
    rewrite ?string_length_app in H. simpl in H.
    rewrite ?string_length_app in H. lia.
  - apply (f_equal String.length) in H.
    rewrite ?string_length_app in H. simpl in H.
    rewrite ?string_length_app in H. lia.
  - injection H as -> H. f_equal. by apply IH.
Qed.

Lemma shard_name_inj (n i j : nat) : shard_name i n = shard_name j n → i = j.
Proof.
  unfold shard_name. intros H.
  apply (inj (String.append "group1-shard")) in H.
  apply string_app_inv_tail in H. by apply (inj pretty) in H.
Qed.

Lemma try_except_ok {A} (body : M A)
    (handlers : list (exn_class * (exception → M A))) (s s' : state) (a : A) :
  body s = (Ok a, s') → try_except body handlers s = (Ok a, s').
Proof. unfold try_except. by intros ->. Qed.

(** Writing a list of files with distinct names: every file holds what was
    written to it, and no other path changes. *)
Lemma for_each_write_files {A} (path : string → string) (content : A → entry)
    (files : list (string * A)) (s : state) :
  Inj (=) (=) path → NoDup files.*1 →
  ∃ s',
    for_each files (λ f, write_file (path f.1) (content f.2)) s = (Ok (), s')
    ∧ (∀ i f, files !! i = Some f → fs s' !! path f.1 = Some (content f.2))
    ∧ (∀ p, (∀ f, f ∈ files → p ≠ path f.1) → fs s' !! p = fs s !! p)
    ∧ stdout s' = stdout s.
Proof.
  intros Hinj. revert s.
  induction files as [|f rest IH]; intros s Hnodup.
  { exists s. by split. }
  rewrite fmap_cons in Hnodup. apply NoDup_cons in Hnodup as [Hf Hrest].
  destruct (IH (set_writes (λ ws, ws ++ [path f.1])
                  (set_fs (insert (path f.1) (content f.2)) s)) Hrest)
    as (s' & Hrun & Hfiles & Hframe & Hout).
  exists s'. split; [exact Hrun|]. split; [|split].
  - intros [|i] f' Hi; simpl in Hi.
    + injection Hi as <-. rewrite Hframe.
      * cbn [fs set_writes set_fs]. apply lookup_insert_eq.
      * intros f' Hin Heq. apply Hinj in Heq. apply Hf. rewrite Heq.
        by apply list_elem_of_fmap_2.
    + by apply (Hfiles i).
  - intros p Hp. rewrite Hframe.
    + cbn [fs set_writes set_fs]. apply lookup_insert_ne.
      intros Heq. by apply (Hp f); [apply list_elem_of_here|].
    + intros f' Hin. apply Hp. by apply list_elem_of_further.
  - by rewrite Hout.
Qed.

Lemma make_static_model (s : state) :
  fs s !! "static" = None ∨ fs s !! "static" = Some Dir →
  fs s !! "static/model" = None ∨ fs s !! "static/model" = Some Dir →
  ∃ s',
    make_dir_chain true ["static"; "static/model"] s = (Ok (), s')
    ∧ fs s' !! "static/model" = Some Dir
    ∧ (∀ p, p ≠ "static" → p ≠ "static/model" → fs s' !! p = fs s !! p)
    ∧ stdout s' = stdout s.
Proof.
  intros [Hstatic|Hstatic] [Hmodel|Hmodel]; cbn [make_dir_chain];
    rewrite Hstatic; cbn [fs set_fs];
    rewrite ?lookup_insert_ne by done; rewrite Hmodel;
    eexists; (split; [reflexivity|]); cbn [fs set_fs stdout];
    (split; [by rewrite ?lookup_insert_eq, ?lookup_insert_ne by done|]);
    (split; [|done]);
    intros p Hp1 Hp2; by rewrite ?lookup_insert_ne.
Qed.

(** X10. Lines 185-193. When tensorflowjs can be imported and the converter does
    not raise, and neither static nor static/model exists as something other
    than a directory: the conversion announces its success and none of the
    fallback instructions; static/model/model.json lists one file name per
    weight shard; and the file with the i-th name holds the i-th shard of
    the weights of the model. *)
Theorem conversion_writes_manifest_and_shards (w : world)
    (model : keras_model) (s : state) :
  w_raises w Call.import_tensorflowjs = None →
  w_raises w (Call.tfjs_converters_save_keras_model model "static/model")
  = None →
  fs s !! "static" = None ∨ fs s !! "static" = Some Dir →
  fs s !! "static/model" = None ∨ fs s !! "static/model" = Some Dir →
  ∃ s' names,
    convert_to_tfjs w model s = (Ok (), s')
    ∧ stdout s' = stdout s
                  ++ [[Lit (nl +:+ "Converting to TensorFlow.js format...")];
                      [Lit "✓ Model converted successfully"];
                      [Lit "✓ Model saved to static/model/"]]
    ∧ fs s' !! "static/model" = Some Dir
    ∧ fs s' !! "static/model/model.json"
      = Some (ModelJson (m_layers model) names)
    ∧ length names = length (w_shards w (m_weights model))
    ∧ ∀ i name shard,
        names !! i = Some name →
        w_shards w (m_weights model) !! i = Some shard →
        fs s' !! ("static/model/" +:+ name) = Some (WeightShard shard).
Proof.
  intros Himport Hconvert Hstatic Hmodel.
  set (shards := w_shards w (m_weights model)).
  set (names := (λ i, shard_name (S i) (length shards))
                  <$> seq 0 (length shards)).
  set (s0 := set_calls
               (λ cs, cs ++ [Call.tfjs_converters_save_keras_model model
                               "static/model"])
               (set_calls (λ cs, cs ++ [Call.import_tensorflowjs])
                  (set_stdout
                     (λ out, out ++ [[Lit (nl +:+ "Converting to TensorFlow.js format...")]])
                     s))).
  destruct (make_static_model s0) as (s1 & Hdirs & Hdir & Hframe1 & Hout1);
    [done..|].
  assert (length names = length shards) as Hlen.
  { unfold names. by rewrite length_fmap, length_seq. }
  assert (NoDup names) as Hnodup.
  { unfold names. apply NoDup_fmap_2_strong; [|apply NoDup_seq].
    intros i j _ _ Heq. apply shard_name_inj in Heq. lia. }
  destruct (for_each_write_files (λ name, "static/model" +:+ "/" +:+ name)
              WeightShard (zip names shards) s1)
    as (s2 & Hfiles & Hshards & Hframe2 & Hout2).
  { intros a b Heq. by apply (inj (String.append "static/model/")) in Heq. }
  { rewrite fst_zip by lia. exact Hnodup. }
  exists (set_stdout
            (λ out, out ++ [[Lit "✓ Model converted successfully"];
                            [Lit "✓ Model saved to static/model/"]])
            (set_writes (λ ws, ws ++ ["static/model/model.json"])
               (set_fs (insert "static/model/model.json"
                          (ModelJson (m_layers model) names)) s2))), names.
  split.
  { unfold convert_to_tfjs. rewrite bind_print.
    apply try_except_ok.
    erewrite bind_ok; [|by apply invoke_ok].
    erewrite bind_ok.
    - rewrite !bind_print, print_eq, set_stdout_app. reflexivity.
    - unfold save_keras_model. rewrite Hconvert.
      erewrite bind_ok; [|reflexivity].
      change (dir_chain "" "static/model") with ["static"; "static/model"].
      erewrite bind_ok; [|exact Hdirs].
      erewrite bind_ok; [|exact Hfiles].
      reflexivity. }
  cbn [fs stdout set_stdout set_writes set_fs].
  split.
  { rewrite Hout2, Hout1. unfold s0. cbn [stdout set_calls set_stdout].
    by rewrite <- app_assoc. }
  split.
  { rewrite lookup_insert_ne by done. rewrite Hframe2; [done|].
    intros f _. destruct f as [name sh]. simpl.
    intros Heq. apply (f_equal String.length) in Heq. simpl in Heq. lia. }
  split; [apply lookup_insert_eq|]. split; [done|].
  intros i name shard Hname Hshard.
  rewrite lookup_insert_ne.
  - apply (Hshards i (name, shard)). by apply lookup_zip_Some.
  - unfold names in Hname. apply list_lookup_fmap_Some in Hname
      as (j & -> & _).
    unfold shard_name. simpl. discriminate.
Qed.

Lemma conversion_writes_manifest_and_shards_witness :
  ∃ s' names,
    convert_to_tfjs world_ok compiled_model initial_state = (Ok (), s')
    ∧ stdout s' = stdout initial_state
                  ++ [[Lit (nl +:+ "Converting to TensorFlow.js format...")];
                      [Lit "✓ Model converted successfully"];
                      [Lit "✓ Model saved to static/model/"]]
    ∧ fs s' !! "static/model" = Some Dir
    ∧ fs s' !! "static/model/model.json"
      = Some (ModelJson (m_layers compiled_model) names)
    ∧ length names = length (w_shards world_ok (m_weights compiled_model))
    ∧ ∀ i name shard,
        names !! i = Some name →
        w_shards world_ok (m_weights compiled_model) !! i = Some shard →
        fs s' !! ("static/model/" +:+ name) = Some (WeightShard shard).
Proof.
  apply (conversion_writes_manifest_and_shards world_ok compiled_model
           initial_state).
  - reflexivity.
  - reflexivity.
  - left. vm_compute. reflexivity.
  - left. vm_compute. reflexivity.
Defined.

(** ** Configuring the GPUs (lines 19-39) *)

Lemma memory_growth_all (w : world) (gpus : list device) (s : state) :
  Forall (λ g, w_raises w (Call.tf_config_experimental_set_memory_growth g true)
               = None) gpus →
  ∃ s',
    for_each gpus (λ g, set_memory_growth w g true) s = (Ok (), s')
    ∧ (∀ g, g ∈ gpus → tf_memory_growth s' !! g = Some true)
    ∧ (∀ g, g ∉ gpus → tf_memory_growth s' !! g = tf_memory_growth s !! g)
    ∧ os_environ s' = os_environ s
    ∧ tf_visible_gpus s' = tf_visible_gpus s
    ∧ fs s' = fs s
    ∧ stdout s' = stdout s.
Proof.
  intros Hok. revert s.
  induction Hok as [|gpu gpus Hgpu Hgpus IH]; intros s.
  { exists s. split; [done|]. split; [|done]. intros g Hg.
    by apply elem_of_nil in Hg. }
  destruct (IH (set_tf_memory_growth (insert gpu true)
                  (set_calls
                     (λ cs, cs ++ [Call.tf_config_experimental_set_memory_growth
                                     gpu true]) s)))
    as (s' & Hrun & Hset & Hframe & Henv & Hvisible & Hfs & Hout).
  exists s'. split.
  { cbn [for_each]. erewrite bind_ok; [exact Hrun|].
    unfold set_memory_growth. erewrite bind_ok; [|by apply invoke_ok].
    reflexivity. }
  split; [|split; [|done]].
  - intros g Hg. destruct (decide (g ∈ gpus)) as [Hin|Hnotin]; [by apply Hset|].
    apply elem_of_cons in Hg as [->|Hg]; [|done].
    rewrite Hframe by done. cbn [tf_memory_growth set_tf_memory_growth].
    apply lookup_insert_eq.
  - intros g Hg. apply not_elem_of_cons in Hg as [Hne Hg].
    rewrite Hframe by done. cbn [tf_memory_growth set_tf_memory_growth].
    by apply lookup_insert_ne.
Qed.

(** X11. Lines 19-39. When GPUs are found and enabling memory growth raises for
    none of them: memory growth is on for every GPU found, the two
    environment variables are set, the number of GPUs and the first of them
    are printed, and the GPUs stay visible (the fallback of the except
    clause does not run); no file is touched. *)
Theorem gpu_configuration_enables_memory_growth (w : world) (s : state) :
  w_gpus w ≠ [] →
  w_raises w (Call.tf_config_list_physical_devices "GPU") = None →
  (∀ g, g ∈ w_gpus w →
        w_raises w (Call.tf_config_experimental_set_memory_growth g true)
        = None) →
  ∃ s',
    configure_gpu w s = (Ok (), s')
    ∧ (∀ g, g ∈ w_gpus w → tf_memory_growth s' !! g = Some true)
    ∧ os_environ s' !! "TF_ENABLE_ONEDNN_OPTS" = Some "0"
    ∧ os_environ s' !! "TF_CPP_MIN_LOG_LEVEL" = Some "2"
    ∧ tf_visible_gpus s' = tf_visible_gpus s
    ∧ fs s' = fs s
    ∧ stdout s'
      = stdout s ++ [[Lit "✓ Found "; FmtNat (length (w_gpus w));
                      Lit " GPU(s)"];
                     [Lit "  GPU: "; FmtDevice (default "" (head (w_gpus w)))]].
Proof.
  intros Hgpus Hlist Hgrowth.
  destruct (w_gpus w) as [|gpu0 gpus] eqn:Hfound; [done|].
  destruct (memory_growth_all w (gpu0 :: gpus)
              (set_calls
                 (λ cs, cs ++ [Call.tf_config_list_physical_devices "GPU"]) s))
    as (s1 & Hrun & Hset & _ & Henv & Hvisible & Hfs & Hout).
  { by apply Forall_forall. }
  eexists. split.
  { unfold configure_gpu.
    erewrite bind_ok.
    2:{ unfold list_physical_devices. erewrite bind_ok; [|by apply invoke_ok].
        rewrite decide_True by done. rewrite Hfound. reflexivity. }
    apply try_except_ok.
    erewrite bind_ok; [|exact Hrun].
    unfold environ_set, bind, modify.
    rewrite !print_eq, set_stdout_app. reflexivity. }
  cbn [tf_memory_growth os_environ tf_visible_gpus fs stdout
       set_stdout set_os_environ].
  split; [done|]. split.
  { rewrite lookup_insert_ne by done. apply lookup_insert_eq. }
  split; [apply lookup_insert_eq|].
  split; [done|]. split; [done|]. by rewrite Hout.
Qed.

Lemma gpu_configuration_enables_memory_growth_witness :
  ∃ s',
    configure_gpu world_ok initial_state = (Ok (), s')
    ∧ (∀ g, g ∈ w_gpus world_ok → tf_memory_growth s' !! g = Some true)
    ∧ os_environ s' !! "TF_ENABLE_ONEDNN_OPTS" = Some "0"
    ∧ os_environ s' !! "TF_CPP_MIN_LOG_LEVEL" = Some "2"
    ∧ tf_visible_gpus s' = tf_visible_gpus initial_state
    ∧ fs s' = fs initial_state
    ∧ stdout s'
      = stdout initial_state
        ++ [[Lit "✓ Found "; FmtNat (length (w_gpus world_ok));
             Lit " GPU(s)"];
            [Lit "  GPU: ";
             FmtDevice (default "" (head (w_gpus world_ok)))]].
Proof.
  apply (gpu_configuration_enables_memory_growth world_ok initial_state).
  - vm_compute. congruence.
  - reflexivity.
  - reflexivity.
Defined.

(** X12. Lines 19-39. When no GPU is found, the script only prints its warning:
    no memory growth is configured, the environment variables
    TF_ENABLE_ONEDNN_OPTS and TF_CPP_MIN_LOG_LEVEL are left as they were, the
    visible devices are not restricted, and the run goes on. *)
Theorem no_gpu_only_warns (w : world) (s : state) :
  w_gpus w = [] →
  w_raises w (Call.tf_config_list_physical_devices "GPU") = None →
  ∃ s',
    configure_gpu w s = (Ok (), s')
    ∧ stdout s'
      = stdout s ++ [[Lit "⚠ No GPU found - training will be slow on CPU"]]
    ∧ calls s' = calls s ++ [Call.tf_config_list_physical_devices "GPU"]
    ∧ os_environ s' = os_environ s
    ∧ tf_memory_growth s' = tf_memory_growth s
    ∧ tf_visible_gpus s' = tf_visible_gpus s
    ∧ fs s' = fs s.
Proof.
  intros Hgpus Hlist. eexists. split.
  { unfold configure_gpu.
    erewrite bind_ok.
    2:{ unfold list_physical_devices. erewrite bind_ok; [|by apply invoke_ok].
        rewrite decide_True by done. rewrite Hgpus. reflexivity. }
    apply print_eq. }
  done.
Qed.

Lemma no_gpu_only_warns_witness :
  ∃ s',
    configure_gpu world_no_gpu initial_state = (Ok (), s')
    ∧ stdout s'
      = stdout initial_state
        ++ [[Lit "⚠ No GPU found - training will be slow on CPU"]]
    ∧ calls s'
      = calls initial_state ++ [Call.tf_config_list_physical_devices "GPU"]
    ∧ os_environ s' = os_environ initial_state
    ∧ tf_memory_growth s' = tf_memory_growth initial_state
    ∧ tf_visible_gpus s' = tf_visible_gpus initial_state
    ∧ fs s' = fs initial_state.
Proof.
  apply (no_gpu_only_warns world_no_gpu initial_state); reflexivity.
Defined.

(** ** What the except clauses do not catch *)

Lemma not_exception_not_import_error (e : exception) :
  isinstance e Exception = false → isinstance e ImportError = false.
Proof. destruct e as [[] msg]; by vm_compute. Qed.

(** X13. Lines 19-39. The except clause of the GPU configuration catches
    RuntimeError only. If enabling memory growth raises anything else (a
    ValueError for instance), there is no fallback to CPU: the script ends
    with that exception before it loads the dataset, nothing more is
    printed, the visible devices are as they were and no file is touched. *)
Theorem gpu_error_other_than_runtime_error_aborts (w : world) (s : state)
    (before after : list device) (gpu : device) (e : exception) :
  w_raises w (Call.tf_config_list_physical_devices "GPU") = None →
  w_gpus w = before ++ gpu :: after →
  Forall (λ g, w_raises w (Call.tf_config_experimental_set_memory_growth g true)
               = None) before →
  w_raises w (Call.tf_config_experimental_set_memory_growth gpu true) = Some e →
  isinstance e RuntimeError = false →
  ∃ s',
    main w s = (Raise e, s')
    ∧ stdout s' = stdout s
    ∧ tf_visible_gpus s' = tf_visible_gpus s
    ∧ fs s' = fs s
    ∧ ∃ cs, calls s' = calls s ++ cs
            ∧ Forall (λ c, stage_of c = Configure) cs.
Proof.
  intros Hlist Hgpus Hbefore Hgpu Hrt.
  set (s0 := set_calls (λ cs, cs ++ [Call.tf_config_list_physical_devices "GPU"])
               s).
  destruct (memory_growth_raises w before after gpu e s0 Hbefore Hgpu)
    as (s' & Hloop & Hout & Hfs & Hvis).
  assert (configure_gpu w s = (Raise e, s')) as Hconf.
  { assert (∃ g gs, w_gpus w = g :: gs) as (g & gs & Hcons).
    { rewrite Hgpus. destruct before; simpl; eauto. }
    unfold configure_gpu.
    etrans.
    { apply bind_ok. unfold list_physical_devices.
      etrans; [apply bind_ok; by apply invoke_ok|]. reflexivity. }
    rewrite decide_True by done. rewrite Hcons.
    etrans.
    { apply (try_except_handled _ _ _ s' e).
      apply bind_raise. rewrite <- Hcons, Hgpus. exact Hloop. }
    simpl find. rewrite Hrt. reflexivity. }
  exists s'. split.
  { rewrite main_after_configure_gpu. by apply bind_raise. }
  split; [by rewrite Hout|]. split; [by rewrite Hvis|].
  split; [by rewrite Hfs|].
  assert (hoare (touches (λ c, stage_of c = Configure) (λ _, True) (λ _, True))
            (configure_gpu w) (λ _, True)) as Ht.
  { by apply (t_configure_gpu _ _ _ _ (λ st, st = Configure)). }
  destruct (Ht s) as [[_ Hcalls _ _ _] _]. by rewrite Hconf in Hcalls.
Qed.

Lemma gpu_error_other_than_runtime_error_aborts_witness :
  ∃ s',
    main world_gpu_virtual initial_state
    = (Raise virtual_devices_configured, s')
    ∧ stdout s' = stdout initial_state
    ∧ tf_visible_gpus s' = tf_visible_gpus initial_state
    ∧ fs s' = fs initial_state
    ∧ ∃ cs, calls s' = calls initial_state ++ cs
            ∧ Forall (λ c, stage_of c = Configure) cs.
Proof.
  apply (gpu_error_other_than_runtime_error_aborts world_gpu_virtual
           initial_state [] [] gpu0 virtual_devices_configured).
  - reflexivity.
  - reflexivity.
  - constructor.
  - reflexivity.
  - reflexivity.
Defined.

(** X14. Lines 57-71. The except clause around the augmentation pipeline catches
    instances of Exception only. An exception that is not one (Ctrl-C, a
    SystemExit) raised while the random layers are built is not turned into
    a run without augmentation: it leaves the block, nothing is printed, and
    no network is built. *)
Theorem augmentation_handler_lets_interrupts_through (w : world)
    (e : exception) (p : prepared) (s : state) :
  w_raises w (Call.keras_Sequential augmentation_layers) = Some e →
  isinstance e Exception = false →
  ∃ s',
    make_augmentation w s = (Raise e, s')
    ∧ (let* aug := make_augmentation w in from_line_73 w p aug) s
      = (Raise e, s')
    ∧ stdout s' = stdout s
    ∧ calls s' = calls s ++ [Call.keras_Sequential augmentation_layers].
Proof.
  intros Hraises Hclass.
  assert (make_augmentation w s
          = (Raise e,
             set_calls
               (λ cs, cs ++ [Call.keras_Sequential augmentation_layers]) s))
    as Haug.
  { unfold make_augmentation.
    etrans.
    { eapply (try_except_handled _ _ _ _ e).
      apply bind_raise. unfold keras_Sequential. apply bind_raise.
      by apply invoke_raise. }
    simpl find. rewrite Hclass. reflexivity. }
  eexists. split; [exact Haug|]. split; [by apply bind_raise|]. done.
Qed.

Lemma augmentation_handler_lets_interrupts_through_witness :
  ∃ s',
    make_augmentation world_interrupted_augmentation initial_state
    = (Raise interrupt, s')
    ∧ (let* aug := make_augmentation world_interrupted_augmentation in
       from_line_73 world_interrupted_augmentation no_samples aug)
        initial_state
      = (Raise interrupt, s')
    ∧ stdout s' = stdout initial_state
    ∧ calls s'
      = calls initial_state ++ [Call.keras_Sequential augmentation_layers].
Proof.
  apply (augmentation_handler_lets_interrupts_through
           world_interrupted_augmentation interrupt no_samples initial_state);
    reflexivity.
Defined.

(** X15. Lines 185-219. Neither except clause of the conversion catches an
    exception that is not an instance of Exception. If the import of
    tensorflowjs or the converter raises one, the script ends with it: no
    recovery instructions are printed, and neither is the final report. *)
Theorem conversion_handlers_let_interrupts_through (w : world)
    (model : keras_model) (test_acc : Q) (s : state) (e : exception) :
  w_raises w Call.import_tensorflowjs = Some e
  ∨ (w_raises w Call.import_tensorflowjs = None
     ∧ w_raises w (Call.tfjs_converters_save_keras_model model "static/model")
       = Some e) →
  isinstance e Exception = false →
  ∃ s',
    (convert_to_tfjs w model ;; report test_acc) s = (Raise e, s')
    ∧ stdout s'
      = stdout s ++ [[Lit (nl +:+ "Converting to TensorFlow.js format...")]].
Proof.
  intros Hraises Hclass.
  pose proof (not_exception_not_import_error e Hclass) as Himport.
  destruct (conversion_body_raises w model
              (set_stdout
                 (λ out, out ++ [[Lit (nl +:+ "Converting to TensorFlow.js format...")]])
                 s) e Hraises) as (s1 & Hbody & Hout).
  exists s1. split; [|by rewrite Hout].
  apply bind_raise. unfold convert_to_tfjs. rewrite bind_print.
  etrans; [by apply (try_except_handled _ _ _ s1 e)|].
  simpl find. rewrite Himport, Hclass. reflexivity.
Qed.

Lemma conversion_handlers_let_interrupts_through_witness :
  ∃ s',
    (convert_to_tfjs world_interrupted_import empty_model ;; report 0.99)
      initial_state
    = (Raise interrupt, s')
    ∧ stdout s'
      = stdout initial_state
        ++ [[Lit (nl +:+ "Converting to TensorFlow.js format...")]].
Proof.
  apply (conversion_handlers_let_interrupts_through world_interrupted_import
           empty_model 0.99 initial_state interrupt).
  - left. reflexivity.
  - reflexivity.
Defined.

(** ** Labels that are not digits (lines 53-55) *)

Lemma scatter_ones_out_of_range (nc : nat) (xs : list nat) :
  ¬ Forall (λ x, x < nc) xs →
  ∀ i cat,
    scatter_ones nc i xs cat
    = Raise (mk_exception IndexError "index is out of bounds for axis 1").
Proof.
  induction xs as [|x xs IH]; intros Hnot i cat; simpl.
  - destruct Hnot. constructor.
  - destruct (decide (x < nc)) as [Hx|_]; [|done].
    apply IH. intros Hxs. apply Hnot. by constructor.
Qed.

Lemma to_categorical_outcome (y : ndarray byte) :
  (Forall (λ b, label_of b ≤ 9) (data y) ∧ ∃ c, to_categorical y 10 = Ok c)
  ∨ (¬ Forall (λ b, label_of b ≤ 9) (data y)
     ∧ to_categorical y 10
       = Raise (mk_exception IndexError "index is out of bounds for axis 1")).
Proof.
  destruct (decide (Forall (λ b, label_of b ≤ 9) (data y))) as [Hdig|Hnot].
  - left. split; [done|].
    assert (Forall (λ x, x < 10) (label_of <$> data y)) as Hlt.
    { apply Forall_fmap. eapply Forall_impl; [exact Hdig|]. simpl. lia. }
    destruct (scatter_ones_ok 10 _ Hlt 0
                (replicate (length (label_of <$> data y) * 10) F32.zero))
      as (cat & Hcat & _).
    unfold to_categorical. simpl. rewrite Hcat. simpl. by eexists.
  - right. split; [done|].
    unfold to_categorical. simpl. rewrite scatter_ones_out_of_range; [done|].
    intros Hlt. apply Hnot. apply Forall_fmap in Hlt.
    eapply Forall_impl; [exact Hlt|]. simpl. lia.
Qed.

(** X16. Lines 45-55. Preprocessing succeeds exactly when every training label
    and every test label is a digit, whatever the shapes of the arrays are;
    when it fails, it fails with the IndexError of the one-hot encoding: a
    label of 10 or more is not mapped to any class. *)
Theorem preprocess_succeeds_iff_labels_are_digits (ds : dataset) (s : state) :
  ((∃ p, (preprocess ds s).1 = Ok p)
   ↔ Forall (λ b, label_of b ≤ 9) (data ds.1.2)
     ∧ Forall (λ b, label_of b ≤ 9) (data ds.2.2))
  ∧ ∀ e, (preprocess ds s).1 = Raise e → exn_cls e = IndexError.
Proof.
  destruct ds as [[xtr ytr] [xte yte]]. simpl.
  unfold preprocess, astype, truediv, np_expand_dims,
    keras_utils_to_categorical, bind, log, modify, lift, ret.
  rewrite !decide_True by done. rewrite !expand_dims_last. simpl.
  destruct (to_categorical_outcome ytr) as [[Htr [ctr ->]]|[Htr ->]]; simpl.
  - destruct (to_categorical_outcome yte) as [[Hte [cte ->]]|[Hte ->]]; simpl.
    + split; [|done]. split; [done|]. intros _. by eexists.
    + split; [|by intros e [= <-]]. split; [by intros [p ?]|].
      by intros [_ ?].
  - split; [|by intros e [= <-]]. split; [by intros [p ?]|]. by intros [? _].
Qed.

(** ** Normalisation keeps the order of the gray levels (lines 45-47) *)

Lemma normalization_table_increasing :
  let t := (λ i, F32.div (F32.of_Z (Z.of_nat i)) f255) <$> seq 0 256 in
  forallb
    (λ i, forallb
            (λ j, implb (i <? j)
                    (SFltb (default F32.zero (t !! i))
                           (default F32.zero (t !! j))))
            (seq 0 256))
    (seq 0 256) = true.
Proof. vm_compute. reflexivity. Qed.

(** X17. Lines 45-47. Dividing by 255.0 in float32 keeps the gray levels apart
    and in order: a byte that is smaller than another is normalised to a
    strictly smaller float, so no two of the 256 levels collapse to one
    value. *)
Theorem normalization_is_increasing (b1 b2 : byte) :
  (Byte.to_N b1 < Byte.to_N b2)%N →
  SFltb (F32.div (F32.of_byte b1) f255) (F32.div (F32.of_byte b2) f255)
  = true.
Proof.
  intros Hlt.
  pose proof (Byte.to_N_bounded b1) as Hb1.
  pose proof (Byte.to_N_bounded b2) as Hb2.
  pose proof normalization_table_increasing as Htable. cbv zeta in Htable.
  rewrite forallb_forall in Htable.
  specialize (Htable (N.to_nat (Byte.to_N b1))
                ltac:(apply in_seq; lia)).
  rewrite forallb_forall in Htable.
  specialize (Htable (N.to_nat (Byte.to_N b2))
                ltac:(apply in_seq; lia)).
  rewrite !list_lookup_fmap, !lookup_seq_lt in Htable by lia.
  cbn [fmap option_fmap option_map default Nat.add] in Htable.
  rewrite !N_nat_Z in Htable.
  assert ((N.to_nat (Byte.to_N b1) <? N.to_nat (Byte.to_N b2)) = true)
    as Hlt'.
  { apply Nat.ltb_lt. lia. }
  rewrite Hlt' in Htable. exact Htable.
Qed.

Lemma normalization_is_increasing_witness :
  SFltb (F32.div (F32.of_byte "000"%byte) f255)
        (F32.div (F32.of_byte "255"%byte) f255)
  = true.
Proof.
  apply (normalization_is_increasing "000"%byte "255"%byte). reflexivity.
Defined.

(** ** The model that is built, trained and saved (lines 57-183) *)






(** The claim C2 as it was stated, for any other exception, fails for an
    exception that is not an instance of [Exception]: when the user
    interrupts the converter, neither except clause handles the
    KeyboardInterrupt; the run, which had saved models/mnist_model.h5, ends
    with it and the final report is not printed. *)
Lemma conversion_interrupt_aborts :
  (∀ m dir,
     w_raises world_interrupted_conversion
       (Call.tfjs_converters_save_keras_model m dir) = Some interrupt)
  ∧ w_raises world_interrupted_conversion Call.import_tensorflowjs = None
  ∧ (main world_interrupted_conversion initial_state).1 = Raise interrupt
  ∧ is_Some (fs (main world_interrupted_conversion initial_state).2
               !! "models/mnist_model.h5")
  ∧ Forall (λ l, l ≠ [Lit "✓ TRAINING COMPLETE!"])
      (stdout (main world_interrupted_conversion initial_state).2).
Proof.
  split; [done|]. split; [reflexivity|]. split; [vm_compute; reflexivity|].
  split.
  - eexists. vm_compute. reflexivity.
  - vm_compute. repeat constructor; discriminate.
Qed.

(** ** The topology of the model (lines 73-119) *)

Lemma classifier_topology_plain :
  classifier_topology (Input [28; 28; 1] :: convolutional_blocks).
Proof. repeat split; reflexivity. Qed.

Lemma classifier_topology_augmented :
  classifier_topology
    (Input [28; 28; 1] :: Sequential augmentation_layers
     :: convolutional_blocks).
Proof. repeat split; reflexivity. Qed.

(** The model lines 73-127 make of what lines 57-71 left. *)
Lemma created_model_topology (w : world) (s0 s1 s2 : state)
    (aug : option keras_model * bool) (model : keras_model) :
  make_augmentation w s0 = (Ok aug, s1) →
  create_model w aug s1 = (Ok model, s2) →
  m_layers model = Input [28; 28; 1] :: convolutional_blocks
  ∨ m_layers model
    = Input [28; 28; 1] :: Sequential augmentation_layers
      :: convolutional_blocks.
Proof.
  intros Haug Hcreate.
  pose proof (t_make_augmentation (λ _, True) (λ _, True) (λ _, True) w I)
    as Hshape.
  destruct (Hshape s0) as [_ Hshape']. specialize (Hshape' aug).
  rewrite Haug in Hshape'. specialize (Hshape' eq_refl).
  apply create_model_inv in Hcreate as (-> & _).
  destruct Hshape' as [-> | ->]; [by left|by right].
Qed.

Lemma hoare_post {A} (R : relation state) (m : M A) (Q Q' : A → Prop) :
  hoare R m Q → (∀ s a s', m s = (Ok a, s') → Q' a) → hoare R m Q'.
Proof.
  intros Hm HQ s. destruct (Hm s) as [HR _]. split; [done|].
  intros a Ha. destruct (m s) as [r s'] eqn:Hrun. simpl in Ha. subst r.
  by eapply HQ.
Qed.

(** In every run, each Sequential model that is built is a known one and
    each call of [model.fit] is made on a model with the topology of the
    classifier. *)
Lemma main_builds_and_fits_classifier (w : world) :
  hoare (touches (λ c, builds_known_model w c ∧ fits_classifier c)
           (λ _, True) (λ _, True))
    (main w) (λ _, True).
Proof.
  set (Pc := λ c, builds_known_model w c ∧ fits_classifier c).
  assert (∀ c, stage_of c ≠ Fit → stage_of c ≠ Build → Pc c) as Hother.
  { intros c Hfit Hbuild. split.
    - intros ls ->. by destruct Hbuild.
    - intros m x y args ->. by destruct Hfit. }
  assert (Pc (Call.keras_Sequential augmentation_layers)) as Haugmentation.
  { split; [intros ls [= <-]; by left|by intros m x y args]. }
  unfold main, train_and_save.
  hoare_by hoare_seq; [|intros [model test_acc]].
  2:{ hoare_by hoare_seq; [|intros _; apply t_report].
      by apply (t_convert_to_tfjs _ _ _ _ (λ st, st ≠ Fit)). }
  hoare_by hoare_seq; [|intros p].
  { by apply (t_prepare _ _ _ _ (λ st, st ≠ Fit)). }
  hoare_by hoare_bind; [by apply t_make_augmentation|].
  intros aug Haug. unfold build_train_save.
  hoare_by hoare_bind.
  { eapply (hoare_post _ _ _
              (λ model, m_layers model = create_layers aug.2 aug.1)).
    - apply (t_create_model _ _ _ _ (λ st, st ≠ Fit)); [done..|].
      split; [|by intros m x y args].
      intros ls [= <-]. right.
      destruct Haug as [-> | ->]; (split; [|reflexivity]);
        [by left|by right].
    - intros s model s' Hcreate. by apply create_model_inv in Hcreate as [? _]. }
  intros model Hlayers.
  hoare_by hoare_seq; [|intros [model1 history]].
  { unfold train.
    do 3 (hoare_by hoare_seq; [apply t_print|intros _]).
    apply t_fit; [|by repeat constructor].
    split; [by intros ls|]. intros m x y args [= <- _ _ _].
    rewrite Hlayers.
    destruct Haug as [-> | ->];
      [apply classifier_topology_plain|apply classifier_topology_augmented]. }
  hoare_by hoare_seq; [|intros [model2 test_acc]].
  { by apply (t_evaluate_and_load_best _ _ _ _ (λ st, st ≠ Fit)). }
  hoare_by hoare_seq; [|intros _; by hoare_by hoare_ret].
  by apply (t_save_final _ _ _ _ (λ st, st ≠ Fit)).
Qed.

(** C10. Whether or not augmentation is enabled, the model that lines
    73-127 build takes (28, 28, 1) inputs, ends in Dense(10, softmax) and
    maps a sample to 10 values; it is the network of lines 84-117, with the
    augmentation pipeline after its input layer or without it, and that is
    all that varies. This is the model the script goes on with: in every
    run, whatever the libraries answer, each Sequential model that is built
    is the augmentation pipeline or this network, and each call of
    [model.fit] is made on a model with this topology; and when a run
    completes, the model saved in models/mnist_model.h5 has it. Whatever
    the two variables of lines 57-71 hold, the list of layers of lines
    75-117 starts with the input, ends with Dense(10, softmax) and is the
    plain network once its augmentation layer is left out. *)
Theorem built_model_topology (w : world) :
  (∀ s0 aug s1 model s2,
     make_augmentation w s0 = (Ok aug, s1) →
     create_model w aug s1 = (Ok model, s2) →
     classifier_topology (m_layers model)
     ∧ (m_layers model = Input [28; 28; 1] :: convolutional_blocks
        ∨ m_layers model
          = Input [28; 28; 1]
            :: Sequential [RandomRotation 0.1; RandomZoom 0.1;
                           RandomTranslation 0.1 0.1]
            :: convolutional_blocks))
  ∧ (∀ s, ∃ cs,
       calls (main w s).2 = calls s ++ cs
       ∧ Forall (λ c, builds_known_model w c ∧ fits_classifier c) cs)
  ∧ (∀ s s',
       main w s = (Ok (), s') →
       ∃ m, fs s' !! "models/mnist_model.h5" = Some (H5 m)
            ∧ classifier_topology (m_layers m))
  ∧ (∀ use_augmentation data_augmentation,
       let layers := create_layers use_augmentation data_augmentation in
       head layers = Some (Input [28; 28; 1])
       ∧ last layers = Some (Dense 10 softmax)
       ∧ filter (λ l, is_augmentation_layer l = false) layers
         = create_layers false None).
Proof.
  split; [|split; [|split]]; cycle 3.
  { intros ua da layers. subst layers.
    destruct (create_layers_cases ua da) as [->|(aug & _ & _ & ->)];
      by repeat split. }
  - intros s0 aug s1 model s2 Haug Hcreate.
    destruct (created_model_topology w s0 s1 s2 aug model Haug Hcreate)
      as [Hlayers|Hlayers]; rewrite Hlayers.
    + split; [apply classifier_topology_plain|by left].
    + split; [apply classifier_topology_augmented|by right].
  - intros s.
    by destruct (main_builds_and_fits_classifier w s) as [[_ Hc _ _ _] _].
  - intros s s' Hrun.
    apply main_inv in Hrun
      as (p & aug & m0 & m1 & history & m2 & test_acc
          & s1 & s2 & s3 & s4 & s5 & s6
          & Hprep & Haug & Hcreate & Htrain & Heval & Hsave & Hrest).
    pose proof (created_model_topology w _ _ _ _ _ Haug Hcreate) as Hlayers.
    destruct (train_inv _ _ _ _ _ _ _ Htrain)
      as (compiled & e & b & k & _
          & (ws & l & lr & _ & _ & _ & _ & Hfile) & _).
    apply evaluate_and_load_best_inv in Heval as (Hloaded & _).
    rewrite Hfile in Hloaded. injection Hloaded as <-.
    apply save_final_inv in Hsave as (Hsaved & _).
    exists (with_weights (with_learning_rate m0 lr) ws). split.
    + replace s' with ((convert_to_tfjs w
                          (with_weights (with_learning_rate m0 lr) ws) ;;
                        report test_acc) s6).2 by by rewrite Hrest.
      rewrite convert_and_report_frame
        by apply saved_model_not_conversion_path.
      done.
    + cbn [m_layers with_weights with_learning_rate].
      destruct Hlayers as [-> | ->];
        [apply classifier_topology_plain|apply classifier_topology_augmented].
Qed.

Lemma built_model_topology_witness :
  (∃ aug s1 model s2,
     make_augmentation world_ok initial_state = (Ok aug, s1)
     ∧ create_model world_ok aug s1 = (Ok model, s2)
     ∧ classifier_topology (m_layers model))
  ∧ ∃ m, fs (main world_ok initial_state).2 !! "models/mnist_model.h5"
         = Some (H5 m)
         ∧ classifier_topology (m_layers m).
Proof.
  split.
  - eexists _, _, _, _. split; [vm_compute; reflexivity|].
    split; [vm_compute; reflexivity|].
    refine (proj1 (proj1 (built_model_topology world_ok)
                     initial_state _ _ _ _ _ _)); vm_compute; reflexivity.
  - apply (proj1 (proj2 (proj2 (built_model_topology world_ok)))
             initial_state).
    vm_compute. reflexivity.
Defined.

(** ** The calls of a run, block by block (lines 19-206) *)








Section BlockCalls.
Context (w : world).

#[local] Abbreviation quiet :=
  (touches (λ _, False) (λ _, True) (λ _, True)).




















End BlockCalls.



